(** * WanderPlan: the budget aggregation and cost-estimation subsystem

    A shallow embedding of [routers/budget.py], of the tables it uses from
    [db/database.py], of [services/ollama_service.py], of [routers/chat.py]
    and of the trip handlers of [routers/trips.py], with the properties of
    the budget specification stated and proved over it.

    Modelling conventions.
    - A Python [float] is an IEEE 754 binary64 value: [spec_float] of the
      Standard Library with its operations at precision 53, rounding to
      nearest, ties to even.  Sums and products overflow to infinities,
      [inf - inf] is a NaN, and [round(x, n)] is Python's: the exact value
      of the double is rounded half-to-even to [n] decimals and the result
      is the double nearest to that decimal.  A Python [int] is an integer
      of any size.
    - A [Float] column holds a double that is not a NaN ([real]): SQLite
      stores NULL for a NaN.  The numbers of a request body have this type
      too; a request that carries a NaN is not modelled.
    - [sum] adds from left to right, as CPython does up to version 3.11
      (later versions compensate the rounding errors of the additions).  The
      empty sum, the integer 0 in Python, is the float 0.0 here.
    - A Python exception is a value of [exn]; code that can raise returns
      [result].  Division raises [ZeroDivisionError] on a zero denominator
      and the conversion of an integer beyond the range of the doubles
      raises [OverflowError], exactly where Python does.
    - Values decoded from JSON (the stored estimate blob, the gateway's
      reply) are trees of type [json]; attribute and type errors that Python
      raises on an unexpected shape are raised by the model too.
    - [json.loads], [json.dumps], [date.fromisoformat] and [str.upper] are
      library functions; the code that calls them takes them as parameters.
    - The database is a pair of tables, each a list of rows in rowid order.
      A handler takes the database before the request and returns its
      response together with the database after it; rows changed in the
      session are written at [db.commit()], so a handler that raises before
      its commit returns the database unchanged.  The response is what the
      handler returns or raises: rendering a returned body as JSON is the
      framework's and is not modelled. *)

From Stdlib Require Import ZArith String Ascii List.
From Stdlib Require Import Bool Lia.
From Stdlib Require Import Floats.SpecFloat.
From Stdlib Require Import Sorting.Permutation Sorting.Sorted.
From Stdlib Require Import DecimalString.
Import ListNotations.

Set Warnings "-register-all".

Local Open Scope string_scope.
Local Open Scope Z_scope.

(** ** Exceptions and results *)

Inductive exn : Type :=
| ZeroDivisionError
| OverflowError (message : string)
| ValueError (message : string)
| AttributeError (type_name attribute : string)
| TypeError (message : string)
| KeyError (key : string)
| RequestError (message : string).

Inductive result (A : Type) : Type :=
| Ok (a : A)
| Raise (e : exn).

Arguments Ok {A} a.
Arguments Raise {A} e.

Definition bind {A B : Type} (m : result A) (k : A -> result B) : result B :=
  match m with
  | Ok a => k a
  | Raise e => Raise e
  end.

Notation "x <- m ;; k" := (bind m (fun x => k))
  (at level 61, m at next level, right associativity).

Fixpoint mapM {A B : Type} (f : A -> result B) (l : list A) : result (list B) :=
  match l with
  | [] => Ok []
  | a :: l' => b <- f a ;; bs <- mapM f l' ;; Ok (b :: bs)
  end.

(** [str(e)] *)
Definition str_exn (e : exn) : string :=
  match e with
  | ZeroDivisionError => "float division by zero"
  | OverflowError msg => msg
  | ValueError msg => msg
  | AttributeError ty attr =>
      "'" ++ ty ++ "' object has no attribute '" ++ attr ++ "'"
  | TypeError msg => msg
  | KeyError key => "'" ++ key ++ "'"
  | RequestError msg => msg
  end.

(** ** Numbers *)

(** A Python [float]: a zero, an infinity, a NaN, or [(-1)^s * m * 2^e]. *)
Definition float : Type := spec_float.

Definition prec : Z := 53.
Definition emax : Z := 1024.

Definition fadd (x y : float) : float := SFadd prec emax x y.
Definition fsub (x y : float) : float := SFsub prec emax x y.
Definition fmul (x y : float) : float := SFmul prec emax x y.
Definition fdiv (x y : float) : float := SFdiv prec emax x y.

Definition zero : float := S754_zero false.

(** [x == 0.0]; [not x] on a float. *)
Definition is_zero (x : float) : bool :=
  match x with
  | S754_zero _ => true
  | _ => false
  end.

(** The double nearest to [num / den], with the sign given: the two
    integers enter the division with their exact values. *)
Definition ratio (negative : bool) (num den : positive) : float :=
  fdiv (S754_finite negative num 0) (S754_finite false den 0).

(** The float written as the decimal [num / den] in a program or a JSON
    text. *)
Definition decimal (num : Z) (den : positive) : float :=
  match num with
  | Z0 => zero
  | Zpos p => ratio false p den
  | Zneg p => ratio true p den
  end.

(** [float(n)] on an [int], as arithmetic with a float operand converts it:
    the nearest double, zero for 0 only, and [OverflowError] where the
    nearest double would be an infinity. *)
Definition int_to_float (n : Z) : result float :=
  match n with
  | Z0 => Ok zero
  | Zpos p | Zneg p =>
      match binary_round prec emax (n <? 0) p 0 with
      | S754_finite s m e => Ok (S754_finite s m e)
      | _ => Raise (OverflowError "int too large to convert to float")
      end
  end.

(** The literal [100] as a float operand. *)
Definition hundred : float := decimal 100 1.

(** [x / y] on floats *)
Definition float_div (x y : float) : result float :=
  if is_zero y then Raise ZeroDivisionError else Ok (fdiv x y).

(** The integer nearest to [a / b] for [b > 0], ties going to the even
    neighbour. *)
Definition half_even_quotient (a b : Z) : Z :=
  let q := a / b in
  match Z.compare (2 * (a mod b)) b with
  | Lt => q
  | Gt => q + 1
  | Eq => if Z.even q then q else q + 1
  end.

(** [|x| * scale] for a finite [x = m * 2^e], rounded half-to-even to an
    integer. *)
Definition scaled (m : positive) (e : Z) (scale : Z) : Z :=
  match e with
  | Zneg p => half_even_quotient (Zpos m * scale) (2 ^ Zpos p)
  | _ => Zpos m * 2 ^ e * scale
  end.

(** [round(x, ndigits)] for [ndigits >= 0]: the decimal with [ndigits]
    places nearest to the exact value of [x], then the double nearest to
    that decimal; an infinity or a NaN is returned as it is, and a result
    of zero keeps the sign of [x]. *)
Definition py_round (x : float) (ndigits : Z) : float :=
  match x with
  | S754_finite s m e =>
      match scaled m e (10 ^ ndigits) with
      | Zpos k => ratio s k (Z.to_pos (10 ^ ndigits))
      | _ => S754_zero s
      end
  | _ => x
  end.

(** [round(x)]: the nearest integer, as an [int] *)
Definition py_round_int (x : float) : result Z :=
  match x with
  | S754_zero _ => Ok 0
  | S754_finite s m e => Ok (if s then - scaled m e 1 else scaled m e 1)
  | S754_infinity _ =>
      Raise (OverflowError "cannot convert float infinity to integer")
  | S754_nan => Raise (ValueError "cannot convert float NaN to integer")
  end.

(** The value of a [Float] column that is not NULL, and of a number in a
    request body: a double other than a NaN. *)
Inductive real : Type :=
| RZero (negative : bool)
| RInf (negative : bool)
| RFinite (negative : bool) (m : positive) (e : Z).

Definition to_float (r : real) : float :=
  match r with
  | RZero s => S754_zero s
  | RInf s => S754_infinity s
  | RFinite s m e => S754_finite s m e
  end.

(** What a [Float] column stores for a float: NULL for a NaN. *)
Definition column (x : float) : option real :=
  match x with
  | S754_zero s => Some (RZero s)
  | S754_infinity s => Some (RInf s)
  | S754_finite s m e => Some (RFinite s m e)
  | S754_nan => None
  end.

Definition real_is_zero (r : real) : bool := is_zero (to_float r).

(** The number [n.0], for the sample data. *)
Definition real_of_Z (n : Z) : real :=
  match column (decimal n 1) with
  | Some r => r
  | None => RZero false
  end.

(** The number written [num / den] as a decimal, for the sample data. *)
Definition real_of_decimal (num : Z) (den : positive) : real :=
  match column (decimal num den) with
  | Some r => r
  | None => RZero false
  end.

(** ** JSON values as Python objects *)

Inductive json : Type :=
| JNull
| JBool (b : bool)
| JInt (n : Z)
| JFloat (x : float)
| JStr (s : string)
| JArr (items : list json)
| JObj (members : list (string * json)).

Definition type_name (v : json) : string :=
  match v with
  | JNull => "NoneType"
  | JBool _ => "bool"
  | JInt _ => "int"
  | JFloat _ => "float"
  | JStr _ => "str"
  | JArr _ => "list"
  | JObj _ => "dict"
  end.

(** Truth value of an object, as tested by [if v], [not v] and [v or d]. *)
Definition truthy (v : json) : bool :=
  match v with
  | JNull => false
  | JBool b => b
  | JInt n => negb (n =? 0)
  | JFloat x => negb (is_zero x)
  | JStr s => negb (String.eqb s "")
  | JArr items => match items with [] => false | _ => true end
  | JObj members => match members with [] => false | _ => true end
  end.

(** A dict keeps one binding per key: lookup takes the first one. *)
Fixpoint dict_get {V : Type} (d : list (string * V)) (key : string) : option V :=
  match d with
  | [] => None
  | (k, v) :: d' => if String.eqb k key then Some v else dict_get d' key
  end.

(** [v.get(key, default)]: only a dict has the method. *)
Definition py_get (v : json) (key : string) (default : json) : result json :=
  match v with
  | JObj members =>
      Ok (match dict_get members key with Some x => x | None => default end)
  | _ => Raise (AttributeError (type_name v) "get")
  end.

(** [v[key]] *)
Definition py_getitem (v : json) (key : string) : result json :=
  match v with
  | JObj members =>
      match dict_get members key with
      | Some x => Ok x
      | None => Raise (KeyError key)
      end
  | _ => Raise (TypeError ("'" ++ type_name v ++ "' object is not subscriptable"))
  end.

(** An object as the right operand of a float operation: a float is taken
    as it is, an [int] is converted, a [bool] is an [int], and any other
    object is no number. *)
Definition as_float (v : json) : option (result float) :=
  match v with
  | JBool b => Some (int_to_float (if b then 1 else 0))
  | JInt n => Some (int_to_float n)
  | JFloat x => Some (Ok x)
  | _ => None
  end.

(** [x / d] where [x] is a float and [d] any object *)
Definition py_div (x : float) (d : json) : result float :=
  match as_float d with
  | Some converted => y <- converted ;; float_div x y
  | None =>
      Raise (TypeError ("unsupported operand type(s) for /: 'float' and '"
                        ++ type_name d ++ "'"))
  end.

(** The number a [Float] column stores for a decoded JSON number: the
    double itself, the double nearest to an integer of at most 64 bits, 1.0
    or 0.0 for a [bool].  A NaN, an integer beyond 64 bits and a value that
    is no number are left to the SQL driver. *)
Definition as_number (v : json) : option real :=
  match v with
  | JBool b => Some (real_of_Z (if b then 1 else 0))
  | JInt n =>
      if (- 2 ^ 63 <=? n) && (n <? 2 ^ 63)
      then match int_to_float n with
           | Ok x => column x
           | Raise _ => None
           end
      else None
  | JFloat x => column x
  | _ => None
  end.

(** ** The tables of [db/database.py] *)

Definition EXPENSE_CATEGORIES : list string :=
  ["accommodation"; "food"; "transport"; "activities"; "shopping"; "other"].

Module Trip.
Record t : Type := mk {
  id : Z;
  title : string;
  destination : string;
  start_date : option string;
  end_date : option string;
  description : option string;
  lat : option real;
  lon : option real;
  created_at : Z;
  budget_total : option real;
  budget_currency : option string;
  budget_estimates : option json
}.

Definition set_budget_total (v : option real) (r : t) : t :=
  mk (id r) (title r) (destination r) (start_date r) (end_date r)
     (description r) (lat r) (lon r) (created_at r)
     v (budget_currency r) (budget_estimates r).

Definition set_budget_currency (v : option string) (r : t) : t :=
  mk (id r) (title r) (destination r) (start_date r) (end_date r)
     (description r) (lat r) (lon r) (created_at r)
     (budget_total r) v (budget_estimates r).

Definition set_budget_estimates (v : option json) (r : t) : t :=
  mk (id r) (title r) (destination r) (start_date r) (end_date r)
     (description r) (lat r) (lon r) (created_at r)
     (budget_total r) (budget_currency r) v.
End Trip.

Module Expense.
Record t : Type := mk {
  id : Z;
  trip_id : Z;
  category : string;
  description : string;
  amount : real;
  currency : option string;
  date : option string;
  notes : option string;
  created_at : Z
}.
End Expense.

Record DB : Type := mkDB {
  trips : list Trip.t;
  expenses : list Expense.t
}.

(** ** [routers/budget.py]: helpers *)

Definition CATEGORY_ICONS : list (string * string) :=
  [("accommodation", "🏨"); ("food", "🍜"); ("transport", "✈️");
   ("activities", "🎭"); ("shopping", "🛍️"); ("other", "📦")].

Record CategoryEntry : Type := mkCategoryEntry {
  ce_category : string;
  ce_icon : string;
  ce_spent : float;
  ce_estimated : json;
  ce_pct_of_budget : option float;
  ce_pct_of_estimate : option float
}.

Record Summary : Type := mkSummary {
  s_budget_total : option real;
  s_budget_currency : string;
  s_total_spent : float;
  s_remaining : option float;
  s_pct_used : option float;
  s_categories : list CategoryEntry;
  s_estimates : json
}.

(** [s or default] on an optional string *)
Definition str_or (s : option string) (default : string) : string :=
  match s with
  | Some v => if String.eqb v "" then default else v
  | None => default
  end.

(** [if trip.budget_total]: the budget when it is neither [None] nor 0. *)
Definition budget_if_set (b : option real) : option real :=
  match b with
  | Some v => if real_is_zero v then None else Some v
  | None => None
  end.

(** [by_category[key] += amount] on a [defaultdict(float)]: a missing key
    starts from 0.0, and a new key goes last, as in a Python dict. *)
Fixpoint dict_add (d : list (string * float)) (key : string) (amount : float)
  : list (string * float) :=
  match d with
  | [] => [(key, fadd zero amount)]
  | (k, v) :: d' =>
      if String.eqb k key then (k, fadd v amount) :: d'
      else (k, v) :: dict_add d' key amount
  end.

Definition group_by_category (expenses : list Expense.t)
  : list (string * float) :=
  fold_left (fun d e =>
               dict_add d (Expense.category e) (to_float (Expense.amount e)))
            expenses [].

(** [sum(values)] *)
Definition py_sum (values : list float) : float :=
  fold_left fadd values zero.

(** [d.get(cat, 0.0)] *)
Definition lookup0 (d : list (string * float)) (cat : string) : float :=
  match dict_get d cat with
  | Some v => v
  | None => zero
  end.

Definition category_entry (budget_total : option real) (estimates : json)
    (by_category : list (string * float)) (cat : string)
  : result CategoryEntry :=
  let spent := lookup0 by_category cat in
  entry <- py_get estimates cat (JObj []) ;;
  estimated <- py_get entry "amount" (JFloat zero) ;;
  icon <- match dict_get CATEGORY_ICONS cat with
          | Some i => Ok i
          | None => Raise (KeyError cat)
          end ;;
  pct_of_budget <-
    match budget_if_set budget_total with
    | Some b =>
        q <- float_div spent (to_float b) ;;
        Ok (Some (py_round (fmul q hundred) 1))
    | None => Ok None
    end ;;
  pct_of_estimate <-
    (if truthy estimated
     then q <- py_div spent estimated ;;
          Ok (Some (py_round (fmul q hundred) 1))
     else Ok None) ;;
  Ok (mkCategoryEntry cat icon spent estimated pct_of_budget pct_of_estimate).

(** [trip.budget_estimates or {}] *)
Definition estimates_or_empty (estimates : option json) : json :=
  match estimates with
  | Some j => if truthy j then j else JObj []
  | None => JObj []
  end.

Definition compute_summary (trip : Trip.t) (expenses : list Expense.t)
  : result Summary :=
  let currency := str_or (Trip.budget_currency trip) "USD" in
  let by_category := group_by_category expenses in
  let total_spent := py_sum (map snd by_category) in
  let estimates := estimates_or_empty (Trip.budget_estimates trip) in
  categories <-
    mapM (category_entry (Trip.budget_total trip) estimates by_category)
         EXPENSE_CATEGORIES ;;
  remaining <-
    match budget_if_set (Trip.budget_total trip) with
    | Some b => Ok (Some (py_round (fsub (to_float b) total_spent) 2))
    | None => Ok None
    end ;;
  pct_used <-
    match budget_if_set (Trip.budget_total trip) with
    | Some b =>
        q <- float_div total_spent (to_float b) ;;
        Ok (Some (py_round (fmul q hundred) 1))
    | None => Ok None
    end ;;
  Ok (mkSummary (Trip.budget_total trip) currency (py_round total_spent 2)
                remaining pct_used categories estimates).

(** ** Requests and responses *)

(** What a handler produces: the body it returns, an [HTTPException] it
    raised, or an exception nobody caught (answered with status 500).
    [Unmodelled] marks the one situation left out: a value assigned to a
    typed column that the column does not hold as it is, whose fate depends
    on the SQL driver's coercions. *)
Inductive response (A : Type) : Type :=
| Success (body : A)
| HTTPException (status_code : Z) (detail : string)
| ServerError (e : exn)
| Unmodelled.

Arguments Success {A} body.
Arguments HTTPException {A} status_code detail.
Arguments ServerError {A} e.
Arguments Unmodelled {A}.

Definition respond {A : Type} (r : result A) : response A :=
  match r with
  | Ok a => Success a
  | Raise e => ServerError e
  end.

Record BudgetUpdate : Type := mkBudgetUpdate {
  bu_budget_total : option real;
  bu_budget_currency : option string
}.

Record ExpenseCreate : Type := mkExpenseCreate {
  ec_category : string;
  ec_description : string;
  ec_amount : real;
  ec_currency : option string;
  ec_date : option string;
  ec_notes : option string
}.

Record ExpenseUpdate : Type := mkExpenseUpdate {
  eu_category : option string;
  eu_description : option string;
  eu_amount : option real;
  eu_currency : option string;
  eu_date : option string;
  eu_notes : option string
}.

Record EstimateRequest : Type := mkEstimateRequest {
  er_model : string;
  er_travelers : Z;
  er_duration_days : option Z;
  er_travel_style : string
}.

Record ExpenseDict : Type := mkExpenseDict {
  ed_expense : Expense.t;
  ed_icon : string
}.

(** The row's columns (the creation time is kept as the timestamp) and the
    icon of its category. *)
Definition expense_to_dict (e : Expense.t) : ExpenseDict :=
  mkExpenseDict e
    (match dict_get CATEGORY_ICONS (Expense.category e) with
     | Some i => i
     | None => "📦"
     end).

(** ** Queries and commits *)

(** [db.query(Trip).filter(Trip.id == trip_id).first()] *)
Definition find_trip (db : DB) (trip_id : Z) : option Trip.t :=
  find (fun t => Trip.id t =? trip_id) (trips db).

(** [db.query(Expense).filter(Expense.trip_id == trip_id).all()] *)
Definition trip_expenses (db : DB) (trip_id : Z) : list Expense.t :=
  filter (fun e => Expense.trip_id e =? trip_id) (expenses db).

(** [db.query(Expense).filter(Expense.id == expense_id,
                              Expense.trip_id == trip_id).first()] *)
Definition find_expense (db : DB) (expense_id trip_id : Z) : option Expense.t :=
  find (fun e => (Expense.id e =? expense_id) && (Expense.trip_id e =? trip_id))
       (expenses db).

(** Writing a changed row back: [UPDATE ... WHERE id = <primary key>]. *)
Definition commit_trip (t : Trip.t) (db : DB) : DB :=
  mkDB (map (fun r => if Trip.id r =? Trip.id t then t else r) (trips db))
       (expenses db).

Definition commit_expense (e : Expense.t) (db : DB) : DB :=
  mkDB (trips db)
       (map (fun r => if Expense.id r =? Expense.id e then e else r)
            (expenses db)).

(** The rowid SQLite gives a new row: one more than the largest in use. *)
Definition next_expense_id (db : DB) : Z :=
  1 + fold_right Z.max 0 (map Expense.id (expenses db)).

(** [compute_summary(trip, expenses)] where [trip] may be [None]: reading
    an attribute of [None] raises. *)
Definition compute_summary_opt (trip : option Trip.t) (expenses : list Expense.t)
  : result Summary :=
  match trip with
  | Some t => compute_summary t expenses
  | None => Raise (AttributeError "NoneType" "budget_currency")
  end.

(** ** Budget settings *)

(** [upper] is [str.upper], the case mapping of Unicode. *)
Definition update_budget_settings (upper : string -> string) (trip_id : Z)
    (data : BudgetUpdate) (db : DB) : response Summary * DB :=
  match find_trip db trip_id with
  | None => (HTTPException 404 "Trip not found", db)
  | Some trip =>
      let trip :=
        match bu_budget_total data with
        | Some v => Trip.set_budget_total (Some v) trip
        | None => trip
        end in
      let trip :=
        match bu_budget_currency data with
        | Some c => Trip.set_budget_currency (Some (upper c)) trip
        | None => trip
        end in
      let db := commit_trip trip db in
      let expenses := trip_expenses db trip_id in
      (respond (compute_summary trip expenses), db)
  end.

(** ** Expenses CRUD *)

Record ExpenseResponse : Type := mkExpenseResponse {
  xr_expense : ExpenseDict;
  xr_summary : Summary
}.

Record DeleteResponse : Type := mkDeleteResponse {
  dr_success : bool;
  dr_summary : Summary
}.

(** [x in EXPENSE_CATEGORIES] *)
Definition in_categories (x : string) : bool :=
  existsb (String.eqb x) EXPENSE_CATEGORIES.

(** [a or b or "USD"] on optional strings *)
Definition first_truthy (a b : option string) (default : string) : string :=
  str_or a (str_or b default).

(** [now] is the clock reading [datetime.utcnow] gives the new row. *)
Definition add_expense (trip_id : Z) (data : ExpenseCreate) (now : Z) (db : DB)
  : response ExpenseResponse * DB :=
  match find_trip db trip_id with
  | None => (HTTPException 404 "Trip not found", db)
  | Some trip =>
      if negb (in_categories (ec_category data))
      then (HTTPException 400
              ("category must be one of: ['accommodation', 'food', "
               ++ "'transport', 'activities', 'shopping', 'other']"), db)
      else
        let expense :=
          Expense.mk (next_expense_id db) trip_id (ec_category data)
            (ec_description data) (ec_amount data)
            (Some (first_truthy (ec_currency data) (Trip.budget_currency trip)
                                "USD"))
            (ec_date data) (ec_notes data) now in
        let db := mkDB (trips db) (expenses db ++ [expense]) in
        let expenses := trip_expenses db trip_id in
        (respond (summary <- compute_summary trip expenses ;;
                  Ok (mkExpenseResponse (expense_to_dict expense) summary)),
         db)
  end.

(** [for field, value in data.dict(exclude_none=True).items():
       setattr(expense, field, value)] *)
Definition apply_expense_update (data : ExpenseUpdate) (e : Expense.t)
  : Expense.t :=
  Expense.mk (Expense.id e) (Expense.trip_id e)
    (match eu_category data with Some v => v | None => Expense.category e end)
    (match eu_description data with
     | Some v => v
     | None => Expense.description e
     end)
    (match eu_amount data with Some v => v | None => Expense.amount e end)
    (match eu_currency data with
     | Some v => Some v
     | None => Expense.currency e
     end)
    (match eu_date data with Some v => Some v | None => Expense.date e end)
    (match eu_notes data with Some v => Some v | None => Expense.notes e end)
    (Expense.created_at e).

Definition update_expense (trip_id expense_id : Z) (data : ExpenseUpdate)
    (db : DB) : response ExpenseResponse * DB :=
  match find_expense db expense_id trip_id with
  | None => (HTTPException 404 "Expense not found", db)
  | Some expense =>
      let expense := apply_expense_update data expense in
      let db := commit_expense expense db in
      let trip := find_trip db trip_id in
      let expenses := trip_expenses db trip_id in
      (respond (summary <- compute_summary_opt trip expenses ;;
                Ok (mkExpenseResponse (expense_to_dict expense) summary)),
       db)
  end.

Definition delete_expense (trip_id expense_id : Z) (db : DB)
  : response DeleteResponse * DB :=
  match find_expense db expense_id trip_id with
  | None => (HTTPException 404 "Expense not found", db)
  | Some expense =>
      let db :=
        mkDB (trips db)
             (filter (fun r => negb (Expense.id r =? Expense.id expense))
                     (expenses db)) in
      let trip := find_trip db trip_id in
      let expenses := trip_expenses db trip_id in
      (respond (summary <- compute_summary_opt trip expenses ;;
                Ok (mkDeleteResponse true summary)),
       db)
  end.

(** ** [routers/trips.py]: deleting a trip

    [db.delete(trip)] follows the [cascade="all, delete"] relationship and
    deletes the trip's expenses with it. *)
Definition delete_trip (trip_id : Z) (db : DB) : response bool * DB :=
  match find_trip db trip_id with
  | None => (HTTPException 404 "Trip not found", db)
  | Some trip =>
      (Success true,
       mkDB (filter (fun r => negb (Trip.id r =? Trip.id trip)) (trips db))
            (filter (fun e => negb (Expense.trip_id e =? Trip.id trip))
                    (expenses db)))
  end.

(** ** [services/ollama_service.py]: the Language-Model Gateway *)

Definition dq : string :=
  String (Ascii.Ascii false true false false false true false false) "".

Definition SYSTEM_PROMPT : string :=
  "You are WanderPlan, an expert AI travel planning assistant. You help users plan trips, create detailed itineraries, discover hidden gems, and get practical travel advice.

When a user asks about a destination, you should:
1. Suggest must-see attractions and hidden gems
2. Recommend local food and restaurants
3. Provide practical tips (weather, transport, safety, costs)
4. Help build day-by-day itineraries
5. Suggest accommodations for different budgets

When creating itineraries, format activities as JSON blocks when explicitly requested, like:
```json
{" ++ dq ++ "type" ++ dq ++ ": " ++ dq ++ "itinerary" ++ dq ++ ", "
  ++ dq ++ "days" ++ dq ++ ": [{" ++ dq ++ "day" ++ dq ++ ": 1, "
  ++ dq ++ "activities" ++ dq ++ ": [...]}]}
```

Be enthusiastic, specific, and practical. Always tailor advice to the user's interests and travel style.".

(** What one [client.post] to the Ollama server comes to: the call raises
    (no connection, timeout), or a response arrives, on which
    [raise_for_status()] raises with a message or passes, and whose
    [json()] is the decoded body or raises. *)
Record HttpResponse : Type := mkHttpResponse {
  raise_for_status : option string;
  response_json : result json
}.

Inductive http_outcome : Type :=
| PostRaises (message : string)
| Responded (r : HttpResponse).

(** The network as the handler meets it: the outcomes of the POSTs still to
    come, and the payloads posted so far. *)
Record Net : Type := mkNet {
  replies : list http_outcome;
  sent : list json
}.

Definition http_post (payload : json) (net : Net) : http_outcome * Net :=
  match replies net with
  | [] => (PostRaises "All connection attempts failed",
           mkNet [] (sent net ++ [payload]))
  | o :: rest => (o, mkNet rest (sent net ++ [payload]))
  end.

Definition num_property : json :=
  JObj [("type", JStr "number")].

Definition str_property : json :=
  JObj [("type", JStr "string")].

Definition category_schema : json :=
  JObj [("type", JStr "object");
        ("properties", JObj [("amount", num_property); ("notes", str_property)]);
        ("required", JArr [JStr "amount"; JStr "notes"])].

Definition ESTIMATE_SCHEMA : json :=
  JObj [("type", JStr "object");
        ("properties",
         JObj [("accommodation", category_schema);
               ("food", category_schema);
               ("transport", category_schema);
               ("activities", category_schema);
               ("shopping", category_schema);
               ("other", category_schema);
               ("total", num_property);
               ("currency", str_property);
               ("summary", str_property)]);
        ("required",
         JArr [JStr "accommodation"; JStr "food"; JStr "transport";
               JStr "activities"; JStr "total"; JStr "currency";
               JStr "summary"])].

(** [str(n)] for an [int] *)
Definition str_int (n : Z) : string := NilZero.string_of_int (Z.to_int n).

Definition nl : string := String (ascii_of_nat 10) "".

Definition estimate_prompt (destination : string) (duration : Z)
    (travelers : Z) (travel_style : string) : string :=
  "You are an expert travel budget estimator." ++ nl ++ nl
  ++ "Estimate realistic travel costs for this trip in USD:" ++ nl
  ++ "- Destination: " ++ destination ++ nl
  ++ "- Duration: " ++ str_int duration ++ " days" ++ nl
  ++ "- Travelers: " ++ str_int travelers ++ nl
  ++ "- Travel style: " ++ travel_style ++ nl ++ nl
  ++ "Provide per-person total costs for the entire trip duration for each category." ++ nl
  ++ "Base your estimates on current real-world prices for " ++ destination ++ "." ++ nl
  ++ "Be specific and realistic — not overly conservative or inflated." ++ nl ++ nl
  ++ "Return a JSON object with cost estimates and brief notes for each category.".

(** [v / 1_000_000]: the quotient of two integers is the double nearest
    to it (a [bool] is an [int]), a float is divided as a float. *)
Definition div_million (v : json) : result float :=
  match v with
  | JInt n =>
      match decimal n 1000000 with
      | S754_infinity _ =>
          Raise (OverflowError "integer division result too large for a float")
      | q => Ok q
      end
  | JBool b => Ok (decimal (if b then 1 else 0) 1000000)
  | JFloat x => float_div x (decimal 1000000 1)
  | _ =>
      Raise (TypeError ("unsupported operand type(s) for /: '"
                        ++ type_name v ++ "' and 'int'"))
  end.

Section Estimator.

(** [json.loads] on a string: the decoded value, or [None] where it raises
    [JSONDecodeError]. *)
Variable json_loads : string -> option json.

(** [date.fromisoformat(s).toordinal()]: the day number of the calendar
    date, or [None] where parsing raises.  Which strings parse depends on
    the Python version, so the estimator is stated over any parser. *)
Variable fromisoformat : string -> option Z.

Definition generate_structured (prompt model : string) (schema : option json)
    (net : Net) : result json * Net :=
  let payload :=
    JObj [("model", JStr model);
          ("messages",
           JArr [JObj [("role", JStr "system"); ("content", JStr SYSTEM_PROMPT)];
                 JObj [("role", JStr "user"); ("content", JStr prompt)]]);
          ("stream", JBool false);
          ("format",
           match schema with
           | Some s => if truthy s then s else JStr "json"
           | None => JStr "json"
           end)] in
  let (outcome, net) := http_post payload net in
  (match outcome with
   | PostRaises msg => Raise (RequestError msg)
   | Responded response =>
       match raise_for_status response with
       | Some msg => Raise (RequestError msg)
       | None =>
           data <- response_json response ;;
           message <- py_get data "message" (JObj []) ;;
           content <- py_get message "content" (JStr "{}") ;;
           prompt_tokens <- py_get data "prompt_eval_count" (JInt 0) ;;
           completion_tokens <- py_get data "eval_count" (JInt 0) ;;
           total_duration <- py_get data "total_duration" (JInt 0) ;;
           quotient <- div_million total_duration ;;
           ms <- py_round_int quotient ;;
           let total_duration_ms := JInt ms in
           let usage :=
             JObj [("prompt_tokens", prompt_tokens);
                   ("completion_tokens", completion_tokens);
                   ("total_duration_ms", total_duration_ms)] in
           match content with
           | JStr text =>
               match json_loads text with
               | Some value => Ok (JObj [("result", value); ("usage", usage)])
               | None => Ok (JObj [("result", content); ("usage", usage)])
               end
           | _ =>
               Raise (TypeError
                        ("the JSON object must be str, bytes or bytearray, not "
                         ++ type_name content))
           end
       end
   end, net).

(** ** AI cost estimator *)

Definition opt_truthy (s : option string) : bool :=
  match s with
  | Some v => negb (String.eqb v "")
  | None => false
  end.

Definition int_truthy (n : option Z) : bool :=
  match n with
  | Some v => negb (v =? 0)
  | None => false
  end.

(** Lines 143 to 153 of [estimate_costs]: the duration put in the prompt. *)
Definition resolve_duration (req : EstimateRequest) (trip : Trip.t) : Z :=
  let duration := er_duration_days req in
  let duration :=
    if negb (int_truthy duration) && opt_truthy (Trip.start_date trip)
       && opt_truthy (Trip.end_date trip)
    then
      match Trip.start_date trip, Trip.end_date trip with
      | Some start_date, Some end_date =>
          match fromisoformat start_date with
          | Some s =>
              match fromisoformat end_date with
              | Some e => Some (Z.max 1 (e - s))
              | None => duration
              end
          | None => duration
          end
      | _, _ => duration
      end
    else duration in
  match duration with
  | Some d => if d =? 0 then 7 else d
  | None => 7
  end.

Record EstimateResponse : Type := mkEstimateResponse {
  est_estimates : json;
  est_summary : Summary
}.

(** The value a [String] column takes from a decoded JSON value. *)
Definition string_column (v : json) : option (option string) :=
  match v with
  | JStr s => Some (Some s)
  | JNull => Some None
  | _ => None
  end.

(** The value a [Float] column takes from a decoded JSON number. *)
Definition float_column (v : json) : option (option real) :=
  match as_number v with
  | Some x => Some (Some x)
  | None => None
  end.

(** Lines 178 to 184: the fields of the trip as the commit stores them.
    The [result] carries an exception raised on the way; the [option] is
    [None] where a column is given a value that it does not hold as it is
    and that is left to the SQL driver. *)
Definition apply_estimates (trip : Trip.t) (estimates : json)
  : result (option Trip.t) :=
  let trip := Trip.set_budget_estimates (Some estimates) trip in
  currency <-
    (if negb (opt_truthy (Trip.budget_currency trip))
     then c <- py_get estimates "currency" (JStr "USD") ;;
          Ok (string_column c)
     else Ok (Some (Trip.budget_currency trip))) ;;
  total <-
    match budget_if_set (Trip.budget_total trip) with
    | Some _ => Ok (Some (Trip.budget_total trip))
    | None =>
        t <- py_get estimates "total" JNull ;;
        if truthy t
        then v <- py_getitem estimates "total" ;; Ok (float_column v)
        else Ok (Some (Trip.budget_total trip))
    end ;;
  Ok (match currency, total with
      | Some c, Some t =>
          Some (Trip.set_budget_total t (Trip.set_budget_currency c trip))
      | _, _ => None
      end).

Definition estimate_costs (trip_id : Z) (req : EstimateRequest) (db : DB)
    (net : Net) : response EstimateResponse * DB * Net :=
  match find_trip db trip_id with
  | None => (HTTPException 404 "Trip not found", db, net)
  | Some trip =>
      let duration := resolve_duration req trip in
      let prompt :=
        estimate_prompt (Trip.destination trip) duration (er_travelers req)
                        (er_travel_style req) in
      let (generated, net) :=
        generate_structured prompt (er_model req) (Some ESTIMATE_SCHEMA) net in
      match generated with
      | Raise e => (HTTPException 502 ("Ollama error: " ++ str_exn e), db, net)
      | Ok result =>
          match py_get result "result" (JObj []) with
          | Raise e => (ServerError e, db, net)
          | Ok (JStr _) =>
              (HTTPException 422
                 "Could not parse estimates from Ollama response", db, net)
          | Ok estimates =>
              match apply_estimates trip estimates with
              | Raise e => (ServerError e, db, net)
              | Ok None => (Unmodelled, db, net)
              | Ok (Some trip) =>
                  let db := commit_trip trip db in
                  let expenses := trip_expenses db trip_id in
                  (respond (summary <- compute_summary trip expenses ;;
                            Ok (mkEstimateResponse estimates summary)),
                   db, net)
              end
          end
      end
  end.

End Estimator.

(** ** A calendar-date parser

    [date.fromisoformat] in its strict [YYYY-MM-DD] form, giving the
    proleptic Gregorian ordinal ([date.toordinal()]); it is one parser the
    estimator can be run with. *)

Definition digit_value (c : ascii) : option Z :=
  let n := Z.of_nat (nat_of_ascii c) in
  if (48 <=? n) && (n <=? 57) then Some (n - 48) else None.

Fixpoint digits_value (s : string) (acc : Z) : option Z :=
  match s with
  | EmptyString => Some acc
  | String c s' =>
      match digit_value c with
      | Some d => digits_value s' (10 * acc + d)
      | None => None
      end
  end.

Definition is_leap (y : Z) : bool :=
  (y mod 4 =? 0) && (negb (y mod 100 =? 0) || (y mod 400 =? 0)).

Definition days_in_month (y m : Z) : Z :=
  if m =? 2 then (if is_leap y then 29 else 28)
  else if (m =? 4) || (m =? 6) || (m =? 9) || (m =? 11) then 30
  else 31.

Definition days_before_year (y : Z) : Z :=
  let p := y - 1 in p * 365 + p / 4 - p / 100 + p / 400.

Definition days_before_month (y m : Z) : Z :=
  fold_right Z.add 0
    (map (fun i => days_in_month y (Z.of_nat i)) (seq 1 (Z.to_nat (m - 1)))).

Definition ymd_to_ordinal (y m d : Z) : option Z :=
  if (1 <=? y) && (y <=? 9999) && (1 <=? m) && (m <=? 12)
     && (1 <=? d) && (d <=? days_in_month y m)
  then Some (days_before_year y + days_before_month y m + d)
  else None.

Definition is_dash (c : option ascii) : bool :=
  match c with
  | Some a => Ascii.eqb a "-"
  | None => false
  end.

Definition date_fromisoformat (s : string) : option Z :=
  if (String.length s =? 10)%nat && is_dash (String.get 4 s)
     && is_dash (String.get 7 s)
  then
    match digits_value (substring 0 4 s) 0,
          digits_value (substring 5 2 s) 0,
          digits_value (substring 8 2 s) 0 with
    | Some y, Some m, Some d => ymd_to_ordinal y m d
    | _, _, _ => None
    end
  else None.

(** ** Notions used to state the properties *)

(** The sum of the amounts of the expenses filed under [cat], added in
    the order of the list. *)
Definition spent_in (cat : string) (expenses : list Expense.t) : float :=
  py_sum (map (fun e => to_float (Expense.amount e))
              (filter (fun e => String.eqb (Expense.category e) cat) expenses)).

(** The categories of the expenses, each once, in the order in which they
    first occur. *)
Definition seen_categories (expenses : list Expense.t) : list string :=
  fold_left (fun seen e =>
               if existsb (String.eqb (Expense.category e)) seen then seen
               else (seen ++ [Expense.category e])%list)
            expenses [].

(** The per-category sums, in the order in which the categories first
    occur. *)
Definition category_sums (expenses : list Expense.t)
  : list (string * float) :=
  map (fun cat => (cat, spent_in cat expenses)) (seen_categories expenses).

(** The sum of the expense amounts as the calculator forms it: the
    per-category sums, added in the order in which the categories first
    occur. *)
Definition unrounded_total (expenses : list Expense.t) : float :=
  py_sum (map snd (category_sums expenses)).

(** [round(x / d * 100, 1)], a percentage to one decimal. *)
Definition pct (x d : float) : float :=
  py_round (fmul (fdiv x d) hundred) 1.

(** The budget is set: neither null nor zero. *)
Definition budget_set (trip : Trip.t) (b : real) : Prop :=
  Trip.budget_total trip = Some b /\ real_is_zero b = false.

(** The budget is 0 or unset. *)
Definition budget_unset (trip : Trip.t) : Prop :=
  Trip.budget_total trip = None
  \/ exists negative, Trip.budget_total trip = Some (RZero negative).

(** The estimate stored for a category: the ["amount"] of its entry in the
    estimate blob, where there is one. *)
Definition stored_estimate (trip : Trip.t) (cat : string) : option json :=
  match Trip.budget_estimates trip with
  | Some (JObj members) =>
      match dict_get members cat with
      | Some (JObj entry) => dict_get entry "amount"
      | _ => None
      end
  | _ => None
  end.

Definition zero_or_absent (amount : option json) : Prop :=
  amount = None \/ amount = Some (JInt 0)
  \/ exists negative, amount = Some (JFloat (S754_zero negative)).


(** The sum of the per-category spent values of a summary. *)
Definition categories_spent (s : Summary) : float :=
  py_sum (map ce_spent (s_categories s)).

(** Primary keys are unique, and every expense belongs to a stored trip. *)
Definition db_consistent (db : DB) : Prop :=
  NoDup (map Trip.id (trips db))
  /\ NoDup (map Expense.id (expenses db))
  /\ forall e, In e (expenses db) ->
               exists t, In t (trips db) /\ Trip.id t = Expense.trip_id e.

(** The duration as the specification words it: the supplied duration if
    present and positive; else the days from start to end, at least 1, when
    both dates are stored and parse; else 7. *)
Definition specified_duration (fromisoformat : string -> option Z)
    (req : EstimateRequest) (trip : Trip.t) : Z :=
  let from_dates :=
    match Trip.start_date trip, Trip.end_date trip with
    | Some start_date, Some end_date =>
        match fromisoformat start_date, fromisoformat end_date with
        | Some s, Some e => Z.max 1 (e - s)
        | _, _ => 7
        end
    | _, _ => 7
    end in
  match er_duration_days req with
  | Some d => if 0 <? d then d else from_dates
  | None => from_dates
  end.

(** The trip, or the expense, a request refers to does not exist. *)
Definition no_such_trip (db : DB) (trip_id : Z) : Prop :=
  forall t, In t (trips db) -> Trip.id t <> trip_id.

Definition no_such_expense (db : DB) (expense_id : Z) : Prop :=
  forall e, In e (expenses db) -> Expense.id e <> expense_id.

(** The expense exists, under another trip than the one named. *)
Definition belongs_elsewhere (db : DB) (expense_id trip_id : Z) : Prop :=
  exists e, In e (expenses db) /\ Expense.id e = expense_id
            /\ Expense.trip_id e <> trip_id.

(** A JSON object conforming to the shape of the estimate schema: the
    four mandatory categories, and the two optional ones when present, map
    to objects with a numeric ["amount"] and a textual ["notes"]; ["total"]
    is a number, ["currency"] and ["summary"] are strings. *)
Definition is_number (v : json) : bool :=
  match v with
  | JInt _ | JFloat _ => true
  | _ => false
  end.

Definition is_string (v : json) : bool :=
  match v with
  | JStr _ => true
  | _ => false
  end.

Definition has (members : list (string * json)) (key : string)
    (required : bool) (ok : json -> bool) : bool :=
  match dict_get members key with
  | Some v => ok v
  | None => negb required
  end.

Definition category_conforms (v : json) : bool :=
  match v with
  | JObj fields =>
      has fields "amount" true is_number && has fields "notes" true is_string
  | _ => false
  end.

Definition conforms_to_schema (v : json) : bool :=
  match v with
  | JObj members =>
      forallb (fun key => has members key true category_conforms)
              ["accommodation"; "food"; "transport"; "activities"]
      && forallb (fun key => has members key false category_conforms)
                 ["shopping"; "other"]
      && has members "total" true is_number
      && has members "currency" true is_string
      && has members "summary" true is_string
  | _ => false
  end.

(** The trip row after a settings request. *)
Definition with_settings (upper : string -> string) (data : BudgetUpdate)
    (trip : Trip.t) : Trip.t :=
  Trip.mk (Trip.id trip) (Trip.title trip) (Trip.destination trip)
    (Trip.start_date trip) (Trip.end_date trip) (Trip.description trip)
    (Trip.lat trip) (Trip.lon trip) (Trip.created_at trip)
    (match bu_budget_total data with
     | Some v => Some v
     | None => Trip.budget_total trip
     end)
    (match bu_budget_currency data with
     | Some c => Some (upper c)
     | None => Trip.budget_currency trip
     end)
    (Trip.budget_estimates trip).

(** What every entry of a produced summary holds. *)
Definition entry_spec (trip : Trip.t) (expenses : list Expense.t)
    (ce : CategoryEntry) : Prop :=
  ce_spent ce = spent_in (ce_category ce) expenses
  /\ ce_estimated ce
     = match stored_estimate trip (ce_category ce) with
       | Some a => a
       | None => JFloat zero
       end
  /\ ce_pct_of_budget ce
     = match budget_if_set (Trip.budget_total trip) with
       | Some b => Some (pct (spent_in (ce_category ce) expenses) (to_float b))
       | None => None
       end
  /\ (truthy (ce_estimated ce) = false -> ce_pct_of_estimate ce = None)
  /\ (truthy (ce_estimated ce) = true ->
      exists y, as_float (ce_estimated ce) = Some (Ok y) /\ is_zero y = false
                /\ ce_pct_of_estimate ce
                   = Some (pct (spent_in (ce_category ce) expenses) y)).

(** ** Sample data *)

Definition rome : Trip.t :=
  Trip.mk 1 "Spring break" "Rome" None None None None None 0
          (Some (real_of_Z 1000)) (Some "USD") None.

Definition lunch : Expense.t :=
  Expense.mk 1 1 "food" "lunch" (real_of_Z 150) (Some "USD") None None 0.


(** A trip with no budget, whose stored estimate gives food the amount 0
    and transport no amount at all. *)
Definition unbudgeted : Trip.t :=
  Trip.mk 2 "Weekend" "Oslo" None None None None None 0 None None
          (Some (JObj [("food", JObj [("amount", JInt 0);
                                      ("notes", JStr "self-catering")]);
                       ("transport", JObj [("notes", JStr "on foot")]);
                       ("total", JInt 0)])).

Definition store : DB := mkDB [rome; unbudgeted] [lunch].

(** A request that refiles an expense under a category outside the set. *)
Definition refile_as_flights : ExpenseUpdate :=
  mkExpenseUpdate (Some "flights") None None None None None.

Definition flights_request : ExpenseCreate :=
  mkExpenseCreate "flights" "plane tickets" (real_of_Z 100) None None None.

Definition currency_only : BudgetUpdate := mkBudgetUpdate None (Some "eur").

Definition default_request : EstimateRequest :=
  mkEstimateRequest "llama3" 1 None "mid-range".

Definition negative_request : EstimateRequest :=
  mkEstimateRequest "llama3" 1 (Some (-3)) "mid-range".

Definition dated : Trip.t :=
  Trip.mk 3 "Easter" "Lisbon" (Some "2024-03-29") (Some "2024-04-02") None
          None None 0 None None None.

Definition misdated : Trip.t :=
  Trip.mk 4 "Easter" "Lisbon" (Some "2024-03-29") (Some "next week") None
          None None 0 None None None.

(** An estimate as the model may return it, and its text. *)
Definition sample_estimate : json :=
  JObj [("total", JInt 900); ("currency", JStr "EUR")].

Definition sample_estimate_text : string :=
  "{" ++ dq ++ "total" ++ dq ++ ": 900, " ++ dq ++ "currency" ++ dq ++ ": "
  ++ dq ++ "EUR" ++ dq ++ "}".

(** [json.loads] on the texts used below: the two that are JSON decode,
    any other text is taken not to. *)
Definition loads_examples (text : string) : option json :=
  if String.eqb text "{}" then Some (JObj [])
  else if String.eqb text sample_estimate_text then Some sample_estimate
  else None.

(** A 200 reply of the Ollama server carrying [text] as the message. *)
Definition ok_reply (text : string) : http_outcome :=
  Responded
    (mkHttpResponse None
       (Ok (JObj [("model", JStr "llama3");
                  ("message", JObj [("role", JStr "assistant");
                                    ("content", JStr text)]);
                  ("done", JBool true);
                  ("total_duration", JInt 1500000000);
                  ("prompt_eval_count", JInt 210);
                  ("eval_count", JInt 96)]))).

Definition error_reply : http_outcome :=
  Responded
    (mkHttpResponse (Some "Server error '500 Internal Server Error'")
                    (Ok (JObj [("error", JStr "model not found")]))).



(** An expense of 1e308. *)
Definition jet : Expense.t :=
  Expense.mk 5 1 "transport" "private jet" (real_of_Z (10 ^ 308))
             (Some "USD") None None 0.

(** A trip whose stored estimate for food is an integer beyond the range
    of the doubles. *)
Definition overestimated : Trip.t :=
  Trip.mk 7 "Gala" "Monaco" None None None None None 0 None (Some "EUR")
          (Some (JObj [("food", JObj [("amount", JInt (10 ^ 400))])])).

(** Three expenses in three categories of the fixed set: 86.188, 7.297 and
    57.0. *)
Definition train : Expense.t :=
  Expense.mk 6 1 "transport" "train" (real_of_decimal 86188 1000)
             (Some "USD") None None 0.

Definition tip : Expense.t :=
  Expense.mk 7 1 "other" "tip" (real_of_decimal 7297 1000) (Some "USD") None
             None 0.

Definition scarf : Expense.t :=
  Expense.mk 8 1 "shopping" "scarf" (real_of_Z 57) (Some "USD") None None 0.

(** [str.upper] on a text of ASCII characters, for the examples. *)
Definition upper_ascii (c : ascii) : ascii :=
  let n := nat_of_ascii c in
  if ((97 <=? n) && (n <=? 122))%nat then ascii_of_nat (n - 32) else c.

Fixpoint ascii_upper (s : string) : string :=
  match s with
  | EmptyString => EmptyString
  | String c s' => String (upper_ascii c) (ascii_upper s')
  end.


(** The row [lunch] once refiled. *)
Definition refiled_lunch : Expense.t :=
  Expense.mk 1 1 "flights" "lunch" (real_of_Z 150) (Some "USD") None None 0.

(** ** [services/ollama_service.py]: status and models

    The functions below make one GET or one streaming POST; [reply] is
    what that request comes to. *)

(** The elements a [for] loop or a comprehension takes from an object: a
    list's items, a string's characters, a dict's keys. *)
Definition py_iter (v : json) : result (list json) :=
  match v with
  | JArr items => Ok items
  | JStr s => Ok (map (fun c => JStr (String c "")) (list_ascii_of_string s))
  | JObj members => Ok (map (fun kv => JStr (fst kv)) members)
  | _ => Raise (TypeError ("'" ++ type_name v ++ "' object is not iterable"))
  end.

(** [len(v)] *)
Definition py_len (v : json) : result Z :=
  match v with
  | JArr items => Ok (Z.of_nat (List.length items))
  | JStr s => Ok (Z.of_nat (String.length s))
  | JObj members => Ok (Z.of_nat (List.length members))
  | _ => Raise (TypeError ("object of type '" ++ type_name v
                           ++ "' has no len()"))
  end.

(** [response.json().get("models", [])] on the reply of [GET /api/tags];
    the status of the response is not looked at. *)
Definition tags_models (reply : http_outcome) : result json :=
  match reply with
  | PostRaises msg => Raise (RequestError msg)
  | Responded r => data <- response_json r ;; py_get data "models" (JArr [])
  end.

(** [[m["name"] for m in models]] *)
Definition model_names (models : json) : result (list json) :=
  items <- py_iter models ;; mapM (fun m => py_getitem m "name") items.

Definition get_available_models (reply : http_outcome) : list json :=
  match models <- tags_models reply ;; model_names models with
  | Ok names => names
  | Raise _ => []
  end.

Record OllamaStatus : Type := mkOllamaStatus {
  os_running : bool;
  os_models : list json;
  os_model_count : Z
}.

Definition check_ollama_status (reply : http_outcome) : OllamaStatus :=
  match models <- tags_models reply ;;
        names <- model_names models ;;
        count <- py_len models ;;
        Ok (mkOllamaStatus true names count) with
  | Ok status => status
  | Raise _ => mkOllamaStatus false [] 0
  end.

(** ** [services/ollama_service.py]: streaming chat *)

(** What the streaming POST comes to: the call raises, or a response
    arrives whose [raise_for_status()] raises or passes and whose body is
    read line by line, until it ends or the connection drops. *)
Inductive stream_outcome : Type :=
| StreamRaises (message : string)
| Streaming (status_error : option string) (lines : list string)
            (dropped : option string).

(** How the generator ends: the lines ran out, a final chunk was seen, or
    an exception left it. *)
Inductive stream_end : Type :=
| Exhausted
| Stopped
| Failed (e : exn).

Definition chat_payload (messages : list json) (model keep_alive : string)
  : json :=
  JObj [("model", JStr model);
        ("messages",
         JArr (JObj [("role", JStr "system"); ("content", JStr SYSTEM_PROMPT)]
               :: messages));
        ("stream", JBool true);
        ("keep_alive", JStr keep_alive)].

(** [v in ("stop", "length")] *)
Definition is_stop_reason (v : json) : bool :=
  match v with
  | JStr s => String.eqb s "stop" || String.eqb s "length"
  | _ => false
  end.

Section Streaming.

Variable json_loads : string -> option json.

(** The loop over [response.aiter_lines()]: the tokens yielded, and how
    the loop ends. *)
Fixpoint read_lines (lines : list string) (dropped : option string)
  : list json * stream_end :=
  match lines with
  | [] =>
      ([], match dropped with
           | Some msg => Failed (RequestError msg)
           | None => Exhausted
           end)
  | line :: rest =>
      if String.eqb line "" then read_lines rest dropped
      else
        match json_loads line with
        | None => read_lines rest dropped
        | Some data =>
            match message <- py_get data "message" (JObj []) ;;
                  py_get message "content" (JStr "") with
            | Raise e => ([], Failed e)
            | Ok content =>
                let yielded := if truthy content then [content] else [] in
                match done <- py_get data "done" JNull ;;
                      if truthy done
                      then reason <- py_get data "done_reason" JNull ;;
                           Ok (is_stop_reason reason)
                      else Ok false with
                | Raise e => (yielded, Failed e)
                | Ok true => (yielded, Stopped)
                | Ok false =>
                    let (tokens, ending) := read_lines rest dropped in
                    ((yielded ++ tokens)%list, ending)
                end
            end
        end
  end.

Definition stream_chat (messages : list json) (model keep_alive : string)
    (reply : stream_outcome) : json * (list json * stream_end) :=
  (chat_payload messages model keep_alive,
   match reply with
   | StreamRaises msg => ([], Failed (RequestError msg))
   | Streaming (Some msg) _ _ => ([], Failed (RequestError msg))
   | Streaming None lines dropped => read_lines lines dropped
   end).

End Streaming.

(** ** [routers/chat.py] *)

Module ChatMessage.
Record t : Type := mk {
  id : Z;
  trip_id : option Z;
  role : string;
  content : string;
  created_at : Z
}.
End ChatMessage.

Record MessageIn : Type := mkMessageIn {
  mi_role : string;
  mi_content : string
}.

Record ChatRequest : Type := mkChatRequest {
  cr_messages : list MessageIn;
  cr_trip_id : option Z;
  cr_model : string;
  cr_keep_alive : string
}.


(** [next((m for m in reversed(messages) if m.role == "user"), None)] *)
Definition last_user_msg (messages : list MessageIn) : option MessageIn :=
  find (fun m => String.eqb (mi_role m) "user") (rev messages).

(** [db.add(ChatMessage(...)); db.commit()] at clock reading [now]. *)
Definition add_message (table : list ChatMessage.t) (role content : string)
    (trip_id : option Z) (now : Z) : list ChatMessage.t :=
  (table
   ++ [ChatMessage.mk (1 + fold_right Z.max 0 (map ChatMessage.id table))
                      trip_id role content now])%list.

Section Chat.

Variable json_loads : string -> option json.

(** [json.dumps] of an event's payload. *)
Variable json_dumps : json -> string.

(** [f"data: {json.dumps(payload)}\n\n"] *)
Definition sse (payload : json) : string :=
  "data: " ++ json_dumps payload ++ nl ++ nl.

Definition token_event (token : string) : string :=
  sse (JObj [("token", JStr token)]).

Definition error_event (e : exn) : string :=
  sse (JObj [("error", JStr (str_exn e))]).

Definition done_event : string :=
  sse (JObj [("done", JBool true); ("done_reason", JStr "stop")]).

(** The [async for] of [generate]: each token is appended to the response
    so far and sent; a token that is not a string cannot be appended and
    ends the loop with a [TypeError]. *)
Fixpoint relay (tokens : list json) (full_response : string)
  : list string * string * option exn :=
  match tokens with
  | [] => ([], full_response, None)
  | JStr token :: rest =>
      let '(events, full, err) := relay rest (full_response ++ token) in
      (token_event token :: events, full, err)
  | v :: _ =>
      ([], full_response,
       Some (TypeError ("can only concatenate str (not " ++ dq ++ type_name v
                        ++ dq ++ ") to str")))
  end.

(** The events sent to a client that reads the stream to its end, and the
    table of chat messages after the call.  [now_user] and [now_reply] are
    the clock readings at the two inserts. *)
Definition chat_stream (req : ChatRequest) (reply : stream_outcome)
    (now_user now_reply : Z) (table : list ChatMessage.t)
  : list string * list ChatMessage.t :=
  let messages :=
    map (fun m => JObj [("role", JStr (mi_role m));
                        ("content", JStr (mi_content m))])
        (cr_messages req) in
  let table :=
    match last_user_msg (cr_messages req) with
    | Some m => add_message table "user" (mi_content m) (cr_trip_id req)
                            now_user
    | None => table
    end in
  let '(tokens, ending) :=
    snd (stream_chat json_loads messages (cr_model req) (cr_keep_alive req)
           reply) in
  let '(events, full_response, err) := relay tokens "" in
  let failure :=
    match err with
    | Some e => Some e
    | None => match ending with Failed e => Some e | _ => None end
    end in
  let table :=
    if String.eqb full_response "" then table
    else add_message table "assistant" full_response (cr_trip_id req)
                     now_reply in
  ((events
    ++ match failure with Some e => [error_event e] | None => [] end
    ++ [done_event])%list,
   table).


End Chat.

Record HistoryItem : Type := mkHistoryItem {
  hi_id : Z;
  hi_role : string;
  hi_content : string;
  hi_created_at : Z
}.

(** [ORDER BY created_at]: oldest first; rows created at the same instant
    stay in rowid order. *)
Fixpoint insert_asc (m : ChatMessage.t) (l : list ChatMessage.t)
  : list ChatMessage.t :=
  match l with
  | [] => [m]
  | x :: l' =>
      if ChatMessage.created_at m <? ChatMessage.created_at x
      then m :: x :: l'
      else x :: insert_asc m l'
  end.

Definition order_by_created_at (l : list ChatMessage.t) : list ChatMessage.t :=
  fold_left (fun sorted m => insert_asc m sorted) l [].

Definition eq_opt_Z (a : option Z) (b : Z) : bool :=
  match a with
  | Some x => x =? b
  | None => false
  end.

Definition get_chat_history (trip_id : Z) (table : list ChatMessage.t)
  : list HistoryItem :=
  map (fun m => mkHistoryItem (ChatMessage.id m) (ChatMessage.role m)
                              (ChatMessage.content m)
                              (ChatMessage.created_at m))
      (order_by_created_at
         (filter (fun m => eq_opt_Z (ChatMessage.trip_id m) trip_id) table)).

(** [GET /status] *)
Definition ollama_status (reply : http_outcome) : OllamaStatus :=
  check_ollama_status reply.

(** ** [routers/trips.py]: creating and editing a trip *)

Record TripCreate : Type := mkTripCreate {
  tc_title : string;
  tc_destination : string;
  tc_start_date : option string;
  tc_end_date : option string;
  tc_description : option string
}.

Record TripUpdate : Type := mkTripUpdate {
  tu_title : option string;
  tu_description : option string;
  tu_start_date : option string;
  tu_end_date : option string
}.

Record TripDict : Type := mkTripDict {
  td_id : Z;
  td_title : string;
  td_destination : string;
  td_start_date : option string;
  td_end_date : option string;
  td_description : option string;
  td_lat : option real;
  td_lon : option real;
  td_created_at : Z
}.

Definition trip_to_dict (trip : Trip.t) : TripDict :=
  mkTripDict (Trip.id trip) (Trip.title trip) (Trip.destination trip)
    (Trip.start_date trip) (Trip.end_date trip) (Trip.description trip)
    (Trip.lat trip) (Trip.lon trip) (Trip.created_at trip).

Definition next_trip_id (db : DB) : Z :=
  1 + fold_right Z.max 0 (map Trip.id (trips db)).

(** [geo] is what [geocode_destination(data.destination)] comes to: it
    raises, finds nothing, or gives the coordinates.  The budget columns of
    the new row take their defaults: no total, "USD", no estimates. *)
Definition create_trip (data : TripCreate) (geo : result (option (real * real)))
    (now : Z) (db : DB) : response TripDict * DB :=
  match geo with
  | Raise e => (ServerError e, db)
  | Ok found =>
      let trip :=
        Trip.mk (next_trip_id db) (tc_title data) (tc_destination data)
          (tc_start_date data) (tc_end_date data) (tc_description data)
          (option_map fst found) (option_map snd found) now
          None (Some "USD") None in
      (Success (trip_to_dict trip), mkDB (trips db ++ [trip]) (expenses db))
  end.

(** [for field, value in data.dict(exclude_none=True).items():
       setattr(trip, field, value)] *)
Definition apply_trip_update (data : TripUpdate) (trip : Trip.t) : Trip.t :=
  Trip.mk (Trip.id trip)
    (match tu_title data with Some v => v | None => Trip.title trip end)
    (Trip.destination trip)
    (match tu_start_date data with
     | Some v => Some v
     | None => Trip.start_date trip
     end)
    (match tu_end_date data with
     | Some v => Some v
     | None => Trip.end_date trip
     end)
    (match tu_description data with
     | Some v => Some v
     | None => Trip.description trip
     end)
    (Trip.lat trip) (Trip.lon trip) (Trip.created_at trip)
    (Trip.budget_total trip) (Trip.budget_currency trip)
    (Trip.budget_estimates trip).

Definition update_trip (trip_id : Z) (data : TripUpdate) (db : DB)
  : response TripDict * DB :=
  match find_trip db trip_id with
  | None => (HTTPException 404 "Trip not found", db)
  | Some trip =>
      let trip := apply_trip_update data trip in
      (Success (trip_to_dict trip), commit_trip trip db)
  end.

Definition get_trip (trip_id : Z) (db : DB) : response TripDict :=
  match find_trip db trip_id with
  | None => HTTPException 404 "Trip not found"
  | Some trip => Success (trip_to_dict trip)
  end.

(** ** [routers/budget.py]: reading the budget *)

Record BudgetResponse : Type := mkBudgetResponse {
  br_summary : Summary;
  br_expenses : list ExpenseDict
}.

(** [ORDER BY created_at DESC]: newest first; rows created at the same
    instant stay in rowid order (SQL leaves their order open). *)
Fixpoint insert_desc (e : Expense.t) (l : list Expense.t) : list Expense.t :=
  match l with
  | [] => [e]
  | x :: l' =>
      if Expense.created_at x <=? Expense.created_at e
      then e :: x :: l'
      else x :: insert_desc e l'
  end.

Definition order_by_created_at_desc (l : list Expense.t) : list Expense.t :=
  fold_right insert_desc [] l.

Definition get_budget (trip_id : Z) (db : DB) : response BudgetResponse :=
  match find_trip db trip_id with
  | None => HTTPException 404 "Trip not found"
  | Some trip =>
      let expenses := order_by_created_at_desc (trip_expenses db trip_id) in
      respond (summary <- compute_summary trip expenses ;;
               Ok (mkBudgetResponse summary (map expense_to_dict expenses)))
  end.

(** The estimate blobs the calculator can read: a falsy blob, or an object
    whose entry for each of the six categories, when present, is an object
    whose ["amount"], when present, is falsy or a number. *)
Definition amount_readable (entry : json) : bool :=
  match entry with
  | JObj fields =>
      match dict_get fields "amount" with
      | Some a =>
          negb (truthy a)
          || match as_float a with Some (Ok _) => true | _ => false end
      | None => true
      end
  | _ => false
  end.

Definition summarisable (estimates : option json) : bool :=
  match estimates_or_empty estimates with
  | JObj members =>
      forallb (fun cat =>
                 match dict_get members cat with
                 | Some entry => amount_readable entry
                 | None => true
                 end) EXPENSE_CATEGORIES
  | _ => false
  end.

(** The row add-expense creates. *)
Definition new_expense (trip_id : Z) (data : ExpenseCreate) (now : Z) (db : DB)
    (trip : Trip.t) : Expense.t :=
  Expense.mk (next_expense_id db) trip_id (ec_category data)
    (ec_description data) (ec_amount data)
    (Some (first_truthy (ec_currency data) (Trip.budget_currency trip) "USD"))
    (ec_date data) (ec_notes data) now.

(** An update request that supplies nothing. *)
Definition empty_update : ExpenseUpdate :=
  mkExpenseUpdate None None None None None None.

(** A stored estimate whose food entry is a number, not an object. *)
Definition malformed_estimate : json :=
  JObj [("food", JInt 5); ("total", JInt 900); ("currency", JStr "EUR")].

Definition malformed_estimate_text : string :=
  "{" ++ dq ++ "food" ++ dq ++ ": 5, " ++ dq ++ "total" ++ dq ++ ": 900, "
  ++ dq ++ "currency" ++ dq ++ ": " ++ dq ++ "EUR" ++ dq ++ "}".

Definition loads_malformed (text : string) : option json :=
  if String.eqb text malformed_estimate_text then Some malformed_estimate
  else None.

Definition dinner : Expense.t :=
  Expense.mk 3 1 "food" "dinner" (real_of_Z 40) (Some "USD") None None 5.

Definition taxi_request : ExpenseCreate :=
  mkExpenseCreate "transport" "taxi" (real_of_Z 25) None None None.

Definition store2 : DB := mkDB [rome; unbudgeted] [lunch; dinner].

(** A trip whose stored estimate the calculator cannot read. *)
Definition spoiled : Trip.t :=
  Trip.mk 5 "Autumn" "Kyoto" None None None None None 0
          (Some (real_of_Z 500)) (Some "USD") (Some malformed_estimate).

Definition spoiled_store : DB := mkDB [spoiled] [].

Definition reprice : ExpenseUpdate :=
  mkExpenseUpdate None None (Some (real_of_Z 175)) None None (Some "with tip").

(** The chunks of a streamed answer, as lines.  The decoder knows the
    three chunks and takes any other line not to be JSON. *)
Definition chunk (text : string) : json :=
  JObj [("message", JObj [("role", JStr "assistant"); ("content", JStr text)]);
        ("done", JBool false)].

Definition final_chunk : json :=
  JObj [("message", JObj [("role", JStr "assistant"); ("content", JStr "")]);
        ("done", JBool true); ("done_reason", JStr "stop")].

Definition loads_chunks (line : string) : option json :=
  if String.eqb line "chunk-1" then Some (chunk "Ciao")
  else if String.eqb line "chunk-2" then Some (chunk " Roma")
  else if String.eqb line "chunk-end" then Some final_chunk
  else if String.eqb line "chunk-bad" then Some (JInt 5)
  else None.

Definition dumps_none (payload : json) : string := "{}".

Definition ask : ChatRequest :=
  mkChatRequest [mkMessageIn "user" "Where to?";
                 mkMessageIn "assistant" "Rome.";
                 mkMessageIn "user" "What to eat?"]
                (Some 1) "llama3" "5m".

(** Newest first. *)
Definition newer_or_same (a b : Expense.t) : Prop :=
  Expense.created_at b <= Expense.created_at a.

Definition not_later (a b : ChatMessage.t) : Prop :=
  ChatMessage.created_at a <= ChatMessage.created_at b.

(** Oldest first. *)
Definition older_or_same (a b : HistoryItem) : Prop :=
  hi_created_at a <= hi_created_at b.

Definition history_item (m : ChatMessage.t) : HistoryItem :=
  mkHistoryItem (ChatMessage.id m) (ChatMessage.role m)
                (ChatMessage.content m) (ChatMessage.created_at m).

(** The two inserts of a chat call. *)
Definition with_user_message (req : ChatRequest) (now : Z)
    (table : list ChatMessage.t) : list ChatMessage.t :=
  match last_user_msg (cr_messages req) with
  | Some m => add_message table "user" (mi_content m) (cr_trip_id req) now
  | None => table
  end.

Definition with_reply (req : ChatRequest) (text : string) (now : Z)
    (table : list ChatMessage.t) : list ChatMessage.t :=
  if String.eqb text "" then table
  else add_message table "assistant" text (cr_trip_id req) now.

(** The texts of the tokens, one after the other. *)
Definition joined (texts : list string) : string :=
  fold_right append "" texts.

Definition chat_log : list ChatMessage.t :=
  [ChatMessage.mk 1 (Some 1) "user" "Where to?" 10;
   ChatMessage.mk 2 (Some 2) "user" "How cold is Oslo?" 11;
   ChatMessage.mk 3 (Some 1) "assistant" "Rome." 12].

Definition lisbon_request : TripCreate :=
  mkTripCreate "Easter" "Lisbon" (Some "2024-03-29") (Some "2024-04-02") None.

Definition new_dates : TripUpdate :=
  mkTripUpdate None None (Some "2024-05-01") (Some "2024-05-04").

(** A summary with nothing spent and nothing to compare with. *)
Definition empty_summary (s : Summary) : Prop :=
  s_budget_total s = None
  /\ s_budget_currency s = "USD"
  /\ s_total_spent s = zero
  /\ s_remaining s = None
  /\ s_pct_used s = None
  /\ map ce_category (s_categories s) = EXPENSE_CATEGORIES
  /\ Forall (fun ce => ce_spent ce = zero
                       /\ ce_estimated ce = JFloat zero
                       /\ ce_pct_of_budget ce = None
                       /\ ce_pct_of_estimate ce = None) (s_categories s).

(** A reply of [GET /api/tags] listing two models. *)
Definition tags_reply : http_outcome :=
  Responded
    (mkHttpResponse None
       (Ok (JObj [("models",
                   JArr [JObj [("name", JStr "llama3:latest");
                               ("size", JInt 4661224676)];
                         JObj [("name", JStr "mistral:7b")]])]))).

(** * Properties *)

(** ** Numbers *)

Lemma float_div_nonzero (x y : float) :
  is_zero y = false -> float_div x y = Ok (fdiv x y).
Proof. unfold float_div. now intros ->. Qed.

Lemma budget_if_set_some (o : option real) (b : real) :
  budget_if_set o = Some b -> o = Some b /\ real_is_zero b = false.
Proof.
  destruct o as [v|]; simpl; [|discriminate].
  destruct (real_is_zero v) eqn:E; [discriminate|]. intros [= <-]. auto.
Qed.

Lemma budget_if_set_none (o : option real) :
  budget_if_set o = None ->
  o = None \/ exists negative, o = Some (RZero negative).
Proof.
  destruct o as [v|]; simpl; [|now left].
  destruct v as [s|s|s m e]; cbn; try discriminate. intros _. right. eauto.
Qed.

Lemma budget_if_set_of_set (trip : Trip.t) (b : real) :
  budget_set trip b -> budget_if_set (Trip.budget_total trip) = Some b.
Proof. intros [-> Hb]. simpl. now rewrite Hb. Qed.

Lemma budget_if_set_of_unset (trip : Trip.t) :
  budget_unset trip -> budget_if_set (Trip.budget_total trip) = None.
Proof. intros [-> | [s ->]]; reflexivity. Qed.

(** An integer other than 0 converts to a float other than 0.0. *)
Lemma int_to_float_nonzero (n : Z) (y : float) :
  n <> 0 -> int_to_float n = Ok y -> is_zero y = false.
Proof.
  unfold int_to_float. destruct n as [|p|p]; [contradiction| |]; intros _;
    destruct (binary_round prec emax _ p 0); try discriminate;
    intros [= <-]; reflexivity.
Qed.

(** A truthy object that is a number is not zero. *)
Lemma truthy_number_nonzero (v : json) (y : float) :
  truthy v = true -> as_float v = Some (Ok y) -> is_zero y = false.
Proof.
  destruct v; cbn [truthy as_float]; try discriminate; intros Ht [= H].
  - subst b. now apply (int_to_float_nonzero 1).
  - apply (int_to_float_nonzero n); [|exact H].
    intros ->. discriminate Ht.
  - subst x. now apply negb_true_iff.
Qed.

(** A truthy object that a [Float] column stores is stored as a number
    other than zero. *)
Lemma truthy_stored_nonzero (v : json) (x : real) :
  truthy v = true -> as_number v = Some x -> real_is_zero x = false.
Proof.
  destruct v; cbn [truthy as_number]; try discriminate; intros Ht.
  - subst b. now intros [= <-].
  - destruct ((- 2 ^ 63 <=? n) && (n <? 2 ^ 63)); [|discriminate].
    unfold int_to_float. destruct n as [|p|p]; [discriminate Ht| |];
      destruct (binary_round prec emax _ p 0); try discriminate;
      intros [= <-]; reflexivity.
  - destruct x0; cbn [column]; try discriminate; intros [= <-]; reflexivity.
Qed.

(** Rounding and conversion on values where binary and decimal arithmetic
    part: [0.1 + 0.025] is the double 0.125 and rounds to 0.12, the double
    written 2.675 lies below the tie and rounds to 2.67, an infinity rounds
    to itself, and [10 ** 400] has no float. *)
Lemma rounding_examples :
  py_round (fadd (decimal 1 10) (decimal 25 1000)) 2 = decimal 12 100
  /\ py_round (decimal 2675 1000) 2 = decimal 267 100
  /\ py_round (S754_infinity false) 2 = S754_infinity false
  /\ int_to_float (10 ^ 400)
     = Raise (OverflowError "int too large to convert to float").
Proof. repeat split; vm_compute; reflexivity. Qed.

(** ** Sums *)

Lemma py_sum_app (l1 l2 : list float) :
  py_sum (l1 ++ l2) = fold_left fadd l2 (py_sum l1).
Proof. unfold py_sum. apply fold_left_app. Qed.

Lemma py_sum_snoc (l : list float) (x : float) :
  py_sum (l ++ [x]) = fadd (py_sum l) x.
Proof. now rewrite py_sum_app. Qed.

(** ** The per-category accumulator *)

Arguments String.eqb : simpl never.
Arguments dict_get : simpl never.

Lemma existsb_eqb_In (c : string) (l : list string) :
  existsb (String.eqb c) l = true <-> In c l.
Proof.
  rewrite existsb_exists. split.
  - intros (x & Hx & E). apply String.eqb_eq in E. now subst x.
  - intros H. exists c. split; [exact H | apply String.eqb_refl].
Qed.

Lemma existsb_eqb_not_In (c : string) (l : list string) :
  existsb (String.eqb c) l = false <-> ~ In c l.
Proof.
  rewrite <- existsb_eqb_In. destruct (existsb (String.eqb c) l); split;
    congruence.
Qed.

Lemma group_by_category_snoc (es : list Expense.t) (e : Expense.t) :
  group_by_category (es ++ [e])
  = dict_add (group_by_category es) (Expense.category e)
             (to_float (Expense.amount e)).
Proof. unfold group_by_category. now rewrite fold_left_app. Qed.

Lemma seen_categories_snoc (es : list Expense.t) (e : Expense.t) :
  seen_categories (es ++ [e])
  = if existsb (String.eqb (Expense.category e)) (seen_categories es)
    then seen_categories es
    else (seen_categories es ++ [Expense.category e])%list.
Proof. unfold seen_categories. now rewrite fold_left_app. Qed.

Lemma spent_in_snoc (cat : string) (es : list Expense.t) (e : Expense.t) :
  spent_in cat (es ++ [e])
  = if String.eqb (Expense.category e) cat
    then fadd (spent_in cat es) (to_float (Expense.amount e))
    else spent_in cat es.
Proof.
  unfold spent_in. rewrite filter_app. cbn [filter].
  destruct (String.eqb (Expense.category e) cat).
  - rewrite map_app. cbn [map]. apply py_sum_snoc.
  - now rewrite app_nil_r.
Qed.

(** The categories seen are those of the expenses, each once. *)
Lemma seen_categories_spec (es : list Expense.t) :
  NoDup (seen_categories es)
  /\ forall c, In c (seen_categories es)
               <-> exists e, In e es /\ Expense.category e = c.
Proof.
  induction es as [|e es [IHn IHi]] using rev_ind.
  - split; [constructor|]. intros c. split; [intros [] | intros (e & [] & _)].
  - rewrite seen_categories_snoc.
    destruct (existsb (String.eqb (Expense.category e)) (seen_categories es))
      eqn:E.
    + split; [exact IHn|]. intros c. rewrite IHi. split.
      * intros (x & Hx & Hc). exists x. split; [|exact Hc].
        apply in_or_app. now left.
      * intros (x & Hx & Hc). apply in_app_or in Hx.
        destruct Hx as [Hx | [<- | []]]; [eauto|].
        apply existsb_eqb_In in E. apply IHi in E. now subst c.
    + apply existsb_eqb_not_In in E. split.
      * apply NoDup_app; [exact IHn | repeat constructor; intros [] |].
        intros c Hc [<- | []]. contradiction.
      * intros c. rewrite in_app_iff, IHi. cbn [In]. split.
        -- intros [(x & Hx & Hc) | [<- | []]].
           ++ exists x. split; [apply in_or_app; now left | exact Hc].
           ++ exists e. split; [apply in_or_app; right; now left | reflexivity].
        -- intros (x & Hx & Hc). apply in_app_or in Hx.
           destruct Hx as [Hx | [<- | []]]; [left; eauto | right; left; exact Hc].
Qed.

Lemma spent_in_unseen (cat : string) (es : list Expense.t) :
  ~ In cat (seen_categories es) -> spent_in cat es = zero.
Proof.
  intros H. unfold spent_in.
  assert (E : filter (fun e => String.eqb (Expense.category e) cat) es = []).
  { induction es as [|e es IH] using rev_ind; [reflexivity|].
    rewrite filter_app. cbn [filter].
    destruct (String.eqb (Expense.category e) cat) eqn:Ec.
    - exfalso. apply H. apply (proj2 (seen_categories_spec _)).
      exists e. split; [apply in_or_app; right; now left|].
      now apply String.eqb_eq.
    - rewrite app_nil_r. apply IH. intros Hin. apply H.
      apply (proj2 (seen_categories_spec _)).
      apply (proj2 (seen_categories_spec _)) in Hin.
      destruct Hin as (x & Hx & Hc). exists x.
      split; [apply in_or_app; now left | exact Hc]. }
  now rewrite E.
Qed.

(** Adding to a dict of per-key values: the value of the key grows by the
    amount, a key not yet present is appended with the amount added to 0.0,
    and no other value changes. *)
Lemma dict_add_values (f f' : string -> float) (ks : list string)
    (k : string) (a : float) :
  NoDup ks ->
  (forall c, f' c = if String.eqb k c then fadd (f c) a else f c) ->
  dict_add (map (fun c => (c, f c)) ks) k a
  = if existsb (String.eqb k) ks
    then map (fun c => (c, f' c)) ks
    else (map (fun c => (c, f' c)) ks ++ [(k, fadd zero a)])%list.
Proof.
  intros Hnd Hf'. induction Hnd as [|c ks Hc Hnd IH]; [reflexivity|].
  cbn [map dict_add existsb]. rewrite (String.eqb_sym c k).
  destruct (String.eqb k c) eqn:E; cbn [orb].
  - apply String.eqb_eq in E. subst c.
    rewrite Hf', String.eqb_refl. f_equal. apply map_ext_in.
    intros c Hin. rewrite Hf'.
    destruct (String.eqb k c) eqn:E; [|reflexivity].
    apply String.eqb_eq in E. subst c. contradiction.
  - rewrite IH, (Hf' c), E.
    destruct (existsb (String.eqb k) ks); reflexivity.
Qed.

(** The accumulator holds, for each category in the order of first
    occurrence, the sum of the amounts filed under it. *)
Lemma group_by_category_spec (es : list Expense.t) :
  group_by_category es = category_sums es.
Proof.
  induction es as [|e es IH] using rev_ind; [reflexivity|].
  rewrite group_by_category_snoc, IH. unfold category_sums.
  rewrite (dict_add_values (fun c => spent_in c es)
             (fun c => spent_in c (es ++ [e])));
    [|apply seen_categories_spec | intros c; apply spent_in_snoc].
  rewrite seen_categories_snoc.
  destruct (existsb (String.eqb (Expense.category e)) (seen_categories es))
    eqn:E; [reflexivity|].
  rewrite map_app. cbn [map]. do 2 f_equal.
  rewrite spent_in_snoc, String.eqb_refl, spent_in_unseen; [reflexivity|].
  now apply existsb_eqb_not_In.
Qed.

Lemma dict_get_values (f : string -> float) (ks : list string) (cat : string) :
  dict_get (map (fun c => (c, f c)) ks) cat
  = if existsb (String.eqb cat) ks then Some (f cat) else None.
Proof.
  induction ks as [|c ks IH]; [reflexivity|].
  cbn [map existsb]. unfold dict_get. fold (@dict_get float).
  rewrite (String.eqb_sym c cat).
  destruct (String.eqb cat c) eqn:E; cbn [orb]; [|exact IH].
  apply String.eqb_eq in E. now subst c.
Qed.

Lemma group_by_category_lookup (es : list Expense.t) (cat : string) :
  lookup0 (group_by_category es) cat = spent_in cat es.
Proof.
  rewrite group_by_category_spec. unfold lookup0, category_sums.
  rewrite dict_get_values.
  destruct (existsb (String.eqb cat) (seen_categories es)) eqn:E;
    [reflexivity|].
  symmetry. apply spent_in_unseen. now apply existsb_eqb_not_In.
Qed.

(** ** The result monad *)

Lemma bind_ok {A B : Type} (m : result A) (k : A -> result B) (b : B) :
  bind m k = Ok b -> exists a, m = Ok a /\ k a = Ok b.
Proof. destruct m as [a|e]; simpl; [eauto | discriminate]. Qed.

Lemma bind_raise {A B : Type} (m : result A) (k : A -> result B) (e : exn) :
  bind m k = Raise e -> m = Raise e \/ exists a, m = Ok a /\ k a = Raise e.
Proof. destruct m as [a|e']; simpl; [eauto | intros [= ->]; auto]. Qed.

Ltac inv_bind H :=
  let a := fresh "v" in
  let Ha := fresh "Hv" in
  apply bind_ok in H; destruct H as (a & Ha & H).

Lemma mapM_ok {A B : Type} (f : A -> result B) (l : list A) (bs : list B) :
  mapM f l = Ok bs -> Forall2 (fun a b => f a = Ok b) l bs.
Proof.
  revert bs. induction l as [|a l IH]; simpl; intros bs H.
  - injection H as <-. constructor.
  - inv_bind H. inv_bind H. injection H as <-. constructor; auto.
Qed.

Lemma mapM_total {A B : Type} (f : A -> result B) (l : list A) :
  Forall (fun a => exists b, f a = Ok b) l -> exists bs, mapM f l = Ok bs.
Proof.
  induction 1 as [|a l [b Hb] _ [bs Hbs]]; simpl.
  - eauto.
  - rewrite Hb. simpl. rewrite Hbs. simpl. eauto.
Qed.

Lemma mapM_raise {A B : Type} (f : A -> result B) (l : list A) (e : exn) :
  mapM f l = Raise e -> exists a, In a l /\ f a = Raise e.
Proof.
  induction l as [|a l IH]; simpl; intros H; [discriminate|].
  apply bind_raise in H. destruct H as [H | (b & Hb & H)].
  - eauto.
  - apply bind_raise in H. destruct H as [H | (bs & Hbs & H)].
    + destruct (IH H) as (a' & Hin & Ha'). eauto.
    + discriminate.
Qed.

(** ** The summary calculator, field by field *)

Lemma category_entry_inv (bt : option real) (est : json)
    (byc : list (string * float)) (cat : string) (ce : CategoryEntry) :
  category_entry bt est byc cat = Ok ce ->
  ce_category ce = cat
  /\ ce_spent ce = lookup0 byc cat
  /\ (exists entry, py_get est cat (JObj []) = Ok entry
                    /\ py_get entry "amount" (JFloat zero)
                       = Ok (ce_estimated ce))
  /\ ce_pct_of_budget ce
     = match budget_if_set bt with
       | Some b => Some (pct (lookup0 byc cat) (to_float b))
       | None => None
       end
  /\ (truthy (ce_estimated ce) = false -> ce_pct_of_estimate ce = None)
  /\ (truthy (ce_estimated ce) = true ->
      exists y, as_float (ce_estimated ce) = Some (Ok y) /\ is_zero y = false
                /\ ce_pct_of_estimate ce = Some (pct (lookup0 byc cat) y)).
Proof.
  unfold category_entry. intros H.
  inv_bind H. rename v into entry. inv_bind H. rename v into estimated.
  inv_bind H. rename v into icon. inv_bind H. rename v into pb.
  inv_bind H. rename v into pe. injection H as <-. simpl.
  split; [reflexivity|]. split; [reflexivity|].
  split; [exists entry; auto|].
  split.
  - destruct (budget_if_set bt) as [b|] eqn:Eb.
    + destruct (budget_if_set_some _ _ Eb) as [_ Hb].
      rewrite (float_div_nonzero _ (to_float b) Hb) in Hv2. simpl in Hv2.
      now injection Hv2 as <-.
    + now injection Hv2 as <-.
  - split; intros Ht; rewrite Ht in Hv3.
    + now injection Hv3 as <-.
    + inv_bind Hv3. injection Hv3 as <-.
      unfold py_div in Hv4.
      destruct (as_float estimated) as [[y|e]|] eqn:Ey; try discriminate.
      cbn [bind] in Hv4.
      pose proof (truthy_number_nonzero _ _ Ht Ey) as Hy.
      rewrite (float_div_nonzero _ _ Hy) in Hv4. injection Hv4 as <-.
      exists y. auto.
Qed.

Lemma category_entry_never_divides_by_zero (bt : option real) (est : json)
    (byc : list (string * float)) (cat : string) :
  category_entry bt est byc cat <> Raise ZeroDivisionError.
Proof.
  unfold category_entry. intros H.
  destruct (py_get est cat (JObj [])) as [entry|e] eqn:E1; simpl in H.
  2:{ injection H as ->. destruct est; simpl in E1; discriminate. }
  destruct (py_get entry "amount" (JFloat zero)) as [estimated|e] eqn:E2;
    simpl in H.
  2:{ injection H as ->. destruct entry; simpl in E2; discriminate. }
  destruct (dict_get CATEGORY_ICONS cat) as [icon|]; simpl in H;
    [|discriminate].
  assert (Hest : (if truthy estimated
                  then q <- py_div (lookup0 byc cat) estimated ;;
                       Ok (Some (py_round (fmul q hundred) 1))
                  else Ok None) <> Raise ZeroDivisionError).
  { destruct (truthy estimated) eqn:Ht; [|discriminate].
    unfold py_div.
    destruct (as_float estimated) as [[y|e]|] eqn:Ey; cbn [bind];
      [| |discriminate].
    - rewrite (float_div_nonzero _ _ (truthy_number_nonzero _ _ Ht Ey)).
      discriminate.
    - destruct estimated; cbn [as_float] in Ey; try discriminate;
        injection Ey as Ey; unfold int_to_float in Ey;
        repeat match type of Ey with
               | context [match ?x with _ => _ end] => destruct x
               end; try discriminate; injection Ey as <-; discriminate. }
  destruct (budget_if_set bt) as [b|] eqn:Eb; simpl in H.
  - destruct (budget_if_set_some _ _ Eb) as [_ Hb].
    rewrite (float_div_nonzero _ (to_float b) Hb) in H. simpl in H.
    apply bind_raise in H. destruct H as [H | (pe & _ & H)];
      [now apply Hest | discriminate].
  - apply bind_raise in H. destruct H as [H | (pe & _ & H)];
      [now apply Hest | discriminate].
Qed.

Lemma compute_summary_inv (trip : Trip.t) (expenses : list Expense.t)
    (s : Summary) :
  compute_summary trip expenses = Ok s ->
  s_budget_total s = Trip.budget_total trip
  /\ s_budget_currency s = str_or (Trip.budget_currency trip) "USD"
  /\ s_total_spent s = py_round (unrounded_total expenses) 2
  /\ s_remaining s
     = match budget_if_set (Trip.budget_total trip) with
       | Some b =>
           Some (py_round (fsub (to_float b) (unrounded_total expenses)) 2)
       | None => None
       end
  /\ s_pct_used s
     = match budget_if_set (Trip.budget_total trip) with
       | Some b => Some (pct (unrounded_total expenses) (to_float b))
       | None => None
       end
  /\ Forall2 (fun cat ce =>
                category_entry (Trip.budget_total trip)
                  (estimates_or_empty (Trip.budget_estimates trip))
                  (group_by_category expenses) cat = Ok ce)
             EXPENSE_CATEGORIES (s_categories s)
  /\ s_estimates s = estimates_or_empty (Trip.budget_estimates trip).
Proof.
  unfold compute_summary, unrounded_total.
  rewrite <- (group_by_category_spec expenses). intros H.
  inv_bind H. rename v into cats. apply mapM_ok in Hv.
  inv_bind H. rename v into rem. inv_bind H. rename v into used.
  injection H as <-. cbn [s_budget_total s_budget_currency s_total_spent
                          s_remaining s_pct_used s_categories s_estimates].
  destruct (budget_if_set (Trip.budget_total trip)) as [b|] eqn:Eb.
  - destruct (budget_if_set_some _ _ Eb) as [_ Hb].
    rewrite (float_div_nonzero _ (to_float b) Hb) in Hv1. cbn [bind] in Hv1.
    injection Hv0 as <-. injection Hv1 as <-. repeat split; auto.
  - injection Hv0 as <-. injection Hv1 as <-. repeat split; auto.
Qed.

Lemma compute_summary_ok_iff_categories (trip : Trip.t)
    (expenses : list Expense.t) :
  (exists cats,
      mapM (category_entry (Trip.budget_total trip)
              (estimates_or_empty (Trip.budget_estimates trip))
              (group_by_category expenses)) EXPENSE_CATEGORIES = Ok cats) ->
  exists s, compute_summary trip expenses = Ok s.
Proof.
  intros [cats Hc]. unfold compute_summary. rewrite Hc. cbn [bind].
  destruct (budget_if_set (Trip.budget_total trip)) as [b|] eqn:Eb.
  - destruct (budget_if_set_some _ _ Eb) as [_ Hb].
    rewrite (float_div_nonzero _ (to_float b) Hb). cbn [bind]. eauto.
  - cbn [bind]. eauto.
Qed.

(** No division the calculator performs has a zero denominator. *)
Lemma compute_summary_never_divides_by_zero (trip : Trip.t)
    (expenses : list Expense.t) :
  compute_summary trip expenses <> Raise ZeroDivisionError.
Proof.
  unfold compute_summary. intros H.
  apply bind_raise in H. destruct H as [H | (cats & _ & H)].
  - apply mapM_raise in H. destruct H as (cat & _ & H).
    now apply category_entry_never_divides_by_zero in H.
  - destruct (budget_if_set (Trip.budget_total trip)) as [b|] eqn:Eb;
      cbn [bind] in H.
    + destruct (budget_if_set_some _ _ Eb) as [_ Hb].
      rewrite (float_div_nonzero _ (to_float b) Hb) in H. discriminate.
    + discriminate.
Qed.

(** *** Estimate blobs the calculator can read *)

Lemma icon_defined (cat : string) :
  In cat EXPENSE_CATEGORIES -> exists i, dict_get CATEGORY_ICONS cat = Some i.
Proof.
  intros H. repeat (destruct H as [<- | H]; [eexists; reflexivity|]).
  destruct H.
Qed.

Lemma Forall2_in_l {A B : Type} (P : A -> B -> Prop) (l : list A)
    (l' : list B) (a : A) :
  Forall2 P l l' -> In a l -> exists b, In b l' /\ P a b.
Proof.
  induction 1 as [|x y l l' Hxy _ IH]; intros Hin; [destruct Hin|].
  destruct Hin as [<- | Hin].
  - exists y. split; [now left | exact Hxy].
  - destruct (IH Hin) as (b & Hb & HP). exists b. split; [now right | exact HP].
Qed.

Lemma category_entry_succeeds (bt : option real)
    (members : list (string * json)) (byc : list (string * float))
    (cat : string) :
  In cat EXPENSE_CATEGORIES ->
  match dict_get members cat with
  | Some entry => amount_readable entry = true
  | None => True
  end ->
  exists ce, category_entry bt (JObj members) byc cat = Ok ce.
Proof.
  intros Hin Hm. destruct (icon_defined cat Hin) as [icon Hi].
  unfold category_entry. cbn [py_get bind].
  assert (Hentry : exists fields,
             match dict_get members cat with
             | Some x => x
             | None => JObj []
             end = JObj fields
             /\ match dict_get fields "amount" with
                | Some a =>
                    truthy a = true -> exists y, as_float a = Some (Ok y)
                | None => True
                end).
  { destruct (dict_get members cat) as [entry|].
    - destruct entry; try discriminate. exists members0. split; auto.
      cbn [amount_readable] in Hm.
      destruct (dict_get members0 "amount") as [a|]; [|exact I].
      intros Ht. rewrite Ht in Hm. cbn [negb orb] in Hm.
      destruct (as_float a) as [[y|e]|]; [eauto | discriminate..].
    - exists []. split; reflexivity || exact I. }
  destruct Hentry as (fields & -> & Hamount). cbn [py_get bind].
  rewrite Hi. cbn [bind].
  assert (Hbudget : exists pb,
             match budget_if_set bt with
             | Some b =>
                 q <- float_div (lookup0 byc cat) (to_float b) ;;
                 Ok (Some (py_round (fmul q hundred) 1))
             | None => Ok None
             end = Ok pb).
  { destruct (budget_if_set bt) as [b|] eqn:Eb; [|eauto].
    destruct (budget_if_set_some _ _ Eb) as [_ Hb].
    rewrite (float_div_nonzero _ (to_float b) Hb). cbn [bind]. eauto. }
  destruct Hbudget as [pb ->]. cbn [bind].
  set (estimated := match dict_get fields "amount" with
                    | Some x => x
                    | None => JFloat zero
                    end).
  destruct (truthy estimated) eqn:Ht; cbn [bind]; [|eauto].
  assert (Hnum : exists y, as_float estimated = Some (Ok y)).
  { subst estimated. destruct (dict_get fields "amount") as [a|].
    - now apply Hamount.
    - discriminate Ht. }
  destruct Hnum as [y Hy]. unfold py_div. rewrite Hy. cbn [bind].
  rewrite (float_div_nonzero _ _ (truthy_number_nonzero _ _ Ht Hy)).
  cbn [bind]. eauto.
Qed.

Lemma category_entry_readable (bt : option real) (est : json)
    (byc : list (string * float)) (cat : string) (ce : CategoryEntry) :
  category_entry bt est byc cat = Ok ce ->
  exists members,
    est = JObj members
    /\ match dict_get members cat with
       | Some entry => amount_readable entry = true
       | None => True
       end.
Proof.
  intros H. apply category_entry_inv in H.
  destruct H as (_ & _ & (entry & He & Ha) & _ & _ & Ht).
  destruct est; try discriminate He. exists members. split; [reflexivity|].
  cbn [py_get] in He. injection He as He.
  destruct (dict_get members cat) as [entry'|]; [|exact I].
  subst entry'. destruct entry; try discriminate Ha.
  cbn [py_get] in Ha. injection Ha as Ha. cbn [amount_readable].
  destruct (dict_get members0 "amount") as [a|]; [|reflexivity].
  subst a. destruct (truthy (ce_estimated ce)) eqn:E; [|reflexivity].
  destruct (Ht eq_refl) as (y & -> & _). reflexivity.
Qed.

(** The calculator returns a summary exactly on the estimate blobs it can
    read. *)
Lemma compute_summary_ok_iff (trip : Trip.t)
    (expenses : list Expense.t) :
  (exists s, compute_summary trip expenses = Ok s)
  <-> summarisable (Trip.budget_estimates trip) = true.
Proof.
  unfold summarisable. split.
  - intros [s H]. apply compute_summary_inv in H.
    destruct H as (_ & _ & _ & _ & _ & Hcats & _).
    assert (Hfirst : In "food" EXPENSE_CATEGORIES) by (cbn; auto).
    destruct (Forall2_in_l _ _ _ _ Hcats Hfirst) as (ce0 & _ & Hce0).
    destruct (category_entry_readable _ _ _ _ _ Hce0) as (members & Hest & _).
    rewrite Hest in *. apply forallb_forall. intros cat Hin.
    destruct (Forall2_in_l _ _ _ _ Hcats Hin) as (ce & _ & Hce).
    destruct (category_entry_readable _ _ _ _ _ Hce) as (members' & E & Hm).
    injection E as <-. destruct (dict_get members cat); [exact Hm | reflexivity].
  - intros H. apply compute_summary_ok_iff_categories.
    destruct (estimates_or_empty (Trip.budget_estimates trip));
      try discriminate.
    rewrite forallb_forall in H.
    apply mapM_total. apply Forall_forall. intros cat Hin.
    apply category_entry_succeeds; [exact Hin|].
    specialize (H cat Hin).
    destruct (dict_get members cat); [exact H | exact I].
Qed.

Lemma compute_summary_total (trip : Trip.t) (expenses : list Expense.t) :
  summarisable (Trip.budget_estimates trip) = true ->
  exists s, compute_summary trip expenses = Ok s.
Proof. apply compute_summary_ok_iff. Qed.

(** *** The six category entries *)

Lemma estimated_is_stored (trip : Trip.t) (cat : string) (entry estimated : json) :
  py_get (estimates_or_empty (Trip.budget_estimates trip)) cat (JObj [])
  = Ok entry ->
  py_get entry "amount" (JFloat zero) = Ok estimated ->
  estimated = match stored_estimate trip cat with
              | Some a => a
              | None => JFloat zero
              end.
Proof.
  unfold stored_estimate, estimates_or_empty.
  destruct (Trip.budget_estimates trip) as [j|].
  - destruct (truthy j) eqn:Ht.
    + destruct j; cbn [py_get]; try discriminate. intros [= <-].
      destruct (dict_get members cat) as [e|].
      * destruct e; cbn [py_get]; try discriminate. now intros [= <-].
      * cbn [py_get]. now intros [= <-].
    + cbn [py_get]. change (dict_get [] cat) with (@None json).
      intros [= <-]. cbn [py_get]. intros [= <-].
      destruct j; try reflexivity.
      destruct members; [reflexivity | discriminate].
  - cbn [py_get]. intros [= <-]. cbn [py_get]. now intros [= <-].
Qed.

Lemma Forall2_map_eq {A B : Type} (f : B -> A) (P : B -> Prop)
    (l : list A) (l' : list B) :
  Forall2 (fun a b => f b = a /\ P b) l l' -> map f l' = l /\ Forall P l'.
Proof.
  induction 1 as [|a b l l' [Hf HP] _ [IH1 IH2]]; simpl.
  - split; constructor.
  - split; [congruence | constructor; assumption].
Qed.

Lemma summary_categories (trip : Trip.t) (expenses : list Expense.t)
    (s : Summary) :
  compute_summary trip expenses = Ok s ->
  map ce_category (s_categories s) = EXPENSE_CATEGORIES
  /\ Forall (entry_spec trip expenses) (s_categories s).
Proof.
  intros H. apply compute_summary_inv in H.
  destruct H as (_ & _ & _ & _ & _ & H & _).
  apply Forall2_map_eq.
  eapply Forall2_impl; [|exact H]. cbv beta.
  intros cat ce Hce. apply category_entry_inv in Hce.
  destruct Hce as (Hc & Hs & (entry & He1 & He2) & Hb & Hf & Ht).
  rewrite group_by_category_lookup in Hs, Hb, Ht.
  unfold entry_spec. rewrite Hc.
  repeat split; auto.
  eapply estimated_is_stored; eassumption.
Qed.




Lemma filter_all {A : Type} (f : A -> bool) (l : list A) :
  (forall a, In a l -> f a = true) -> filter f l = l.
Proof.
  induction l as [|a l IH]; intros H; cbn [filter]; [reflexivity|].
  rewrite (H a) by now left. f_equal. apply IH. intros x Hx. apply H.
  now right.
Qed.

(** ** The Budget Summary Calculator: totals *)




(** ** The Budget Summary Calculator: the division-by-zero policy *)

Lemma zero_or_absent_falsy (trip : Trip.t) (cat : string) :
  zero_or_absent (stored_estimate trip cat) ->
  truthy (match stored_estimate trip cat with
          | Some a => a
          | None => JFloat zero
          end) = false.
Proof.
  intros [-> | [-> | [s ->]]]; reflexivity.
Qed.

(** C2, as stated, fails: the calculator does produce infinities.  Two
    expenses of 1e308 add up to an infinity, and with a budget of 1000
    [total_spent] and [pct_used] are infinite. *)
Lemma ratios_infinity_counterexample :
  exists s, compute_summary rome [jet; jet] = Ok s
            /\ s_total_spent s = S754_infinity false
            /\ s_pct_used s = Some (S754_infinity false).
Proof.
  eexists. split; [vm_compute; reflexivity|]. split; reflexivity.
Qed.

(** It also raises an arithmetic error that is not a division by zero: a
    stored estimate amount that is an integer beyond the range of the
    doubles cannot be converted for the division. *)
Lemma compute_summary_overflow :
  compute_summary overestimated []
  = Raise (OverflowError "int too large to convert to float").
Proof. vm_compute. reflexivity. Qed.

(** C2 (amended): whenever the budget is 0 or unset, [remaining],
    [pct_used] and every entry's [pct_of_budget] are null; whenever a
    category's stored estimate amount is 0 or absent, that entry's
    [pct_of_estimate] is null; and on no input at all does the calculator
    raise a division-by-zero error, since every quotient it forms has a
    non-zero denominator.  A summary is produced for every record whose
    estimate blob the calculator can read. *)
Theorem ratios_null_without_denominator (trip : Trip.t)
    (expenses : list Expense.t) :
  compute_summary trip expenses <> Raise ZeroDivisionError
  /\ (summarisable (Trip.budget_estimates trip) = true ->
      exists s, compute_summary trip expenses = Ok s)
  /\ forall s, compute_summary trip expenses = Ok s ->
       (budget_unset trip ->
        s_remaining s = None /\ s_pct_used s = None
        /\ Forall (fun ce => ce_pct_of_budget ce = None) (s_categories s))
       /\ (forall ce, In ce (s_categories s) ->
             zero_or_absent (stored_estimate trip (ce_category ce)) ->
             ce_pct_of_estimate ce = None).
Proof.
  split; [apply compute_summary_never_divides_by_zero|].
  split; [apply compute_summary_total|].
  intros s H. pose proof (compute_summary_inv _ _ _ H) as Hinv.
  destruct Hinv as (_ & _ & _ & Hrem & Hused & _ & _).
  destruct (summary_categories _ _ _ H) as [_ Hentries].
  rewrite Forall_forall in Hentries. split.
  - intros Hunset. rewrite (budget_if_set_of_unset _ Hunset) in Hrem, Hused.
    split; [exact Hrem|]. split; [exact Hused|].
    apply Forall_forall. intros ce Hin.
    destruct (Hentries ce Hin) as (_ & _ & Hb & _).
    now rewrite (budget_if_set_of_unset _ Hunset) in Hb.
  - intros ce Hin Hzero.
    destruct (Hentries ce Hin) as (_ & He & _ & Hfalsy & _).
    apply Hfalsy. rewrite He. now apply zero_or_absent_falsy.
Qed.

Lemma ratios_null_without_denominator_witness :
  exists s, compute_summary unbudgeted [lunch] = Ok s
            /\ s_remaining s = None /\ s_pct_used s = None
            /\ Forall (fun ce => ce_pct_of_budget ce = None) (s_categories s)
            /\ Forall (fun ce => ce_pct_of_estimate ce = None) (s_categories s).
Proof.
  destruct (ratios_null_without_denominator unbudgeted [lunch])
    as (_ & Hex & Hall).
  destruct (Hex eq_refl) as [s Hs]. exists s. split; [exact Hs|].
  destruct (Hall s Hs) as [Hbudget Hestimate].
  destruct (Hbudget (or_introl eq_refl)) as (H1 & H2 & H3).
  split; [exact H1|]. split; [exact H2|]. split; [exact H3|].
  apply Forall_forall. intros ce Hin. apply Hestimate; [exact Hin|].
  destruct (summary_categories _ _ _ Hs) as [Hm _].
  assert (Hc : In (ce_category ce) EXPENSE_CATEGORIES).
  { rewrite <- Hm. now apply in_map. }
  unfold EXPENSE_CATEGORIES in Hc. cbn [In] in Hc.
  destruct Hc as [<- | [<- | [<- | [<- | [<- | [<- | []]]]]]];
    try (left; reflexivity).
  right. left. reflexivity.
Defined.

(** ** The Budget Summary Calculator: category sums *)


(** With all categories in the fixed set the six values, added in the
    order of the category list, can still round to the neighbouring cent:
    the calculator adds 86.188, 7.297 and 57.0 in the order of the expenses
    and reports 150.49, where the six spent values add up to 150.48. *)
Lemma category_order_matters :
  exists s, compute_summary rome [train; tip; scarf] = Ok s
            /\ s_total_spent s = to_float (real_of_decimal 15049 100)
            /\ py_round (categories_spent s) 2
               = to_float (real_of_decimal 15048 100).
Proof.
  eexists. split; [vm_compute; reflexivity|].
  split; vm_compute; reflexivity.
Qed.



(** ** The Budget Summary Calculator: degenerate inputs *)

(** A record without estimates, and one whose category entries are objects
    without ["amount"], are records the calculator can read. *)
Lemma degenerate_records_are_readable (members : list (string * json)) :
  summarisable None = true
  /\ ((forall cat entry,
          dict_get members cat = Some entry ->
          exists fields, entry = JObj fields
                         /\ dict_get fields "amount" = None) ->
      summarisable (Some (JObj members)) = true).
Proof.
  split; [reflexivity|]. intros H. unfold summarisable, estimates_or_empty.
  destruct (truthy (JObj members)); [|reflexivity].
  apply forallb_forall. intros cat _.
  destruct (dict_get members cat) as [entry|] eqn:E; [|reflexivity].
  destruct (H cat entry E) as (fields & -> & Hnone).
  cbn [amount_readable]. now rewrite Hnone.
Qed.




(** ** The store: lookups *)

Lemma find_trip_some (db : DB) (trip_id : Z) (t : Trip.t) :
  find_trip db trip_id = Some t -> In t (trips db) /\ Trip.id t = trip_id.
Proof.
  unfold find_trip. intros H. apply find_some in H.
  destruct H as [Hin Heq]. split; [exact Hin | now apply Z.eqb_eq].
Qed.

Lemma find_trip_none (db : DB) (trip_id : Z) :
  find_trip db trip_id = None <-> no_such_trip db trip_id.
Proof.
  unfold find_trip, no_such_trip. split.
  - intros H t Hin. apply (find_none _ _ H) in Hin. now apply Z.eqb_neq.
  - intros H. destruct (find _ (trips db)) as [t|] eqn:E; [|reflexivity].
    apply find_some in E. destruct E as [Hin Heq].
    apply Z.eqb_eq in Heq. now elim (H t Hin).
Qed.

Lemma find_expense_some (db : DB) (expense_id trip_id : Z) (e : Expense.t) :
  find_expense db expense_id trip_id = Some e ->
  In e (expenses db) /\ Expense.id e = expense_id
  /\ Expense.trip_id e = trip_id.
Proof.
  unfold find_expense. intros H. apply find_some in H.
  destruct H as [Hin Heq]. apply andb_true_iff in Heq.
  destruct Heq as [H1 H2]. apply Z.eqb_eq in H1, H2. auto.
Qed.

Lemma find_expense_none (db : DB) (expense_id trip_id : Z) :
  find_expense db expense_id trip_id = None <->
  forall e, In e (expenses db) ->
            ~ (Expense.id e = expense_id /\ Expense.trip_id e = trip_id).
Proof.
  unfold find_expense. split.
  - intros H e Hin [H1 H2]. apply (find_none _ _ H) in Hin.
    rewrite H1, H2, !Z.eqb_refl in Hin. discriminate.
  - intros H. destruct (find _ (expenses db)) as [e|] eqn:E; [|reflexivity].
    apply find_some in E. destruct E as [Hin Heq].
    apply andb_true_iff in Heq. destruct Heq as [H1 H2].
    apply Z.eqb_eq in H1, H2. now elim (H e Hin).
Qed.

Lemma NoDup_map_inj {A : Type} (f : A -> Z) (l : list A) (a b : A) :
  NoDup (map f l) -> In a l -> In b l -> f a = f b -> a = b.
Proof.
  induction l as [|x l IH]; cbn [map]; intros Hnd Ha Hb Hf; [destruct Ha|].
  inversion Hnd as [|? ? Hnotin Hnd']. subst.
  destruct Ha as [-> | Ha], Hb as [-> | Hb]; auto.
  - elim Hnotin. rewrite Hf. now apply in_map.
  - elim Hnotin. rewrite <- Hf. now apply in_map.
Qed.

(** An expense filed under another trip is not found under this one. *)
Lemma find_expense_elsewhere (db : DB) (expense_id trip_id : Z) :
  NoDup (map Expense.id (expenses db)) ->
  belongs_elsewhere db expense_id trip_id ->
  find_expense db expense_id trip_id = None.
Proof.
  intros Hnd (e & Hin & Hid & Htrip). apply find_expense_none.
  intros e' Hin' [Hid' Htrip'].
  assert (e' = e) by (eapply NoDup_map_inj; eauto; congruence).
  subst e'. contradiction.
Qed.

(** No expense is found under a trip that is not stored. *)
Lemma find_expense_no_trip (db : DB) (expense_id trip_id : Z) :
  db_consistent db -> no_such_trip db trip_id ->
  find_expense db expense_id trip_id = None.
Proof.
  intros (_ & _ & Href) Hno. apply find_expense_none.
  intros e Hin [_ Htrip]. destruct (Href e Hin) as (t & Ht & Hid).
  apply (Hno t Ht). congruence.
Qed.

Lemma find_commit_trip_same (db : DB) (trip_id : Z) (t t' : Trip.t) :
  find_trip db trip_id = Some t -> Trip.id t' = Trip.id t ->
  find_trip (commit_trip t' db) trip_id = Some t'.
Proof.
  unfold find_trip, commit_trip. cbn [trips]. intros H Hid.
  induction (trips db) as [|r rs IH]; [discriminate|].
  cbn [find map] in *. destruct (Trip.id r =? trip_id) eqn:E.
  - injection H as ->. rewrite Hid, Z.eqb_refl. cbn [find].
    now rewrite Hid, E.
  - destruct (Trip.id r =? Trip.id t') eqn:E'.
    + apply find_some in H. destruct H as [_ H]. apply Z.eqb_eq in H, E'.
      apply Z.eqb_neq in E. congruence.
    + cbn [find]. rewrite E. auto.
Qed.

Lemma find_commit_trip_other (db : DB) (trip_id : Z) (t' : Trip.t) :
  Trip.id t' <> trip_id ->
  find_trip (commit_trip t' db) trip_id = find_trip db trip_id.
Proof.
  unfold find_trip, commit_trip. cbn [trips]. intros Hne.
  induction (trips db) as [|r rs IH]; [reflexivity|].
  cbn [find map]. destruct (Trip.id r =? Trip.id t') eqn:E'.
  - apply Z.eqb_eq in E'.
    assert ((Trip.id r =? trip_id) = false) as ->
      by (apply Z.eqb_neq; congruence).
    assert ((Trip.id t' =? trip_id) = false) as -> by now apply Z.eqb_neq.
    exact IH.
  - destruct (Trip.id r =? trip_id); [reflexivity | exact IH].
Qed.

(** ** Update-settings *)

(** C8: update-settings writes only the fields present in the request.
    The stored row keeps its [budget_total] when none is supplied and its
    currency when none is supplied, takes the supplied currency upper-cased,
    and keeps every other column; no other trip and no expense changes; the
    response is the summary computed from the stored row and the trip's
    expenses.  A request with only [budget_currency] leaves [budget_total]
    as it was and stores the currency upper-cased. *)
Theorem update_budget_settings_partial (upper : string -> string)
    (trip_id : Z) (data : BudgetUpdate) (db : DB) (trip : Trip.t) :
  find_trip db trip_id = Some trip ->
  let (answer, db') := update_budget_settings upper trip_id data db in
  find_trip db' trip_id = Some (with_settings upper data trip)
  /\ (forall other, other <> trip_id -> find_trip db' other = find_trip db other)
  /\ expenses db' = expenses db
  /\ answer = respond (compute_summary (with_settings upper data trip)
                                       (trip_expenses db' trip_id))
  /\ (bu_budget_total data = None ->
      Trip.budget_total (with_settings upper data trip)
      = Trip.budget_total trip)
  /\ (bu_budget_currency data = None ->
      Trip.budget_currency (with_settings upper data trip)
      = Trip.budget_currency trip)
  /\ (forall c, bu_budget_currency data = Some c ->
      Trip.budget_currency (with_settings upper data trip) = Some (upper c)).
Proof.
  intros Hfind. unfold update_budget_settings. rewrite Hfind.
  assert (Hrow : (match bu_budget_currency data with
                  | Some c =>
                      Trip.set_budget_currency (Some (upper c))
                        (match bu_budget_total data with
                         | Some v => Trip.set_budget_total (Some v) trip
                         | None => trip
                         end)
                  | None =>
                      match bu_budget_total data with
                      | Some v => Trip.set_budget_total (Some v) trip
                      | None => trip
                      end
                  end) = with_settings upper data trip).
  { unfold with_settings.
    destruct (bu_budget_currency data), (bu_budget_total data), trip;
      reflexivity. }
  rewrite Hrow.
  destruct (find_trip_some _ _ _ Hfind) as [_ Hid].
  split; [now apply find_commit_trip_same with (t := trip)|].
  split.
  { intros other Hne. apply find_commit_trip_other.
    cbn [with_settings Trip.id]. congruence. }
  split; [reflexivity|]. split; [reflexivity|].
  unfold with_settings. cbn [Trip.budget_total Trip.budget_currency].
  split; [now intros ->|]. split; [now intros ->|]. now intros c ->.
Qed.

Lemma update_budget_settings_partial_witness :
  let (answer, db') :=
    update_budget_settings ascii_upper 1 currency_only store in
  (exists t, find_trip db' 1 = Some t
             /\ Trip.budget_total t = Some (real_of_Z 1000)
             /\ Trip.budget_currency t = Some "EUR")
  /\ find_trip db' 2 = Some unbudgeted
  /\ expenses db' = [lunch].
Proof.
  pose proof (update_budget_settings_partial ascii_upper 1 currency_only
                store rome eq_refl) as H.
  destruct (update_budget_settings ascii_upper 1 currency_only store)
    as [answer db'].
  destruct H as (Hrow & Hothers & Hexp & _).
  split; [|split].
  - exists (with_settings ascii_upper currency_only rome).
    split; [exact Hrow|]. split; reflexivity.
  - rewrite Hothers; [reflexivity | discriminate].
  - exact Hexp.
Defined.

(** ** Not found *)

(** C9: each of the four mutators answers 404 and leaves the store as it
    was when the trip or the expense it refers to does not exist; in
    update-expense and delete-expense the expense is looked up under the
    trip named in the request, so an expense stored under another trip is
    not found either.  The store is one whose primary keys are unique and
    whose expenses belong to stored trips. *)
Theorem mutators_not_found (db : DB) :
  db_consistent db ->
  (forall upper trip_id data,
      no_such_trip db trip_id ->
      update_budget_settings upper trip_id data db
      = (HTTPException 404 "Trip not found", db))
  /\ (forall trip_id data now,
        no_such_trip db trip_id ->
        add_expense trip_id data now db
        = (HTTPException 404 "Trip not found", db))
  /\ (forall trip_id expense_id data,
        no_such_trip db trip_id \/ no_such_expense db expense_id
        \/ belongs_elsewhere db expense_id trip_id ->
        update_expense trip_id expense_id data db
        = (HTTPException 404 "Expense not found", db))
  /\ (forall trip_id expense_id,
        no_such_trip db trip_id \/ no_such_expense db expense_id
        \/ belongs_elsewhere db expense_id trip_id ->
        delete_expense trip_id expense_id db
        = (HTTPException 404 "Expense not found", db)).
Proof.
  intros Hdb.
  assert (Hlookup : forall trip_id expense_id,
             no_such_trip db trip_id \/ no_such_expense db expense_id
             \/ belongs_elsewhere db expense_id trip_id ->
             find_expense db expense_id trip_id = None).
  { intros trip_id expense_id [H | [H | H]].
    - now apply find_expense_no_trip.
    - apply find_expense_none. intros e Hin [Hid _]. exact (H e Hin Hid).
    - apply find_expense_elsewhere; [|exact H]. now destruct Hdb as (_ & ? & _). }
  split; [|split; [|split]].
  - intros upper trip_id data H. apply find_trip_none in H.
    unfold update_budget_settings. now rewrite H.
  - intros trip_id data now H. apply find_trip_none in H.
    unfold add_expense. now rewrite H.
  - intros trip_id expense_id data H. unfold update_expense.
    now rewrite (Hlookup _ _ H).
  - intros trip_id expense_id H. unfold delete_expense.
    now rewrite (Hlookup _ _ H).
Qed.

Lemma store_consistent : db_consistent store.
Proof.
  split; [|split].
  - cbn. repeat constructor; cbn; intuition discriminate.
  - cbn. repeat constructor; cbn; intuition discriminate.
  - intros e [<- | []]. exists rome. split; [now left | reflexivity].
Qed.

Lemma mutators_not_found_witness :
  update_budget_settings ascii_upper 7 currency_only store
  = (HTTPException 404 "Trip not found", store)
  /\ add_expense 7 flights_request 0 store
     = (HTTPException 404 "Trip not found", store)
  /\ update_expense 2 1 refile_as_flights store
     = (HTTPException 404 "Expense not found", store)
  /\ delete_expense 2 1 store
     = (HTTPException 404 "Expense not found", store)
  /\ delete_expense 1 5 store
     = (HTTPException 404 "Expense not found", store).
Proof.
  destruct (mutators_not_found store store_consistent)
    as (Hsettings & Hadd & Hupdate & Hdelete).
  assert (Hno7 : no_such_trip store 7).
  { intros t [<- | [<- | []]]; discriminate. }
  assert (Helsewhere : belongs_elsewhere store 1 2).
  { exists lunch. split; [now left|]. split; [reflexivity | discriminate]. }
  assert (Hno5 : no_such_expense store 5).
  { intros e [<- | []]; discriminate. }
  split; [now apply Hsettings|]. split; [now apply Hadd|].
  split; [apply Hupdate; auto|]. split; apply Hdelete; auto.
Defined.

(** ** The category invariant *)

(** Add-expense rejects a category outside the fixed set and creates no
    row. *)
Lemma add_expense_rejects_unknown_category (trip_id : Z)
    (data : ExpenseCreate) (now : Z) (db : DB) (trip : Trip.t) :
  find_trip db trip_id = Some trip ->
  in_categories (ec_category data) = false ->
  exists detail,
    add_expense trip_id data now db = (HTTPException 400 detail, db).
Proof.
  intros Hfind Hout. unfold add_expense. rewrite Hfind, Hout.
  cbn [negb]. eauto.
Qed.

Lemma add_expense_flights_rejected :
  exists detail,
    add_expense 1 flights_request 0 store = (HTTPException 400 detail, store).
Proof.
  now apply (add_expense_rejects_unknown_category 1 flights_request 0 store
               rome).
Qed.

(** A successful add-expense files the new row under one of the six
    categories. *)
Lemma add_expense_category (trip_id : Z) (data : ExpenseCreate) (now : Z)
    (db db' : DB) (r : ExpenseResponse) :
  add_expense trip_id data now db = (Success r, db') ->
  exists e, expenses db' = (expenses db ++ [e])%list
            /\ in_categories (Expense.category e) = true.
Proof.
  unfold add_expense. destruct (find_trip db trip_id) as [trip|];
    [|discriminate].
  destruct (in_categories (ec_category data)) eqn:Hin; cbn [negb];
    [|discriminate].
  intros [= _ <-]. cbn [expenses]. eexists. split; [reflexivity|].
  exact Hin.
Qed.

(** C3 fails on update-expense: the request that refiles expense 1 of
    trip 1 under "flights", a category outside the fixed set, is answered
    with success and the row is stored with that category. *)
Theorem update_expense_stores_unknown_category :
  in_categories "flights" = false
  /\ exists r,
       update_expense 1 1 refile_as_flights store
       = (Success r, mkDB [rome; unbudgeted] [refiled_lunch])
       /\ Expense.category (ed_expense (xr_expense r)) = "flights".
Proof.
  split; [reflexivity|].
  destruct (compute_summary_total rome [refiled_lunch] eq_refl) as [s Hs].
  exists (mkExpenseResponse (expense_to_dict refiled_lunch) s).
  split; [|reflexivity].
  unfold update_expense.
  change (find_expense store 1 1) with (Some lunch). cbv iota beta.
  change (apply_expense_update refile_as_flights lunch) with refiled_lunch.
  change (commit_expense refiled_lunch store)
    with (mkDB [rome; unbudgeted] [refiled_lunch]).
  change (find_trip (mkDB [rome; unbudgeted] [refiled_lunch]) 1)
    with (Some rome).
  change (trip_expenses (mkDB [rome; unbudgeted] [refiled_lunch]) 1)
    with [refiled_lunch].
  cbn [compute_summary_opt]. rewrite Hs. reflexivity.
Qed.

(** ** The estimator: duration *)

(** C6, as stated, fails: a supplied duration that is negative is not
    positive, so the specification falls through to the dates and the
    default, while the code uses the negative number as it is. *)
Lemma duration_priority_counterexample :
  resolve_duration date_fromisoformat negative_request rome = -3
  /\ specified_duration date_fromisoformat negative_request rome = 7.
Proof. split; reflexivity. Qed.

(** C6 (amended): the estimator uses the caller-supplied [duration_days]
    if it is present and not zero; otherwise, if the trip has a non-empty
    [start_date] and a non-empty [end_date] and both parse, the days from
    start to end, at least 1; otherwise, also when either date fails to
    parse, 7, with no error.  A trip without dates and a request without
    duration give 7. *)
Theorem duration_priority (fromisoformat : string -> option Z)
    (req : EstimateRequest) (trip : Trip.t) :
  (forall d, er_duration_days req = Some d -> d <> 0 ->
             resolve_duration fromisoformat req trip = d)
  /\ (er_duration_days req = None \/ er_duration_days req = Some 0 ->
      (forall start_date end_date s e,
          Trip.start_date trip = Some start_date -> start_date <> "" ->
          Trip.end_date trip = Some end_date -> end_date <> "" ->
          fromisoformat start_date = Some s ->
          fromisoformat end_date = Some e ->
          resolve_duration fromisoformat req trip = Z.max 1 (e - s))
      /\ ((Trip.start_date trip = None \/ Trip.end_date trip = None
           \/ (exists start_date, Trip.start_date trip = Some start_date
                                  /\ fromisoformat start_date = None)
           \/ (exists end_date, Trip.end_date trip = Some end_date
                                /\ fromisoformat end_date = None)) ->
          resolve_duration fromisoformat req trip = 7)).
Proof.
  unfold resolve_duration. split.
  - intros d -> Hd. cbn [int_truthy].
    assert (E : (d =? 0) = false) by now apply Z.eqb_neq.
    rewrite E. cbn [negb andb]. now rewrite E.
  - intros Hnone.
    assert (Hfalsy : int_truthy (er_duration_days req) = false
                     /\ match er_duration_days req with
                        | Some d => if d =? 0 then 7 else d
                        | None => 7
                        end = 7).
    { destruct Hnone as [-> | ->]; split; reflexivity. }
    destruct Hfalsy as [-> Hdefault]. cbn [negb andb]. split.
    + intros start_date end_date s e -> Hs -> He Hps Hpe.
      cbn [opt_truthy]. apply String.eqb_neq in Hs, He. rewrite Hs, He.
      cbn [negb andb]. rewrite Hps, Hpe.
      assert (E : (Z.max 1 (e - s) =? 0) = false) by (apply Z.eqb_neq; lia).
      now rewrite E.
    + intros Hmissing.
      destruct (opt_truthy (Trip.start_date trip)
                && opt_truthy (Trip.end_date trip)); [|exact Hdefault].
      destruct Hmissing as [-> | [-> | [(sd & -> & Hp) | (ed & -> & Hp)]]].
      * exact Hdefault.
      * destruct (Trip.start_date trip); exact Hdefault.
      * destruct (Trip.end_date trip); [rewrite Hp|]; exact Hdefault.
      * destruct (Trip.start_date trip) as [sd|]; [|exact Hdefault].
        destruct (fromisoformat sd); [rewrite Hp|]; exact Hdefault.
Qed.

Lemma duration_priority_witness :
  resolve_duration date_fromisoformat negative_request dated = -3
  /\ resolve_duration date_fromisoformat default_request dated = 4
  /\ resolve_duration date_fromisoformat default_request misdated = 7
  /\ resolve_duration date_fromisoformat default_request rome = 7.
Proof.
  destruct (duration_priority date_fromisoformat negative_request dated)
    as [Hsupplied _].
  destruct (duration_priority date_fromisoformat default_request dated)
    as [_ Hdated].
  destruct (duration_priority date_fromisoformat default_request misdated)
    as [_ Hmisdated].
  destruct (duration_priority date_fromisoformat default_request rome)
    as [_ Hnone].
  split; [apply Hsupplied; [reflexivity | discriminate]|].
  split.
  { destruct (Hdated (or_introl eq_refl)) as [H _].
    apply (H "2024-03-29" "2024-04-02" 738974 738978);
      reflexivity || discriminate. }
  split.
  { destruct (Hmisdated (or_introl eq_refl)) as [_ H]. apply H.
    right. right. right. exists "next week". split; reflexivity. }
  destruct (Hnone (or_introl eq_refl)) as [_ H]. apply H. now left.
Defined.

(** ** The gateway *)

Section Gateway.

Variable json_loads : string -> option json.

Lemma generate_structured_posts_once (prompt model : string)
    (schema : option json) (net : Net) :
  let net' := snd (generate_structured json_loads prompt model schema net) in
  replies net' = tl (replies net)
  /\ exists payload, sent net' = (sent net ++ [payload])%list.
Proof.
  unfold generate_structured, http_post.
  destruct (replies net) as [|o rest]; cbn [snd replies sent tl]; eauto.
Qed.

Lemma generate_structured_transport_error (prompt model : string)
    (schema : option json) (net : Net) (msg : string)
    (rest : list http_outcome) :
  replies net = PostRaises msg :: rest ->
  fst (generate_structured json_loads prompt model schema net)
  = Raise (RequestError msg).
Proof.
  intros H. unfold generate_structured, http_post. rewrite H. reflexivity.
Qed.

Lemma generate_structured_status_error (prompt model : string)
    (schema : option json) (net : Net) (r : HttpResponse) (msg : string)
    (rest : list http_outcome) :
  replies net = Responded r :: rest -> raise_for_status r = Some msg ->
  fst (generate_structured json_loads prompt model schema net)
  = Raise (RequestError msg).
Proof.
  intros H Hs. unfold generate_structured, http_post. rewrite H.
  cbn [fst]. now rewrite Hs.
Qed.

(** A message that does not decode comes back as it is, a raw string. *)
Lemma generate_structured_raw_string (prompt model : string)
    (schema : option json) (net : Net) (r : HttpResponse)
    (rest : list http_outcome) (members fields : list (string * json))
    (text : string) :
  replies net = Responded r :: rest -> raise_for_status r = None ->
  response_json r = Ok (JObj members) ->
  dict_get members "message" = Some (JObj fields) ->
  dict_get fields "content" = Some (JStr text) ->
  (exists ms,
      (q <- div_million (match dict_get members "total_duration" with
                         | Some v => v
                         | None => JInt 0
                         end) ;;
       py_round_int q) = Ok ms) ->
  json_loads text = None ->
  exists result,
    fst (generate_structured json_loads prompt model schema net) = Ok result
    /\ py_get result "result" (JObj []) = Ok (JStr text).
Proof.
  intros H Hs Hj Hm Hc [ms Hms] Hl. unfold generate_structured, http_post.
  rewrite H. cbn [fst]. rewrite Hs, Hj. cbn [bind py_get].
  rewrite Hm. cbn [bind py_get]. rewrite Hc. cbn [bind].
  apply bind_ok in Hms. destruct Hms as (q & -> & Hms). cbn [bind].
  rewrite Hms. cbn [bind]. rewrite Hl.
  eexists. split; reflexivity.
Qed.

End Gateway.

(** ** The estimator: what is persisted *)

Lemma apply_estimates_inv (trip : Trip.t) (estimates : json) (trip' : Trip.t) :
  apply_estimates trip estimates = Ok (Some trip') ->
  Trip.budget_estimates trip' = Some estimates
  /\ ((opt_truthy (Trip.budget_currency trip) = true
       /\ Trip.budget_currency trip' = Trip.budget_currency trip)
      \/ (opt_truthy (Trip.budget_currency trip) = false
          /\ exists c, py_get estimates "currency" (JStr "USD") = Ok c
                       /\ string_column c
                          = Some (Trip.budget_currency trip')))
  /\ ((exists b, budget_if_set (Trip.budget_total trip) = Some b
                 /\ Trip.budget_total trip' = Trip.budget_total trip)
      \/ (budget_if_set (Trip.budget_total trip) = None
          /\ exists t, py_get estimates "total" JNull = Ok t
                /\ ((truthy t = false
                     /\ Trip.budget_total trip' = Trip.budget_total trip)
                    \/ (truthy t = true
                        /\ exists x, as_number t = Some x
                                     /\ Trip.budget_total trip' = Some x))))
  /\ Trip.id trip' = Trip.id trip
  /\ Trip.title trip' = Trip.title trip
  /\ Trip.destination trip' = Trip.destination trip
  /\ Trip.start_date trip' = Trip.start_date trip
  /\ Trip.end_date trip' = Trip.end_date trip.
Proof.
  unfold apply_estimates. intros H.
  inv_bind H. rename v into currency. inv_bind H. rename v into total.
  destruct currency as [cur'|]; [|discriminate].
  destruct total as [tot'|]; [|discriminate].
  injection H as <-.
  cbn [Trip.set_budget_total Trip.set_budget_currency
       Trip.set_budget_estimates Trip.budget_estimates Trip.budget_currency
       Trip.budget_total Trip.id Trip.title Trip.destination Trip.start_date
       Trip.end_date] in *.
  split; [reflexivity|]. split; [|split].
  - destruct (opt_truthy (Trip.budget_currency trip)) eqn:Ec;
      cbn [negb] in Hv.
    + injection Hv as <-. now left.
    + right. split; [reflexivity|]. inv_bind Hv. exists v.
      injection Hv as <-. auto.
  - destruct (budget_if_set (Trip.budget_total trip)) as [b|] eqn:Eb.
    + injection Hv0 as <-. left. eauto.
    + right. split; [reflexivity|]. inv_bind Hv0. rename v into t.
      exists t. split; [exact Hv1|].
      destruct (truthy t) eqn:Et.
      * right. split; [reflexivity|]. inv_bind Hv0. injection Hv0 as Hf.
        assert (v = t).
        { destruct estimates; cbn [py_get py_getitem] in Hv1, Hv2;
            try discriminate.
          destruct (dict_get members "total") as [x|].
          - congruence.
          - discriminate. }
        subst v. unfold float_column in Hf.
        destruct (as_number t) as [x|]; [|discriminate].
        injection Hf as <-. eauto.
      * left. injection Hv0 as <-. auto.
  - repeat split; reflexivity.
Qed.

(** ** The estimator: failures *)

(** C5, as stated, fails: a reply that is a JSON object but lacks every
    key the schema requires is not rejected; the request succeeds and the
    object is stored as the trip's estimates. *)
Lemma estimate_schema_counterexample :
  exists r db' net',
    estimate_costs loads_examples date_fromisoformat 1 default_request store
                   (mkNet [ok_reply "{}"] [])
    = (Success r, db', net')
    /\ est_estimates r = JObj []
    /\ conforms_to_schema (est_estimates r) = false
    /\ Trip.budget_estimates rome = None
    /\ exists t, find_trip db' 1 = Some t
                 /\ Trip.budget_estimates t = Some (JObj []).
Proof.
  eexists. eexists. eexists.
  split; [vm_compute; reflexivity|].
  split; [reflexivity|]. split; [reflexivity|]. split; [reflexivity|].
  eexists. split; reflexivity.
Qed.

(** C5 (amended): in a cost-estimation call for a stored trip exactly one
    request is posted to the gateway, whatever its outcome (no retry).  If
    the gateway call fails, by a transport error, a non-success status or
    any other exception, the request fails with 502 and the detail
    "Ollama error: " followed by the underlying message; if the gateway's
    result is a raw string, the request fails with 422 "Could not parse
    estimates from Ollama response"; in both cases the store is left as it
    was.  Conformance of a decoded reply to the schema is not checked. *)
Theorem estimate_failures (json_loads : string -> option json)
    (fromisoformat : string -> option Z) (trip_id : Z)
    (req : EstimateRequest) (db : DB) (net : Net) (trip : Trip.t) :
  find_trip db trip_id = Some trip ->
  let prompt :=
    estimate_prompt (Trip.destination trip)
      (resolve_duration fromisoformat req trip) (er_travelers req)
      (er_travel_style req) in
  let generated :=
    fst (generate_structured json_loads prompt (er_model req)
           (Some ESTIMATE_SCHEMA) net) in
  let '(answer, db', net') :=
    estimate_costs json_loads fromisoformat trip_id req db net in
  (replies net' = tl (replies net)
   /\ exists payload, sent net' = (sent net ++ [payload])%list)
  /\ (forall e, generated = Raise e ->
        answer = HTTPException 502 ("Ollama error: " ++ str_exn e)
        /\ db' = db)
  /\ (forall msg rest, replies net = PostRaises msg :: rest ->
        answer = HTTPException 502 ("Ollama error: " ++ msg) /\ db' = db)
  /\ (forall r msg rest,
        replies net = Responded r :: rest -> raise_for_status r = Some msg ->
        answer = HTTPException 502 ("Ollama error: " ++ msg) /\ db' = db)
  /\ (forall result text,
        generated = Ok result ->
        py_get result "result" (JObj []) = Ok (JStr text) ->
        answer = HTTPException 422
                   "Could not parse estimates from Ollama response"
        /\ db' = db).
Proof.
  intros Hfind prompt generated.
  pose proof (generate_structured_posts_once json_loads prompt (er_model req)
                (Some ESTIMATE_SCHEMA) net) as Hnet.
  pose proof (generate_structured_transport_error json_loads prompt
                (er_model req) (Some ESTIMATE_SCHEMA) net) as Htransport.
  pose proof (generate_structured_status_error json_loads prompt
                (er_model req) (Some ESTIMATE_SCHEMA) net) as Hstatus.
  fold generated in Htransport, Hstatus.
  assert (Hraise : forall e, generated = Raise e ->
            estimate_costs json_loads fromisoformat trip_id req db net
            = (HTTPException 502 ("Ollama error: " ++ str_exn e), db,
               snd (generate_structured json_loads prompt (er_model req)
                      (Some ESTIMATE_SCHEMA) net))).
  { intros e He. unfold estimate_costs. rewrite Hfind. fold prompt.
    subst generated.
    destruct (generate_structured json_loads prompt (er_model req)
                (Some ESTIMATE_SCHEMA) net) as [g n].
    cbn [fst snd] in *. now rewrite He. }
  assert (Hsnd : snd (estimate_costs json_loads fromisoformat trip_id req
                        db net)
                 = snd (generate_structured json_loads prompt (er_model req)
                          (Some ESTIMATE_SCHEMA) net)).
  { unfold estimate_costs. rewrite Hfind. fold prompt.
    destruct (generate_structured json_loads prompt (er_model req)
                (Some ESTIMATE_SCHEMA) net) as [g n].
    cbn [snd]. destruct g as [result|e]; [|reflexivity].
    destruct (py_get result "result" (JObj [])) as [estimates|e];
      [|reflexivity].
    destruct estimates; try reflexivity;
      match goal with
      | |- context [apply_estimates ?t ?j] =>
          destruct (apply_estimates t j) as [[t'|]|]; reflexivity
      end. }
  assert (Hstr : forall result text,
            generated = Ok result ->
            py_get result "result" (JObj []) = Ok (JStr text) ->
            estimate_costs json_loads fromisoformat trip_id req db net
            = (HTTPException 422
                 "Could not parse estimates from Ollama response", db,
               snd (generate_structured json_loads prompt (er_model req)
                      (Some ESTIMATE_SCHEMA) net))).
  { intros result text He Hr. unfold estimate_costs. rewrite Hfind.
    fold prompt. subst generated.
    destruct (generate_structured json_loads prompt (er_model req)
                (Some ESTIMATE_SCHEMA) net) as [g n].
    cbn [fst snd] in *. rewrite He, Hr. reflexivity. }
  destruct (estimate_costs json_loads fromisoformat trip_id req db net)
    as [[answer db'] net'] eqn:E.
  cbn [snd] in Hsnd. subst net'.
  split; [exact Hnet|]. split; [|split; [|split]].
  - intros e He. specialize (Hraise e He). injection Hraise as -> ->. auto.
  - intros msg rest Hr. specialize (Hraise _ (Htransport _ _ Hr)).
    injection Hraise as -> ->. auto.
  - intros r msg rest Hr Hs. specialize (Hraise _ (Hstatus _ _ _ Hr Hs)).
    injection Hraise as -> ->. auto.
  - intros result text He Hr. specialize (Hstr _ _ He Hr).
    injection Hstr as -> ->. auto.
Qed.

Lemma estimate_failures_witness :
  estimate_costs loads_examples date_fromisoformat 1 default_request store
                 (mkNet [PostRaises "timed out"; ok_reply "{}"] [])
  = (HTTPException 502 "Ollama error: timed out", store,
     mkNet [ok_reply "{}"]
           (sent (snd (estimate_costs loads_examples date_fromisoformat 1
                         default_request store
                         (mkNet [PostRaises "timed out"; ok_reply "{}"] [])))))
  /\ fst (estimate_costs loads_examples date_fromisoformat 1 default_request
            store (mkNet [error_reply] []))
     = (HTTPException 502
          "Ollama error: Server error '500 Internal Server Error'", store)
  /\ fst (estimate_costs loads_examples date_fromisoformat 1 default_request
            store (mkNet [ok_reply "not json"] []))
     = (HTTPException 422 "Could not parse estimates from Ollama response",
        store).
Proof.
  split; [|split].
  - pose proof (estimate_failures loads_examples date_fromisoformat 1
                  default_request store
                  (mkNet [PostRaises "timed out"; ok_reply "{}"] [])
                  rome eq_refl) as H.
    cbv zeta in H.
    destruct (estimate_costs loads_examples date_fromisoformat 1
                default_request store
                (mkNet [PostRaises "timed out"; ok_reply "{}"] []))
      as [[answer db'] net'].
    destruct H as ((Hreplies & _) & _ & Htransport & _).
    destruct (Htransport "timed out" [ok_reply "{}"] eq_refl) as [-> ->].
    destruct net' as [rs st]. cbn [replies tl] in Hreplies. subst rs.
    reflexivity.
  - pose proof (estimate_failures loads_examples date_fromisoformat 1
                  default_request store (mkNet [error_reply] []) rome
                  eq_refl) as H.
    cbv zeta in H.
    destruct (estimate_costs loads_examples date_fromisoformat 1
                default_request store (mkNet [error_reply] []))
      as [[answer db'] net'].
    destruct H as (_ & _ & _ & Hstatus & _).
    destruct (Hstatus _ _ [] eq_refl eq_refl) as [-> ->]. reflexivity.
  - pose proof (estimate_failures loads_examples date_fromisoformat 1
                  default_request store (mkNet [ok_reply "not json"] []) rome
                  eq_refl) as H.
    cbv zeta in H.
    destruct (estimate_costs loads_examples date_fromisoformat 1
                default_request store (mkNet [ok_reply "not json"] []))
      as [[answer db'] net'].
    destruct H as (_ & _ & _ & _ & Hstring).
    destruct (Hstring
                (JObj [("result", JStr "not json");
                       ("usage", JObj [("prompt_tokens", JInt 210);
                                       ("completion_tokens", JInt 96);
                                       ("total_duration_ms", JInt 1500)])])
                "not json" eq_refl eq_refl) as [-> ->].
    reflexivity.
Defined.

(** ** The estimator: persistence on success *)

(** C7: on a successful estimation call the trip's [budget_estimates]
    becomes the full result object of the gateway; the currency changes
    only if the trip had none, and then to the estimate's [currency]
    ("USD" when it has none); [budget_total] changes only if the trip had
    no budget (null or 0), and then to the estimate's [total]; so a budget
    that was set is left as it was.  No other column, no other trip and no
    expense changes. *)
Theorem estimate_persists (json_loads : string -> option json)
    (fromisoformat : string -> option Z) (trip_id : Z)
    (req : EstimateRequest) (db : DB) (net : Net)
    (r : EstimateResponse) (db' : DB) (net' : Net) :
  estimate_costs json_loads fromisoformat trip_id req db net
  = (Success r, db', net') ->
  exists trip trip',
    find_trip db trip_id = Some trip
    /\ find_trip db' trip_id = Some trip'
    /\ (exists result,
          fst (generate_structured json_loads
                 (estimate_prompt (Trip.destination trip)
                    (resolve_duration fromisoformat req trip)
                    (er_travelers req) (er_travel_style req))
                 (er_model req) (Some ESTIMATE_SCHEMA) net) = Ok result
          /\ py_get result "result" (JObj []) = Ok (est_estimates r))
    /\ Trip.budget_estimates trip' = Some (est_estimates r)
    /\ (opt_truthy (Trip.budget_currency trip) = true ->
        Trip.budget_currency trip' = Trip.budget_currency trip)
    /\ (opt_truthy (Trip.budget_currency trip) = false ->
        exists c, py_get (est_estimates r) "currency" (JStr "USD") = Ok c
                  /\ string_column c = Some (Trip.budget_currency trip'))
    /\ (forall b, budget_set trip b -> Trip.budget_total trip' = Some b)
    /\ (Trip.budget_total trip' <> Trip.budget_total trip ->
        budget_unset trip
        /\ exists t x, py_get (est_estimates r) "total" JNull = Ok t
                       /\ truthy t = true /\ as_number t = Some x
                       /\ Trip.budget_total trip' = Some x)
    /\ (forall t, budget_unset trip ->
                  py_get (est_estimates r) "total" JNull = Ok t ->
                  truthy t = false ->
                  Trip.budget_total trip' = Trip.budget_total trip)
    /\ (forall other, other <> trip_id ->
                      find_trip db' other = find_trip db other)
    /\ expenses db' = expenses db.
Proof.
  unfold estimate_costs.
  destruct (find_trip db trip_id) as [trip|] eqn:Hfind; [|discriminate].
  destruct (generate_structured json_loads _ (er_model req)
              (Some ESTIMATE_SCHEMA) net) as [g n] eqn:G.
  destruct g as [result|e]; [|discriminate].
  destruct (py_get result "result" (JObj [])) as [estimates|e] eqn:Hres;
    [|discriminate].
  assert (Hmain :
    match apply_estimates trip estimates with
    | Ok (Some trip0) =>
        (respond
           (summary <-
            compute_summary trip0
              (trip_expenses (commit_trip trip0 db) trip_id) ;;
            Ok (mkEstimateResponse estimates summary)),
         commit_trip trip0 db, n)
    | Ok None => (Unmodelled, db, n)
    | Raise e => (ServerError e, db, n)
    end = (Success r, db', net') ->
    exists trip', apply_estimates trip estimates = Ok (Some trip')
                  /\ db' = commit_trip trip' db
                  /\ est_estimates r = estimates).
  { destruct (apply_estimates trip estimates) as [[trip'|]|e];
      try discriminate.
    intros H. exists trip'. split; [reflexivity|].
    injection H as Hr <- _. split; [reflexivity|].
    unfold respond in Hr.
    destruct (compute_summary trip' _) as [s|e]; cbn [bind] in Hr;
      [|discriminate].
    now injection Hr as <-. }
  intros H.
  assert (Hex : exists trip', apply_estimates trip estimates = Ok (Some trip')
                              /\ db' = commit_trip trip' db
                              /\ est_estimates r = estimates).
  { destruct estimates; try (apply Hmain; exact H). discriminate H. }
  clear H Hmain. destruct Hex as (trip' & Happly & -> & Hest).
  subst estimates.
  destruct (apply_estimates_inv _ _ _ Happly)
    as (Hblob & Hcur & Htot & Hid & _).
  destruct (find_trip_some _ _ _ Hfind) as [_ Htid].
  exists trip, trip'. split; [reflexivity|].
  split; [now apply find_commit_trip_same with (t := trip)|].
  split; [exists result; rewrite G; auto|].
  split; [exact Hblob|].
  split.
  { intros Ht. destruct Hcur as [[_ Hc] | [Hc _]]; [exact Hc | congruence]. }
  split.
  { intros Hf. destruct Hcur as [[Hc _] | [_ Hc]]; [congruence | exact Hc]. }
  split.
  { intros b Hb. pose proof (budget_if_set_of_set _ _ Hb) as Hset.
    destruct Htot as [(b' & _ & Hsame) | [Hnone _]]; [|congruence].
    destruct Hb as [Hb _]. congruence. }
  split.
  { intros Hne. destruct Htot as [(b' & _ & Hsame) | [Hnone Ht]];
      [contradiction|].
    split.
    - exact (budget_if_set_none _ Hnone).
    - destruct Ht as (t & Hget & [[_ Hsame] | [Htruthy (x & Hx & Hnew)]]);
        [contradiction|].
      exists t, x. auto. }
  split.
  { intros t Hunset Hget Hfalsy.
    rewrite (budget_if_set_of_unset _ Hunset) in Htot.
    destruct Htot as [(b' & Hb' & _) | [_ (t' & Hget' & Ht')]];
      [discriminate|].
    assert (t' = t) by congruence. subst t'.
    destruct Ht' as [[_ Hsame] | [Htruthy _]]; [exact Hsame | congruence]. }
  split; [|reflexivity].
  intros other Hne. apply find_commit_trip_other. congruence.
Qed.

Lemma estimate_persists_witness :
  exists r db' net' trip',
    estimate_costs loads_examples date_fromisoformat 2 default_request
                   store (mkNet [ok_reply sample_estimate_text] [])
    = (Success r, db', net')
    /\ find_trip db' 2 = Some trip'
    /\ Trip.budget_estimates trip' = Some (est_estimates r)
    /\ find_trip db' 1 = Some rome
    /\ expenses db' = [lunch].
Proof.
  destruct (estimate_costs loads_examples date_fromisoformat 2
              default_request store
              (mkNet [ok_reply sample_estimate_text] []))
    as [[answer db'] net'] eqn:E.
  assert (Hok : exists r, answer = Success r).
  { apply (f_equal (fun x => fst (fst x))) in E. cbn [fst] in E.
    rewrite <- E. vm_compute. eauto. }
  destruct Hok as [r ->].
  destruct (estimate_persists _ _ _ _ _ _ _ _ _ E)
    as (trip & trip' & _ & Hfind' & _ & Hblob & _ & _ & _ & _ & _ & Hothers
        & Hexpenses).
  exists r, db', net', trip'. split; [reflexivity|].
  split; [exact Hfind'|]. split; [exact Hblob|].
  split; [rewrite Hothers; [reflexivity | discriminate] | exact Hexpenses].
Defined.

(** The two cases side by side: a trip without currency and budget takes
    both from the estimate; a trip with a budget of 1000 USD keeps them. *)
Lemma estimate_adopts_when_unset :
  exists r db' net' t,
    estimate_costs loads_examples date_fromisoformat 2 default_request
                   store (mkNet [ok_reply sample_estimate_text] [])
    = (Success r, db', net')
    /\ find_trip db' 2 = Some t
    /\ Trip.budget_estimates t = Some sample_estimate
    /\ Trip.budget_currency t = Some "EUR"
    /\ Trip.budget_total t = Some (real_of_Z 900).
Proof.
  do 4 eexists. split; [vm_compute; reflexivity|].
  split; [vm_compute; reflexivity|].
  split; [reflexivity|]. split; reflexivity.
Qed.

Lemma estimate_keeps_user_budget :
  exists r db' net' t,
    estimate_costs loads_examples date_fromisoformat 1 default_request
                   store (mkNet [ok_reply sample_estimate_text] [])
    = (Success r, db', net')
    /\ find_trip db' 1 = Some t
    /\ Trip.budget_estimates t = Some sample_estimate
    /\ Trip.budget_currency t = Some "USD"
    /\ Trip.budget_total t = Some (real_of_Z 1000).
Proof.
  do 4 eexists. split; [vm_compute; reflexivity|].
  split; [vm_compute; reflexivity|].
  split; [reflexivity|]. split; reflexivity.
Qed.

(** ** The store stays consistent

    Unique primary keys and expenses that belong to stored trips are
    invariants of the store: every handler that writes keeps them. *)

Lemma db_consistent_iff (db : DB) :
  db_consistent db <->
  NoDup (map Trip.id (trips db))
  /\ NoDup (map Expense.id (expenses db))
  /\ forall e, In e (expenses db) ->
               In (Expense.trip_id e) (map Trip.id (trips db)).
Proof.
  unfold db_consistent. split; intros (H1 & H2 & H3); repeat split; auto;
    intros e He.
  - destruct (H3 e He) as (t & Ht & Hid). rewrite <- Hid. now apply in_map.
  - specialize (H3 e He). apply in_map_iff in H3.
    destruct H3 as (t & Hid & Ht). eauto.
Qed.

Lemma commit_trip_ids (t : Trip.t) (db : DB) :
  map Trip.id (trips (commit_trip t db)) = map Trip.id (trips db).
Proof.
  unfold commit_trip. cbn [trips]. rewrite map_map. apply map_ext_in.
  intros r _. destruct (Trip.id r =? Trip.id t) eqn:E; [|reflexivity].
  apply Z.eqb_eq in E. congruence.
Qed.

Lemma commit_trip_consistent (t : Trip.t) (db : DB) :
  db_consistent db -> db_consistent (commit_trip t db).
Proof.
  rewrite !db_consistent_iff, commit_trip_ids. auto.
Qed.

Lemma next_expense_id_fresh (db : DB) :
  ~ In (next_expense_id db) (map Expense.id (expenses db)).
Proof.
  unfold next_expense_id.
  assert (H : forall l x, In x l -> x <= fold_right Z.max 0 l).
  { induction l as [|y l IH]; cbn [In fold_right]; intros x Hx;
      [destruct Hx|].
    destruct Hx as [-> | Hx]; [lia | specialize (IH x Hx); lia]. }
  intros Hin. apply H in Hin. lia.
Qed.

Lemma NoDup_snoc {A : Type} (l : list A) (x : A) :
  NoDup l -> ~ In x l -> NoDup (l ++ [x]).
Proof.
  intros Hl Hx. apply NoDup_app.
  - exact Hl.
  - constructor; [intros [] | constructor].
  - intros a Ha [<- | []]. contradiction.
Qed.

Lemma add_expense_consistent (trip_id : Z) (data : ExpenseCreate) (now : Z)
    (db : DB) :
  db_consistent db -> db_consistent (snd (add_expense trip_id data now db)).
Proof.
  intros Hdb. unfold add_expense.
  destruct (find_trip db trip_id) as [trip|] eqn:Hfind; [|exact Hdb].
  destruct (negb (in_categories (ec_category data))); [exact Hdb|].
  cbn [snd]. destruct Hdb as (H1 & H2 & H3).
  split; [exact H1|]. cbn [trips expenses]. split.
  - rewrite map_app. cbn [map Expense.id]. apply NoDup_snoc; [exact H2|].
    apply next_expense_id_fresh.
  - intros e He. apply in_app_or in He. destruct He as [He | [<- | []]].
    + now apply H3.
    + apply find_trip_some in Hfind. destruct Hfind as [Hin Hid].
      exists trip. split; [exact Hin | exact Hid].
Qed.

Lemma update_expense_consistent (trip_id expense_id : Z) (data : ExpenseUpdate)
    (db : DB) :
  db_consistent db ->
  db_consistent (snd (update_expense trip_id expense_id data db)).
Proof.
  intros Hdb. unfold update_expense.
  destruct (find_expense db expense_id trip_id) as [e|] eqn:Hfind;
    [|exact Hdb].
  cbn [snd]. apply db_consistent_iff in Hdb. apply db_consistent_iff.
  destruct Hdb as (H1 & H2 & H3). unfold commit_expense.
  cbn [trips expenses].
  set (e' := apply_expense_update data e).
  assert (Hrow : forall r,
             Expense.id (if Expense.id r =? Expense.id e' then e' else r)
             = Expense.id r
             /\ (In r (expenses db) ->
                 In (Expense.trip_id
                       (if Expense.id r =? Expense.id e' then e' else r))
                    (map Trip.id (trips db)))).
  { intros r. destruct (Expense.id r =? Expense.id e') eqn:E.
    - apply Z.eqb_eq in E. split; [congruence|]. intros _.
      apply find_expense_some in Hfind. destruct Hfind as (Hin & _ & _).
      exact (H3 e Hin).
    - split; [reflexivity | apply H3]. }
  split; [exact H1|]. split.
  - rewrite map_map.
    rewrite (map_ext _ Expense.id (fun r => proj1 (Hrow r))). exact H2.
  - intros x Hx. apply in_map_iff in Hx. destruct Hx as (r & <- & Hr).
    now apply Hrow.
Qed.

Lemma NoDup_map_filter {A : Type} (f : A -> Z) (p : A -> bool) (l : list A) :
  NoDup (map f l) -> NoDup (map f (filter p l)).
Proof.
  induction l as [|a l IH]; cbn [map filter]; intros H; [constructor|].
  inversion H as [|? ? Hnotin Hnd]. subst.
  destruct (p a); cbn [map]; [|now apply IH].
  constructor; [|now apply IH].
  intros Hin. apply Hnotin. apply in_map_iff in Hin.
  destruct Hin as (x & Hx & Hin). apply filter_In in Hin.
  rewrite <- Hx. apply in_map. tauto.
Qed.

Lemma delete_expense_consistent (trip_id expense_id : Z) (db : DB) :
  db_consistent db ->
  db_consistent (snd (delete_expense trip_id expense_id db)).
Proof.
  intros Hdb. unfold delete_expense.
  destruct (find_expense db expense_id trip_id) as [e|]; [|exact Hdb].
  cbn [snd]. destruct Hdb as (H1 & H2 & H3).
  split; [exact H1|]. cbn [trips expenses]. split.
  - now apply NoDup_map_filter.
  - intros x Hx. apply filter_In in Hx. now apply H3.
Qed.

Lemma update_budget_settings_consistent (upper : string -> string)
    (trip_id : Z) (data : BudgetUpdate)
    (db : DB) :
  db_consistent db ->
  db_consistent (snd (update_budget_settings upper trip_id data db)).
Proof.
  intros Hdb. unfold update_budget_settings.
  destruct (find_trip db trip_id) as [trip|]; [|exact Hdb].
  cbn [snd]. now apply commit_trip_consistent.
Qed.

Lemma delete_trip_consistent (trip_id : Z) (db : DB) :
  db_consistent db -> db_consistent (snd (delete_trip trip_id db)).
Proof.
  intros Hdb. unfold delete_trip.
  destruct (find_trip db trip_id) as [trip|]; [|exact Hdb].
  cbn [snd]. destruct Hdb as (H1 & H2 & H3).
  cbn [trips expenses]. split; [now apply NoDup_map_filter|].
  split; [now apply NoDup_map_filter|].
  intros e He. apply filter_In in He. destruct He as [He Hkeep].
  destruct (H3 e He) as (t & Ht & Hid). exists t. split; [|exact Hid].
  apply filter_In. split; [exact Ht|]. now rewrite Hid.
Qed.

Lemma estimate_costs_consistent (json_loads : string -> option json)
    (fromisoformat : string -> option Z) (trip_id : Z)
    (req : EstimateRequest) (db : DB) (net : Net) :
  db_consistent db ->
  db_consistent
    (snd (fst (estimate_costs json_loads fromisoformat trip_id req db net))).
Proof.
  intros Hdb. unfold estimate_costs.
  destruct (find_trip db trip_id) as [trip|]; [|exact Hdb].
  destruct (generate_structured json_loads _ (er_model req)
              (Some ESTIMATE_SCHEMA) net) as [g n].
  destruct g as [result|e]; [|exact Hdb].
  destruct (py_get result "result" (JObj [])) as [estimates|e]; [|exact Hdb].
  destruct estimates; try exact Hdb;
    match goal with
    | |- context [apply_estimates ?t ?j] =>
        destruct (apply_estimates t j) as [[t'|]|]; try exact Hdb;
        cbn [fst snd]; now apply commit_trip_consistent
    end.
Qed.

(** ** The estimator: what is sent

    The one request of an estimation call carries the prompt built from
    the resolved duration, and the estimate schema as its format. *)
Lemma estimate_costs_posts_prompt (json_loads : string -> option json)
    (fromisoformat : string -> option Z) (trip_id : Z)
    (req : EstimateRequest) (db : DB) (net : Net) (trip : Trip.t) :
  find_trip db trip_id = Some trip ->
  sent (snd (estimate_costs json_loads fromisoformat trip_id req db net))
  = (sent net
     ++ [JObj [("model", JStr (er_model req));
               ("messages",
                JArr [JObj [("role", JStr "system");
                            ("content", JStr SYSTEM_PROMPT)];
                      JObj [("role", JStr "user");
                            ("content",
                             JStr (estimate_prompt (Trip.destination trip)
                                     (resolve_duration fromisoformat req trip)
                                     (er_travelers req)
                                     (er_travel_style req)))]]);
               ("stream", JBool false);
               ("format", ESTIMATE_SCHEMA)]])%list.
Proof.
  intros Hfind.
  set (prompt := estimate_prompt (Trip.destination trip)
                   (resolve_duration fromisoformat req trip)
                   (er_travelers req) (er_travel_style req)).
  assert (Hsnd : snd (estimate_costs json_loads fromisoformat trip_id req
                        db net)
                 = snd (generate_structured json_loads prompt (er_model req)
                          (Some ESTIMATE_SCHEMA) net)).
  { unfold estimate_costs. rewrite Hfind. fold prompt.
    destruct (generate_structured json_loads prompt (er_model req)
                (Some ESTIMATE_SCHEMA) net) as [g n].
    cbn [snd]. destruct g as [result|e]; [|reflexivity].
    destruct (py_get result "result" (JObj [])) as [estimates|e];
      [|reflexivity].
    destruct estimates; try reflexivity;
      match goal with
      | |- context [apply_estimates ?t ?j] =>
          destruct (apply_estimates t j) as [[t'|]|]; reflexivity
      end. }
  rewrite Hsnd. unfold generate_structured, http_post.
  destruct (replies net); reflexivity.
Qed.

(** A trip without dates and a request without duration: the prompt asks
    for 7 days. *)
Lemma default_duration_in_prompt :
  estimate_prompt (Trip.destination rome)
    (resolve_duration date_fromisoformat default_request rome)
    (er_travelers default_request) (er_travel_style default_request)
  = estimate_prompt "Rome" 7 1 "mid-range".
Proof. reflexivity. Qed.

(** * Further properties of the code *)

(** ** Reading the budget *)

Lemma insert_desc_perm (e : Expense.t) (l : list Expense.t) :
  Permutation (insert_desc e l) (e :: l).
Proof.
  induction l as [|x l IH]; cbn [insert_desc]; [reflexivity|].
  destruct (Expense.created_at x <=? Expense.created_at e); [reflexivity|].
  rewrite IH. apply perm_swap.
Qed.

Lemma order_by_created_at_desc_perm (l : list Expense.t) :
  Permutation (order_by_created_at_desc l) l.
Proof.
  induction l as [|x l IH]; cbn [order_by_created_at_desc fold_right];
    [reflexivity|].
  rewrite insert_desc_perm. now constructor.
Qed.

Lemma insert_desc_sorted (e : Expense.t) (l : list Expense.t) :
  StronglySorted newer_or_same l -> StronglySorted newer_or_same (insert_desc e l).
Proof.
  induction 1 as [|x l Hs IH Hx]; cbn [insert_desc].
  - repeat constructor.
  - destruct (Expense.created_at x <=? Expense.created_at e) eqn:E.
    + apply Z.leb_le in E. constructor; [now constructor|].
      constructor; [exact E|].
      rewrite Forall_forall in *. intros y Hy. specialize (Hx y Hy).
      unfold newer_or_same in *. lia.
    + apply Z.leb_gt in E. constructor; [exact IH|].
      rewrite Forall_forall in *. intros y Hy.
      apply (Permutation_in _ (insert_desc_perm e l)) in Hy.
      destruct Hy as [<- | Hy]; [unfold newer_or_same; lia | now apply Hx].
Qed.

Lemma order_by_created_at_desc_sorted (l : list Expense.t) :
  StronglySorted newer_or_same (order_by_created_at_desc l).
Proof.
  induction l as [|x l IH]; cbn [order_by_created_at_desc fold_right].
  - constructor.
  - now apply insert_desc_sorted.
Qed.

(** X1: get-budget answers 404 for a trip that is not stored; for a
    stored trip it lists exactly the trip's expenses, newest first, each
    as [expense_to_dict] gives it, and its summary, or its failure, is the
    calculator's on these same rows. *)
Theorem get_budget_lists_newest_first (trip_id : Z) (db : DB) :
  (no_such_trip db trip_id ->
   get_budget trip_id db = HTTPException 404 "Trip not found")
  /\ forall trip,
       find_trip db trip_id = Some trip ->
       exists listed,
         Permutation listed (trip_expenses db trip_id)
         /\ StronglySorted newer_or_same listed
         /\ get_budget trip_id db
            = respond (summary <- compute_summary trip listed ;;
                       Ok (mkBudgetResponse summary
                             (map expense_to_dict listed))).
Proof.
  split.
  - intros H. apply find_trip_none in H. unfold get_budget. now rewrite H.
  - intros trip Hfind. unfold get_budget. rewrite Hfind.
    exists (order_by_created_at_desc (trip_expenses db trip_id)).
    split; [apply order_by_created_at_desc_perm|].
    split; [apply order_by_created_at_desc_sorted | reflexivity].
Qed.

Lemma get_budget_lists_newest_first_witness :
  get_budget 7 store2 = HTTPException 404 "Trip not found"
  /\ exists listed,
       Permutation listed [lunch; dinner]
       /\ StronglySorted newer_or_same listed
       /\ get_budget 1 store2
          = respond (summary <- compute_summary rome listed ;;
                     Ok (mkBudgetResponse summary
                           (map expense_to_dict listed))).
Proof.
  destruct (get_budget_lists_newest_first 7 store2) as [Hmissing _].
  destruct (get_budget_lists_newest_first 1 store2) as [_ Hfound].
  split.
  - apply Hmissing. intros t [<- | [<- | []]]; discriminate.
  - exact (Hfound rome eq_refl).
Defined.

(** ** When the calculator succeeds *)

(** X2: the calculator returns a summary exactly when it can read the
    stored estimate blob: the blob is falsy, or it is an object whose entry
    for each of the six categories, where there is one, is an object whose
    ["amount"], where there is one, is falsy, a float, a [bool], or an
    integer within the range of the doubles; the expenses have no part in
    it. *)
Theorem compute_summary_succeeds_iff (trip : Trip.t)
    (expenses : list Expense.t) :
  (exists s, compute_summary trip expenses = Ok s)
  <-> summarisable (Trip.budget_estimates trip) = true.
Proof. exact (compute_summary_ok_iff trip expenses). Qed.

Lemma as_float_raises (v : json) (e : exn) :
  as_float v = Some (Raise e) ->
  e = OverflowError "int too large to convert to float".
Proof.
  assert (Hint : forall n, int_to_float n = Raise e ->
                           e = OverflowError "int too large to convert to float").
  { intros n. unfold int_to_float. destruct n as [|p|p]; [discriminate| |];
      destruct (binary_round prec emax _ p 0); try discriminate;
      now intros [= <-]. }
  destruct v; cbn [as_float]; try discriminate; intros [= H].
  - exact (Hint _ H).
  - exact (Hint _ H).
Qed.

(** What it raises otherwise is an attribute error, a type error or an
    overflow error. *)
Lemma category_entry_raises (bt : option real) (est : json)
    (byc : list (string * float)) (cat : string) (e : exn) :
  In cat EXPENSE_CATEGORIES ->
  category_entry bt est byc cat = Raise e ->
  (exists ty, e = AttributeError ty "get") \/ (exists msg, e = TypeError msg)
  \/ e = OverflowError "int too large to convert to float".
Proof.
  intros Hin. destruct (icon_defined cat Hin) as [icon Hi].
  unfold category_entry. intros H.
  apply bind_raise in H. destruct H as [H | (entry & _ & H)].
  { left. destruct est; cbn [py_get] in H; try discriminate;
      injection H as <-; eauto. }
  apply bind_raise in H. destruct H as [H | (estimated & _ & H)].
  { left. destruct entry; cbn [py_get] in H; try discriminate;
      injection H as <-; eauto. }
  rewrite Hi in H. cbn [bind] in H.
  apply bind_raise in H. destruct H as [H | (pb & _ & H)].
  { destruct (budget_if_set bt) as [b|] eqn:Eb; [|discriminate].
    destruct (budget_if_set_some _ _ Eb) as [_ Hb].
    rewrite (float_div_nonzero _ (to_float b) Hb) in H. discriminate. }
  apply bind_raise in H. destruct H as [H | (pe & _ & H)]; [|discriminate].
  destruct (truthy estimated) eqn:Ht; [|discriminate].
  apply bind_raise in H. destruct H as [H | (q & _ & H)]; [|discriminate].
  unfold py_div in H. destruct (as_float estimated) as [[y|e']|] eqn:Ey;
    cbn [bind] in H.
  - rewrite (float_div_nonzero _ _ (truthy_number_nonzero _ _ Ht Ey)) in H.
    discriminate.
  - injection H as <-. right. right. exact (as_float_raises _ _ Ey).
  - injection H as <-. right. left. eauto.
Qed.

(** X3: when the calculator fails it raises an [AttributeError] (an
    estimate blob or entry that is not an object), a [TypeError] (an amount
    that is not a number) or an [OverflowError] (an amount that is an
    integer beyond the range of the doubles); it raises no key error and no
    division by zero. *)
Theorem compute_summary_raises_only (trip : Trip.t)
    (expenses : list Expense.t) (e : exn) :
  compute_summary trip expenses = Raise e ->
  (exists ty, e = AttributeError ty "get") \/ (exists msg, e = TypeError msg)
  \/ e = OverflowError "int too large to convert to float".
Proof.
  unfold compute_summary. intros H.
  apply bind_raise in H. destruct H as [H | (cats & _ & H)].
  - apply mapM_raise in H. destruct H as (cat & Hin & H).
    now apply category_entry_raises in H.
  - destruct (budget_if_set (Trip.budget_total trip)) as [b|] eqn:Eb;
      cbn [bind] in H; [|discriminate].
    destruct (budget_if_set_some _ _ Eb) as [_ Hb].
    rewrite (float_div_nonzero _ (to_float b) Hb) in H. discriminate.
Qed.

Lemma compute_summary_raises_only_witness :
  (exists e, compute_summary spoiled [] = Raise e
             /\ e = AttributeError "int" "get")
  /\ exists e, compute_summary overestimated [] = Raise e
               /\ e = OverflowError "int too large to convert to float".
Proof.
  split.
  - exists (AttributeError "int" "get").
    assert (H : compute_summary spoiled []
                = Raise (AttributeError "int" "get")) by reflexivity.
    split; [exact H | ].
    destruct (compute_summary_raises_only spoiled [] _ H)
      as [[ty Hty] | [[msg Hmsg] | Hover]];
      [reflexivity | discriminate Hmsg | discriminate Hover].
  - eexists. split; [vm_compute; reflexivity | reflexivity].
Defined.

(** ** Adding an expense *)

Lemma str_or_nonempty (s : option string) (default : string) :
  default <> "" -> str_or s default <> "".
Proof.
  intros Hd. unfold str_or. destruct s as [v|]; [|exact Hd].
  destruct (String.eqb v "") eqn:E; [exact Hd | now apply String.eqb_neq].
Qed.

Lemma add_expense_eq (trip_id : Z) (data : ExpenseCreate) (now : Z)
    (db : DB) (trip : Trip.t) :
  find_trip db trip_id = Some trip ->
  in_categories (ec_category data) = true ->
  let row := new_expense trip_id data now db trip in
  let db' := mkDB (trips db) (expenses db ++ [row]) in
  add_expense trip_id data now db
  = (respond (summary <- compute_summary trip
                           (trip_expenses db trip_id ++ [row]) ;;
              Ok (mkExpenseResponse (expense_to_dict row) summary)), db')
  /\ ~ In (Expense.id row) (map Expense.id (expenses db))
  /\ (exists c, Expense.currency row = Some c /\ c <> ""
                /\ (forall c0, ec_currency data = Some c0 -> c0 <> "" ->
                               c = c0)
                /\ (ec_currency data = None \/ ec_currency data = Some "" ->
                    c = str_or (Trip.budget_currency trip) "USD")).
Proof.
  intros Hfind Hcat row db'.
  destruct (find_trip_some _ _ _ Hfind) as [_ Hid].
  split; [|split].
  - unfold add_expense. rewrite Hfind, Hcat. cbn [negb].
    fold (new_expense trip_id data now db trip). fold row. fold db'.
    unfold trip_expenses, db'. cbn [expenses]. rewrite filter_app.
    cbn [filter]. unfold row at 2. cbn [new_expense Expense.trip_id].
    rewrite Z.eqb_refl. reflexivity.
  - apply next_expense_id_fresh.
  - exists (first_truthy (ec_currency data) (Trip.budget_currency trip) "USD").
    split; [reflexivity|]. unfold first_truthy. split; [|split].
    + apply str_or_nonempty. now apply str_or_nonempty.
    + intros c0 -> Hc0. cbn [str_or]. apply String.eqb_neq in Hc0.
      now rewrite Hc0.
    + intros [-> | ->]; reflexivity.
Qed.

(** X4: for a stored trip and a category of the fixed set, add-expense
    appends exactly one row and changes nothing else; the row has an id no
    stored expense has, the request's fields, and as currency the first
    non-empty of the request's currency, the trip's currency and "USD",
    never an empty one.  The row is written before the summary is computed:
    the answer is the summary of the trip's expenses with the new row, or a
    server error if the calculator raises, and the row is stored in both
    cases. *)
Theorem add_expense_appends (trip_id : Z) (data : ExpenseCreate) (now : Z)
    (db : DB) (trip : Trip.t) :
  find_trip db trip_id = Some trip ->
  in_categories (ec_category data) = true ->
  let row := new_expense trip_id data now db trip in
  let db' := mkDB (trips db) (expenses db ++ [row]) in
  add_expense trip_id data now db
  = (respond (summary <- compute_summary trip
                           (trip_expenses db trip_id ++ [row]) ;;
              Ok (mkExpenseResponse (expense_to_dict row) summary)), db')
  /\ ~ In (Expense.id row) (map Expense.id (expenses db))
  /\ (exists c, Expense.currency row = Some c /\ c <> ""
                /\ (forall c0, ec_currency data = Some c0 -> c0 <> "" ->
                               c = c0)
                /\ (ec_currency data = None \/ ec_currency data = Some "" ->
                    c = str_or (Trip.budget_currency trip) "USD")).
Proof. exact (add_expense_eq trip_id data now db trip). Qed.

Lemma add_expense_appends_witness :
  exists row,
    snd (add_expense 1 taxi_request 9 store) = mkDB [rome; unbudgeted] [lunch; row]
    /\ Expense.id row = 2
    /\ Expense.currency row = Some "USD".
Proof.
  destruct (add_expense_appends 1 taxi_request 9 store rome eq_refl eq_refl)
    as (Heq & _ & _).
  exists (new_expense 1 taxi_request 9 store rome).
  rewrite Heq. split; [reflexivity|]. split; reflexivity.
Defined.




(** ** Adding, then deleting *)

Lemma find_app_fresh (db : DB) (row : Expense.t) (trip_id : Z) :
  ~ In (Expense.id row) (map Expense.id (expenses db)) ->
  Expense.trip_id row = trip_id ->
  find_expense (mkDB (trips db) (expenses db ++ [row])) (Expense.id row)
               trip_id = Some row.
Proof.
  intros Hfresh Htrip. unfold find_expense. cbn [expenses].
  induction (expenses db) as [|x l IH]; cbn [app find].
  - rewrite Htrip, !Z.eqb_refl. reflexivity.
  - assert (Hx : (Expense.id x =? Expense.id row) = false).
    { apply Z.eqb_neq. intros E. apply Hfresh. cbn [map]. now left. }
    rewrite Hx. cbn [andb]. apply IH. intros Hin. apply Hfresh. cbn [map].
    now right.
Qed.

(** X6: deleting the expense that add-expense has just created, under
    the id it returned, gives back the store as it was before the two calls
    and answers with the summary of the trip's old expenses. *)
Theorem add_then_delete_restores (trip_id : Z) (data : ExpenseCreate)
    (now : Z) (db db1 : DB) (r : ExpenseResponse) (trip : Trip.t) :
  find_trip db trip_id = Some trip ->
  add_expense trip_id data now db = (Success r, db1) ->
  delete_expense trip_id (Expense.id (ed_expense (xr_expense r))) db1
  = (respond (summary <- compute_summary trip (trip_expenses db trip_id) ;;
              Ok (mkDeleteResponse true summary)), db).
Proof.
  intros Hfind Hadd.
  assert (Hcat : in_categories (ec_category data) = true).
  { unfold add_expense in Hadd. rewrite Hfind in Hadd.
    destruct (in_categories (ec_category data)); [reflexivity|].
    discriminate Hadd. }
  destruct (add_expense_eq trip_id data now db trip Hfind Hcat)
    as (Heq & Hfresh & _).
  rewrite Heq in Hadd. clear Heq.
  set (row := new_expense trip_id data now db trip) in *.
  injection Hadd as Hr <-.
  assert (Hrow : ed_expense (xr_expense r) = row).
  { unfold respond in Hr.
    destruct (compute_summary trip _) as [s|e]; cbn [bind] in Hr;
      [|discriminate].
    injection Hr as <-. reflexivity. }
  rewrite Hrow. unfold delete_expense.
  rewrite (find_app_fresh db row trip_id Hfresh eq_refl).
  cbn [trips expenses].
  assert (Hfilter : filter (fun r0 => negb (Expense.id r0 =? Expense.id row))
                           (expenses db ++ [row]) = expenses db).
  { rewrite filter_app. cbn [filter]. rewrite Z.eqb_refl. cbn [negb].
    rewrite app_nil_r. apply filter_all. intros x Hx.
    apply negb_true_iff. apply Z.eqb_neq. intros E. apply Hfresh.
    rewrite <- E. now apply in_map. }
  rewrite Hfilter.
  change (find_trip (mkDB (trips db) (expenses db)) trip_id)
    with (find_trip db trip_id).
  change (trip_expenses (mkDB (trips db) (expenses db)) trip_id)
    with (trip_expenses db trip_id).
  rewrite Hfind. cbn [compute_summary_opt]. destruct db. reflexivity.
Qed.

Lemma add_then_delete_restores_witness :
  exists r db1,
    add_expense 1 taxi_request 9 store = (Success r, db1)
    /\ snd (delete_expense 1 (Expense.id (ed_expense (xr_expense r))) db1)
       = store.
Proof.
  destruct (add_expense 1 taxi_request 9 store) as [answer db1] eqn:E.
  assert (Hok : exists r, answer = Success r).
  { apply (f_equal fst) in E. cbn [fst] in E. rewrite <- E.
    vm_compute. eauto. }
  destruct Hok as [r ->]. exists r, db1. split; [reflexivity|].
  now rewrite (add_then_delete_restores 1 taxi_request 9 store db1 r rome
                 eq_refl E).
Defined.

(** ** Updating and deleting an expense *)

Lemma replace_in_place (l : list Expense.t) (e e' : Expense.t) :
  NoDup (map Expense.id l) -> In e l -> Expense.id e' = Expense.id e ->
  exists l1 l2,
    l = (l1 ++ e :: l2)%list
    /\ map (fun r => if Expense.id r =? Expense.id e' then e' else r) l
       = (l1 ++ e' :: l2)%list
    /\ (forall x, In x l1 \/ In x l2 -> Expense.id x <> Expense.id e).
Proof.
  intros Hnd Hin Hid. destruct (in_split _ _ Hin) as (l1 & l2 & ->).
  exists l1, l2. split; [reflexivity|].
  assert (Hother : forall x, In x l1 \/ In x l2 ->
                             Expense.id x <> Expense.id e).
  { intros x Hx E. rewrite map_app in Hnd. cbn [map] in Hnd.
    apply NoDup_remove_2 in Hnd. apply Hnd. rewrite <- E.
    apply in_or_app. destruct Hx as [Hx | Hx]; [left | right];
      now apply in_map. }
  split; [|exact Hother].
  rewrite map_app. cbn [map]. rewrite Hid, Z.eqb_refl. f_equal; [|f_equal].
  - rewrite <- (map_id l1) at 2. apply map_ext_in. intros x Hx.
    assert (E : (Expense.id x =? Expense.id e) = false)
      by (apply Z.eqb_neq; auto).
    now rewrite E.
  - rewrite <- (map_id l2) at 2. apply map_ext_in. intros x Hx.
    assert (E : (Expense.id x =? Expense.id e) = false)
      by (apply Z.eqb_neq; auto).
    now rewrite E.
Qed.

Lemma find_expense_in_split (ts : list Trip.t) (l1 l2 : list Expense.t)
    (e : Expense.t) :
  (forall x, In x l1 -> Expense.id x <> Expense.id e) ->
  find_expense (mkDB ts (l1 ++ e :: l2)) (Expense.id e) (Expense.trip_id e)
  = Some e.
Proof.
  intros H. unfold find_expense. cbn [expenses].
  induction l1 as [|x l1 IH]; cbn [app find].
  - now rewrite !Z.eqb_refl.
  - assert (E : (Expense.id x =? Expense.id e) = false).
    { apply Z.eqb_neq. apply H. now left. }
    rewrite E. cbn [andb]. apply IH. intros y Hy. apply H. now right.
Qed.

Lemma apply_expense_update_twice (data : ExpenseUpdate) (e : Expense.t) :
  apply_expense_update data (apply_expense_update data e)
  = apply_expense_update data e.
Proof.
  unfold apply_expense_update. cbn.
  destruct (eu_category data), (eu_description data), (eu_amount data),
    (eu_currency data), (eu_date data), (eu_notes data); reflexivity.
Qed.

(** X7: update-expense replaces the one row it found, in place, by the
    row with the supplied fields overwritten; id, trip and creation time
    stay, every other expense and every trip stays; repeating the request
    changes nothing more, and a request that supplies nothing leaves the
    store as it was. *)
Theorem update_expense_in_place (trip_id expense_id : Z)
    (data : ExpenseUpdate) (db : DB) (e : Expense.t) :
  NoDup (map Expense.id (expenses db)) ->
  find_expense db expense_id trip_id = Some e ->
  let e' := apply_expense_update data e in
  let db' := snd (update_expense trip_id expense_id data db) in
  trips db' = trips db
  /\ (exists l1 l2, expenses db = (l1 ++ e :: l2)%list
                    /\ expenses db' = (l1 ++ e' :: l2)%list)
  /\ find_expense db' expense_id trip_id = Some e'
  /\ Expense.id e' = Expense.id e
  /\ Expense.trip_id e' = Expense.trip_id e
  /\ Expense.created_at e' = Expense.created_at e
  /\ snd (update_expense trip_id expense_id data db') = db'
  /\ (data = empty_update -> db' = db).
Proof.
  intros Hnd Hfind e' db'.
  destruct (find_expense_some _ _ _ _ Hfind) as (Hin & Hid & Htrip).
  assert (Hdb' : db' = commit_expense e' db).
  { unfold db', update_expense. now rewrite Hfind. }
  destruct (replace_in_place (expenses db) e e' Hnd Hin eq_refl)
    as (l1 & l2 & Hl & Hmap & Hother).
  assert (Hexp : expenses db' = (l1 ++ e' :: l2)%list).
  { rewrite Hdb'. unfold commit_expense. cbn [expenses]. exact Hmap. }
  assert (Hfind' : find_expense db' expense_id trip_id = Some e').
  { destruct db' as [ts' es']. cbn [expenses] in Hexp. subst es'.
    rewrite <- Hid, <- Htrip.
    change (Expense.id e) with (Expense.id e').
    change (Expense.trip_id e) with (Expense.trip_id e').
    apply find_expense_in_split. intros x Hx. apply Hother. now left. }
  split; [now rewrite Hdb'|]. split; [eauto|]. split; [exact Hfind'|].
  split; [reflexivity|]. split; [reflexivity|]. split; [reflexivity|].
  split.
  - unfold update_expense. rewrite Hfind'. cbn [snd].
    unfold e'. rewrite apply_expense_update_twice. fold e'.
    unfold commit_expense. destruct db' as [ts' es'].
    cbn [expenses trips] in *. f_equal. subst es'.
    assert (Hnd' : NoDup (map Expense.id (l1 ++ e' :: l2))).
    { rewrite Hl in Hnd. rewrite map_app in *. exact Hnd. }
    destruct (replace_in_place (l1 ++ e' :: l2)%list e' e' Hnd'
                (in_elt e' l1 l2) eq_refl) as (k1 & k2 & Hk & Hmap' & Hk').
    rewrite Hmap'. symmetry. exact Hk.
  - intros ->. rewrite Hdb'. unfold commit_expense. destruct db as [ts es].
    cbn [expenses trips] in *. f_equal. rewrite Hmap, Hl.
    unfold e'. destruct e. reflexivity.
Qed.

Lemma update_expense_in_place_witness :
  snd (update_expense 1 1 reprice store2)
  = mkDB [rome; unbudgeted]
         [Expense.mk 1 1 "food" "lunch" (real_of_Z 175) (Some "USD") None
                     (Some "with tip") 0; dinner]
  /\ snd (update_expense 1 1 empty_update store2) = store2.
Proof.
  assert (Hnd : NoDup (map Expense.id (expenses store2))).
  { cbn. repeat constructor; cbn; intuition discriminate. }
  destruct (update_expense_in_place 1 1 reprice store2 lunch Hnd eq_refl)
    as (_ & _ & _ & _ & _ & _ & _ & _).
  destruct (update_expense_in_place 1 1 empty_update store2 lunch Hnd eq_refl)
    as (_ & _ & _ & _ & _ & _ & _ & Hnoop).
  split; [reflexivity | now apply Hnoop].
Defined.

(** X8: delete-expense removes the one row it found and nothing else; a
    second delete of the same expense answers 404 and changes nothing. *)
Theorem delete_expense_removes_one (trip_id expense_id : Z) (db : DB)
    (e : Expense.t) :
  NoDup (map Expense.id (expenses db)) ->
  find_expense db expense_id trip_id = Some e ->
  let db' := snd (delete_expense trip_id expense_id db) in
  trips db' = trips db
  /\ (exists l1 l2, expenses db = (l1 ++ e :: l2)%list
                    /\ expenses db' = (l1 ++ l2)%list)
  /\ delete_expense trip_id expense_id db'
     = (HTTPException 404 "Expense not found", db').
Proof.
  intros Hnd Hfind db'.
  destruct (find_expense_some _ _ _ _ Hfind) as (Hin & Hid & Htrip).
  assert (Hdb' : db' = mkDB (trips db)
                         (filter (fun r => negb (Expense.id r =? Expense.id e))
                                 (expenses db))).
  { unfold db', delete_expense. now rewrite Hfind. }
  destruct (replace_in_place (expenses db) e e Hnd Hin eq_refl)
    as (l1 & l2 & Hl & _ & Hother).
  assert (Hexp : expenses db' = (l1 ++ l2)%list).
  { rewrite Hdb'. cbn [expenses]. rewrite Hl, filter_app. cbn [filter].
    rewrite Z.eqb_refl. cbn [negb].
    rewrite !filter_all; [reflexivity| |];
      intros x Hx; apply negb_true_iff; apply Z.eqb_neq; apply Hother; auto. }
  split; [now rewrite Hdb'|]. split; [eauto|].
  unfold delete_expense.
  assert (Hgone : find_expense db' expense_id trip_id = None).
  { apply find_expense_none. intros x Hx [Hxid _]. rewrite Hexp in Hx.
    apply (Hother x); [|congruence].
    apply in_app_or in Hx. tauto. }
  now rewrite Hgone.
Qed.

Lemma delete_expense_removes_one_witness :
  snd (delete_expense 1 1 store2) = mkDB [rome; unbudgeted] [dinner]
  /\ delete_expense 1 1 (snd (delete_expense 1 1 store2))
     = (HTTPException 404 "Expense not found", snd (delete_expense 1 1 store2)).
Proof.
  assert (Hnd : NoDup (map Expense.id (expenses store2))).
  { cbn. repeat constructor; cbn; intuition discriminate. }
  destruct (delete_expense_removes_one 1 1 store2 lunch Hnd eq_refl)
    as (_ & _ & Hagain).
  split; [reflexivity | exact Hagain].
Defined.

(** ** Deleting a trip *)

Lemma find_filter_other (ts : list Trip.t) (gone other : Z) :
  other <> gone ->
  find (fun t => Trip.id t =? other)
       (filter (fun r => negb (Trip.id r =? gone)) ts)
  = find (fun t => Trip.id t =? other) ts.
Proof.
  intros Hne. induction ts as [|t ts IH]; cbn [filter find]; [reflexivity|].
  destruct (Trip.id t =? gone) eqn:Eg; cbn [negb find].
  - apply Z.eqb_eq in Eg.
    assert (E : (Trip.id t =? other) = false)
      by (apply Z.eqb_neq; congruence).
    now rewrite E.
  - now rewrite IH.
Qed.

Lemma filter_filter_other (es : list Expense.t) (gone other : Z) :
  other <> gone ->
  filter (fun e => Expense.trip_id e =? other)
         (filter (fun e => negb (Expense.trip_id e =? gone)) es)
  = filter (fun e => Expense.trip_id e =? other) es.
Proof.
  intros Hne. induction es as [|e es IH]; cbn [filter]; [reflexivity|].
  destruct (Expense.trip_id e =? gone) eqn:Eg; cbn [negb filter].
  - apply Z.eqb_eq in Eg.
    assert (E : (Expense.trip_id e =? other) = false)
      by (apply Z.eqb_neq; congruence).
    now rewrite E.
  - now rewrite IH.
Qed.

(** X9: delete-trip on a stored trip removes the trip together with all
    its expenses and keeps every other trip and every other trip's
    expenses.  After it, a second delete-trip and every budget endpoint
    answer 404 for that trip and write nothing. *)
Theorem delete_trip_cascades (trip_id : Z) (db : DB) (trip : Trip.t) :
  find_trip db trip_id = Some trip ->
  let db' := snd (delete_trip trip_id db) in
  fst (delete_trip trip_id db) = Success true
  /\ no_such_trip db' trip_id
  /\ (forall e, In e (expenses db') -> Expense.trip_id e <> trip_id)
  /\ (forall other, other <> trip_id ->
        find_trip db' other = find_trip db other
        /\ trip_expenses db' other = trip_expenses db other)
  /\ delete_trip trip_id db' = (HTTPException 404 "Trip not found", db')
  /\ get_budget trip_id db' = HTTPException 404 "Trip not found"
  /\ (forall upper data,
        update_budget_settings upper trip_id data db'
        = (HTTPException 404 "Trip not found", db'))
  /\ (forall data now, add_expense trip_id data now db'
                       = (HTTPException 404 "Trip not found", db'))
  /\ (forall expense_id data,
        update_expense trip_id expense_id data db'
        = (HTTPException 404 "Expense not found", db'))
  /\ (forall expense_id,
        delete_expense trip_id expense_id db'
        = (HTTPException 404 "Expense not found", db')).
Proof.
  intros Hfind db'.
  destruct (find_trip_some _ _ _ Hfind) as [_ Hid].
  assert (Hdb' : db' = mkDB (filter (fun r => negb (Trip.id r =? trip_id))
                                    (trips db))
                            (filter (fun e => negb (Expense.trip_id e =? trip_id))
                                    (expenses db))).
  { unfold db', delete_trip. rewrite Hfind, Hid. reflexivity. }
  assert (Hno : no_such_trip db' trip_id).
  { rewrite Hdb'. intros t Ht. cbn [trips] in Ht. apply filter_In in Ht.
    destruct Ht as [_ Ht]. apply negb_true_iff in Ht. now apply Z.eqb_neq. }
  assert (Hnone : find_trip db' trip_id = None) by now apply find_trip_none.
  assert (Hexp : forall e, In e (expenses db') -> Expense.trip_id e <> trip_id).
  { rewrite Hdb'. intros e He. cbn [expenses] in He. apply filter_In in He.
    destruct He as [_ He]. apply negb_true_iff in He. now apply Z.eqb_neq. }
  assert (Hlookup : forall expense_id,
             find_expense db' expense_id trip_id = None).
  { intros expense_id. apply find_expense_none. intros e He [_ Ht].
    exact (Hexp e He Ht). }
  split; [unfold delete_trip; now rewrite Hfind|].
  split; [exact Hno|]. split; [exact Hexp|]. split.
  { intros other Hne. rewrite Hdb'. split.
    - unfold find_trip. cbn [trips]. now apply find_filter_other.
    - unfold trip_expenses. cbn [expenses]. now apply filter_filter_other. }
  split; [unfold delete_trip; now rewrite Hnone|].
  split; [unfold get_budget; now rewrite Hnone|].
  split; [intros; unfold update_budget_settings; now rewrite Hnone|].
  split; [intros; unfold add_expense; now rewrite Hnone|].
  split; intros; [unfold update_expense | unfold delete_expense];
    now rewrite Hlookup.
Qed.

Lemma delete_trip_cascades_witness :
  snd (delete_trip 1 store2) = mkDB [unbudgeted] []
  /\ get_budget 1 (snd (delete_trip 1 store2))
     = HTTPException 404 "Trip not found"
  /\ find_trip (snd (delete_trip 1 store2)) 2 = Some unbudgeted.
Proof.
  destruct (delete_trip_cascades 1 store2 rome eq_refl)
    as (_ & _ & _ & Hothers & _ & Hget & _).
  split; [reflexivity|]. split; [exact Hget|].
  destruct (Hothers 2) as [H _]; [discriminate|]. rewrite H. reflexivity.
Defined.

(** ** A stored estimate the calculator cannot read *)

Lemma mapM_fails {A B : Type} (f : A -> result B) (l : list A) (a : A) :
  In a l -> (exists e, f a = Raise e) -> exists e, mapM f l = Raise e.
Proof.
  induction l as [|x l IH]; intros Hin Hf; [destruct Hin|].
  cbn [mapM]. destruct (f x) as [b|e] eqn:Ex; cbn [bind]; [|eauto].
  destruct Hin as [-> | Hin].
  - destruct Hf as [e He]. congruence.
  - destruct (IH Hin Hf) as [e He]. rewrite He. cbn [bind]. eauto.
Qed.

Lemma compute_summary_fails (trip : Trip.t) (expenses : list Expense.t) :
  summarisable (Trip.budget_estimates trip) = false ->
  exists e, compute_summary trip expenses = Raise e.
Proof.
  intros H. destruct (compute_summary trip expenses) as [s|e] eqn:E; [|eauto].
  assert (Hs : summarisable (Trip.budget_estimates trip) = true)
    by (apply (compute_summary_ok_iff trip expenses); eauto).
  congruence.
Qed.

(** X10: the estimator does not check that it can read what it stores.
    When the gateway's result is not a string and can be applied to the
    trip's columns but is not readable by the calculator, the call stores it
    as the trip's estimates and then answers with a server error; from then
    on get-budget fails for that trip, and add-expense stores its row and
    fails as well. *)
Theorem unreadable_estimate_is_stored (json_loads : string -> option json)
    (fromisoformat : string -> option Z) (trip_id : Z)
    (req : EstimateRequest) (db : DB) (net : Net) (trip trip' : Trip.t)
    (result estimates : json) :
  find_trip db trip_id = Some trip ->
  fst (generate_structured json_loads
         (estimate_prompt (Trip.destination trip)
            (resolve_duration fromisoformat req trip) (er_travelers req)
            (er_travel_style req))
         (er_model req) (Some ESTIMATE_SCHEMA) net) = Ok result ->
  py_get result "result" (JObj []) = Ok estimates ->
  is_string estimates = false ->
  apply_estimates trip estimates = Ok (Some trip') ->
  summarisable (Some estimates) = false ->
  let '(answer, db', _) :=
    estimate_costs json_loads fromisoformat trip_id req db net in
  (exists e, answer = ServerError e)
  /\ db' = commit_trip trip' db
  /\ find_trip db' trip_id = Some trip'
  /\ Trip.budget_estimates trip' = Some estimates
  /\ (exists e, get_budget trip_id db' = ServerError e)
  /\ (forall data now,
        in_categories (ec_category data) = true ->
        exists e,
          add_expense trip_id data now db'
          = (ServerError e,
             mkDB (trips db')
                  (expenses db' ++ [new_expense trip_id data now db' trip']))).
Proof.
  intros Hfind Hgen Hres Hstr Happly Hbad.
  destruct (apply_estimates_inv _ _ _ Happly) as (Hblob & _ & _ & Hid & _).
  assert (Hbad' : summarisable (Trip.budget_estimates trip') = false)
    by now rewrite Hblob.
  unfold estimate_costs. rewrite Hfind.
  destruct (generate_structured json_loads _ (er_model req)
              (Some ESTIMATE_SCHEMA) net) as [g n].
  cbn [fst] in Hgen. subst g. rewrite Hres.
  assert (Hfound : find_trip (commit_trip trip' db) trip_id = Some trip')
    by now apply find_commit_trip_same with (t := trip).
  assert (Hgoal :
    let '(answer, db', _) :=
      match apply_estimates trip estimates with
      | Ok (Some trip0) =>
          (respond
             (summary <-
              compute_summary trip0
                (trip_expenses (commit_trip trip0 db) trip_id) ;;
              Ok (mkEstimateResponse estimates summary)),
           commit_trip trip0 db, n)
      | Ok None => (Unmodelled, db, n)
      | Raise e => (ServerError e, db, n)
      end in
    (exists e, answer = ServerError e)
    /\ db' = commit_trip trip' db
    /\ find_trip db' trip_id = Some trip'
    /\ Trip.budget_estimates trip' = Some estimates
    /\ (exists e, get_budget trip_id db' = ServerError e)
    /\ (forall data now,
          in_categories (ec_category data) = true ->
          exists e,
            add_expense trip_id data now db'
            = (ServerError e,
               mkDB (trips db')
                    (expenses db'
                     ++ [new_expense trip_id data now db' trip'])))).
  { rewrite Happly.
    split.
    { destruct (compute_summary_fails trip'
                  (trip_expenses (commit_trip trip' db) trip_id) Hbad')
        as [e He].
      rewrite He. cbn [bind respond]. eauto. }
    split; [reflexivity|]. split; [exact Hfound|]. split; [exact Hblob|].
    split.
    { unfold get_budget. rewrite Hfound.
      destruct (compute_summary_fails trip'
                  (order_by_created_at_desc
                     (trip_expenses (commit_trip trip' db) trip_id)) Hbad')
        as [e He].
      rewrite He. cbn [bind respond]. eauto. }
    intros data now Hcat.
    destruct (add_expense_eq trip_id data now (commit_trip trip' db)
                trip' Hfound Hcat) as (Heq & _).
    rewrite Heq.
    destruct (compute_summary_fails trip'
                (trip_expenses (commit_trip trip' db) trip_id
                 ++ [new_expense trip_id data now (commit_trip trip' db)
                       trip']) Hbad') as [e He].
    rewrite He. cbn [bind respond]. eauto. }
  destruct estimates; try exact Hgoal. discriminate Hstr.
Qed.

Lemma unreadable_estimate_is_stored_witness :
  exists e db' net',
    estimate_costs loads_malformed date_fromisoformat 1 default_request store
                   (mkNet [ok_reply malformed_estimate_text] [])
    = (ServerError e, db', net')
    /\ (exists t, find_trip db' 1 = Some t
                  /\ Trip.budget_estimates t = Some malformed_estimate)
    /\ exists e', get_budget 1 db' = ServerError e'.
Proof.
  pose proof (unreadable_estimate_is_stored loads_malformed
                date_fromisoformat 1 default_request store
                (mkNet [ok_reply malformed_estimate_text] []) rome
                (Trip.set_budget_estimates (Some malformed_estimate) rome)
                (JObj [("result", malformed_estimate);
                       ("usage", JObj [("prompt_tokens", JInt 210);
                                       ("completion_tokens", JInt 96);
                                       ("total_duration_ms", JInt 1500)])])
                malformed_estimate eq_refl eq_refl eq_refl eq_refl eq_refl
                eq_refl) as H.
  destruct (estimate_costs loads_malformed date_fromisoformat 1
              default_request store
              (mkNet [ok_reply malformed_estimate_text] []))
    as [[answer db'] net'].
  destruct H as ([e ->] & _ & Hfound & Hblob & Hget & _).
  exists e, db', net'. split; [reflexivity|]. split; [eauto | exact Hget].
Defined.

(** ** Status of the model server *)

Lemma mapM_length {A B : Type} (f : A -> result B) (l : list A) (bs : list B) :
  mapM f l = Ok bs -> List.length bs = List.length l.
Proof.
  intros H. apply mapM_ok in H.
  induction H; cbn [List.length]; congruence.
Qed.

Lemma names_of_strings (items : list json) (names : list json) :
  Forall (fun m => exists s, m = JStr s) items ->
  mapM (fun m => py_getitem m "name") items = Ok names ->
  items = [].
Proof.
  intros Hall H. destruct items as [|m items]; [reflexivity|].
  inversion Hall as [|? ? [s ->] _]. subst. discriminate H.
Qed.

Lemma model_names_len (models : json) (names : list json) :
  model_names models = Ok names ->
  py_len models = Ok (Z.of_nat (List.length names)).
Proof.
  unfold model_names. destruct models; cbn [py_iter bind py_len];
    try discriminate; intros H.
  - assert (E : map (fun c => JStr (String c "")) (list_ascii_of_string s)
                = []).
    { apply (names_of_strings _ names); [|exact H].
      apply Forall_forall. intros m Hm. apply in_map_iff in Hm.
      destruct Hm as (c & <- & _). eauto. }
    rewrite E in H. injection H as <-.
    destruct s; [reflexivity | discriminate E].
  - now rewrite (mapM_length _ _ _ H).
  - assert (E : map (fun kv : string * json => JStr (fst kv)) members = []).
    { apply (names_of_strings _ names); [|exact H].
      apply Forall_forall. intros m Hm. apply in_map_iff in Hm.
      destruct Hm as (kv & <- & _). eauto. }
    rewrite E in H. injection H as <-.
    destruct members; [reflexivity | discriminate E].
Qed.

(** X11: the status check never raises.  The count it reports is the
    number of models it lists; when it reports the server as not running it
    lists none; [get_available_models] lists the same models on the same
    reply.  The HTTP status of the reply plays no part: any reply whose
    body is a JSON object without ["models"], an error body included, is
    reported as a running server with no models. *)
Theorem check_ollama_status_consistent (reply : http_outcome) :
  os_model_count (check_ollama_status reply)
  = Z.of_nat (List.length (os_models (check_ollama_status reply)))
  /\ (os_running (check_ollama_status reply) = false ->
      os_models (check_ollama_status reply) = [])
  /\ get_available_models reply = os_models (check_ollama_status reply)
  /\ (forall status status' body,
        check_ollama_status (Responded (mkHttpResponse status body))
        = check_ollama_status (Responded (mkHttpResponse status' body)))
  /\ (forall status members,
        reply = Responded (mkHttpResponse status (Ok (JObj members))) ->
        dict_get members "models" = None ->
        check_ollama_status reply = mkOllamaStatus true [] 0).
Proof.
  unfold check_ollama_status, get_available_models.
  split; [|split; [|split; [|split]]].
  - destruct (tags_models reply) as [models|e]; cbn [bind]; [|reflexivity].
    destruct (model_names models) as [names|e] eqn:En; cbn [bind];
      [|reflexivity].
    now rewrite (model_names_len _ _ En).
  - destruct (tags_models reply) as [models|e]; cbn [bind]; [|reflexivity].
    destruct (model_names models) as [names|e] eqn:En; cbn [bind];
      [|reflexivity].
    rewrite (model_names_len _ _ En). cbn [bind os_running]. discriminate.
  - destruct (tags_models reply) as [models|e]; cbn [bind]; [|reflexivity].
    destruct (model_names models) as [names|e] eqn:En; cbn [bind];
      [|reflexivity].
    now rewrite (model_names_len _ _ En).
  - reflexivity.
  - intros status members -> Hnone. cbn [tags_models response_json bind py_get].
    rewrite Hnone. reflexivity.
Qed.

(** ** The gateway's result *)



(** ** Reading a streamed answer *)

Section StreamProperties.

Variable json_loads : string -> option json.

Lemma read_lines_skips (l1 l2 : list string) (line : string)
    (dropped : option string) :
  line = "" \/ json_loads line = None ->
  read_lines json_loads (l1 ++ line :: l2) dropped
  = read_lines json_loads (l1 ++ l2) dropped.
Proof.
  intros Hline. induction l1 as [|x l1 IH]; cbn [app read_lines].
  - destruct Hline as [-> | Hl]; [reflexivity|].
    rewrite Hl. now destruct (String.eqb line "").
  - now rewrite IH.
Qed.

Lemma read_lines_truthy (lines : list string) (dropped : option string) :
  Forall (fun token => truthy token = true)
         (fst (read_lines json_loads lines dropped)).
Proof.
  induction lines as [|line rest IH]; cbn [read_lines]; [constructor|].
  destruct (String.eqb line ""); [exact IH|].
  destruct (json_loads line) as [data|]; [|exact IH].
  destruct (message <- py_get data "message" (JObj []) ;;
            py_get message "content" (JStr "")) as [content|e];
    [|constructor].
  assert (Hy : Forall (fun token => truthy token = true)
                      (if truthy content then [content] else [])).
  { destruct (truthy content) eqn:E; repeat constructor. exact E. }
  destruct (done <- py_get data "done" JNull ;;
            (if truthy done
             then reason <- py_get data "done_reason" JNull ;;
                  Ok (is_stop_reason reason)
             else Ok false)) as [[|]|e]; cbn [fst]; try exact Hy.
  destruct (read_lines json_loads rest dropped) as [tokens ending].
  cbn [fst] in *. apply Forall_app. split; assumption.
Qed.

(** X13: the line reader skips empty lines and lines that do not decode,
    wherever they stand, and every token it yields is a non-empty
    content. *)
Theorem read_lines_skips_noise (l1 l2 : list string) (line : string)
    (dropped : option string) :
  line = "" \/ json_loads line = None ->
  read_lines json_loads (l1 ++ line :: l2) dropped
  = read_lines json_loads (l1 ++ l2) dropped
  /\ Forall (fun token => truthy token = true)
            (fst (read_lines json_loads (l1 ++ l2) dropped)).
Proof.
  intros H. split; [now apply read_lines_skips | apply read_lines_truthy].
Qed.

(** X14: reading composes over the lines.  If the lines of a first part
    run out without a final chunk or an exception, the tokens of the whole
    are those of the first part followed by those of the second; if the
    first part ends on a final chunk (["done"] with reason "stop" or
    "length") or on an exception, nothing that follows is read. *)
Theorem read_lines_app (l1 l2 : list string) (dropped : option string) :
  read_lines json_loads (l1 ++ l2) dropped
  = match snd (read_lines json_loads l1 None) with
    | Exhausted =>
        ((fst (read_lines json_loads l1 None)
          ++ fst (read_lines json_loads l2 dropped))%list,
         snd (read_lines json_loads l2 dropped))
    | _ => read_lines json_loads l1 None
    end.
Proof.
  induction l1 as [|line rest IH]; cbn [app read_lines snd fst].
  - now destruct (read_lines json_loads l2 dropped).
  - destruct (String.eqb line ""); [exact IH|].
    destruct (json_loads line) as [data|]; [|exact IH].
    destruct (message <- py_get data "message" (JObj []) ;;
              py_get message "content" (JStr "")) as [content|e];
      [|reflexivity].
    destruct (done <- py_get data "done" JNull ;;
              (if truthy done
               then reason <- py_get data "done_reason" JNull ;;
                    Ok (is_stop_reason reason)
               else Ok false)) as [[|]|e]; try reflexivity.
    rewrite IH.
    destruct (read_lines json_loads rest None) as [tokens ending].
    cbn [fst snd]. destruct ending; try reflexivity.
    now rewrite app_assoc.
Qed.

End StreamProperties.

Lemma read_lines_skips_noise_witness :
  read_lines loads_chunks (["chunk-1"] ++ "keep-alive" :: ["chunk-2"]) None
  = read_lines loads_chunks (["chunk-1"] ++ ["chunk-2"]) None
  /\ fst (read_lines loads_chunks ["chunk-1"; "chunk-2"; "chunk-end"] None)
     = [JStr "Ciao"; JStr " Roma"].
Proof.
  destruct (read_lines_skips_noise loads_chunks ["chunk-1"] ["chunk-2"]
              "keep-alive" None (or_intror eq_refl)) as [H _].
  split; [exact H | reflexivity].
Defined.

(** ** The chat endpoint *)

Lemma append_assoc_string (a b c : string) : (a ++ b) ++ c = a ++ (b ++ c).
Proof. induction a as [|x a IH]; cbn; [reflexivity | now rewrite IH]. Qed.

Lemma append_empty_r (a : string) : a ++ "" = a.
Proof. induction a as [|x a IH]; cbn; [reflexivity | now rewrite IH]. Qed.

Section ChatProperties.

Variable json_loads : string -> option json.
Variable json_dumps : json -> string.

Lemma relay_inv (tokens : list json) (full_response : string) :
  exists texts rest,
    tokens = (map JStr texts ++ rest)%list
    /\ relay json_dumps tokens full_response
       = (map (token_event json_dumps) texts,
          full_response ++ joined texts,
          match rest with
          | [] => None
          | v :: _ =>
              Some (TypeError ("can only concatenate str (not " ++ dq
                               ++ type_name v ++ dq ++ ") to str"))
          end)
    /\ match rest with
       | [] => True
       | v :: _ => is_string v = false
       end.
Proof.
  revert full_response.
  induction tokens as [|token tokens IH]; intros full_response.
  - exists [], []. cbn. rewrite append_empty_r. auto.
  - assert (Hother : is_string token = false ->
              exists texts rest,
                (token :: tokens = map JStr texts ++ rest)%list
                /\ relay json_dumps (token :: tokens) full_response
                   = (map (token_event json_dumps) texts,
                      full_response ++ joined texts,
                      match rest with
                      | [] => None
                      | v :: _ =>
                          Some (TypeError
                                  ("can only concatenate str (not " ++ dq
                                   ++ type_name v ++ dq ++ ") to str"))
                      end)
                /\ match rest with
                   | [] => True
                   | v :: _ => is_string v = false
                   end).
    { intros Hs. exists [], (token :: tokens).
      split; [reflexivity|]. split; [|exact Hs].
      cbn [map joined fold_right]. rewrite append_empty_r.
      destruct token; try reflexivity. discriminate Hs. }
    destruct token as [| | | |text| |]; try (apply Hother; reflexivity).
    clear Hother.
    destruct (IH (full_response ++ text)) as (texts & rest & Ht & Hr & Hrest).
    exists (text :: texts), rest. cbn [map app relay]. rewrite Hr.
    split; [now rewrite Ht|]. split; [|exact Hrest].
    cbn [joined fold_right]. fold (joined texts).
    now rewrite append_assoc_string.
Qed.

Lemma chat_stream_shape (req : ChatRequest) (reply : stream_outcome)
    (now_user now_reply : Z) (table : list ChatMessage.t) :
  exists texts failure rest,
    chat_stream json_loads json_dumps req reply now_user now_reply table
    = ((map (token_event json_dumps) texts
        ++ map (error_event json_dumps) failure
        ++ [done_event json_dumps])%list,
       with_reply req (joined texts) now_reply
                  (with_user_message req now_user table))
    /\ (List.length failure <= 1)%nat
    /\ fst (snd (stream_chat json_loads
                   (map (fun m => JObj [("role", JStr (mi_role m));
                                        ("content", JStr (mi_content m))])
                        (cr_messages req))
                   (cr_model req) (cr_keep_alive req) reply))
       = (map JStr texts ++ rest)%list
    /\ (failure = [] ->
        rest = []
        /\ forall e,
             snd (snd (stream_chat json_loads
                         (map (fun m => JObj [("role", JStr (mi_role m));
                                              ("content", JStr (mi_content m))])
                              (cr_messages req))
                         (cr_model req) (cr_keep_alive req) reply))
             <> Failed e).
Proof.
  unfold chat_stream.
  fold (with_user_message req now_user table).
  destruct (snd (stream_chat json_loads _ (cr_model req) (cr_keep_alive req)
                   reply)) as [tokens ending].
  cbn [fst snd].
  destruct (relay_inv tokens "") as (texts & rest & Ht & Hr & Hrest).
  rewrite Hr. cbn [append].
  fold (with_reply req (joined texts) now_reply
                   (with_user_message req now_user table)).
  destruct rest as [|v rest].
  - destruct ending as [| |e].
    + exists texts, [], []. split; [reflexivity|]. split; [cbn; lia|].
      split; [exact Ht|]. intros _. split; [reflexivity | discriminate].
    + exists texts, [], []. split; [reflexivity|]. split; [cbn; lia|].
      split; [exact Ht|]. intros _. split; [reflexivity | discriminate].
    + exists texts, [e], []. split; [reflexivity|]. split; [cbn; lia|].
      split; [exact Ht|]. discriminate.
  - eexists texts, [_], (v :: rest). split; [reflexivity|].
    split; [cbn; lia|]. split; [exact Ht|]. discriminate.
Qed.

(** X15: whatever the model server does, the events of a chat call are
    the token events, then at most one error event, then exactly one done
    event.  The user's last message is stored before the server is asked,
    also when the server fails; the assistant's message is stored exactly
    when some text was streamed, and its content is the texts of the token
    events in order.  Nothing else is written. *)
Theorem chat_stream_outcome (req : ChatRequest) (reply : stream_outcome)
    (now_user now_reply : Z) (table : list ChatMessage.t) :
  exists texts failure rest,
    chat_stream json_loads json_dumps req reply now_user now_reply table
    = ((map (token_event json_dumps) texts
        ++ map (error_event json_dumps) failure
        ++ [done_event json_dumps])%list,
       with_reply req (joined texts) now_reply
                  (with_user_message req now_user table))
    /\ (List.length failure <= 1)%nat
    /\ fst (snd (stream_chat json_loads
                   (map (fun m => JObj [("role", JStr (mi_role m));
                                        ("content", JStr (mi_content m))])
                        (cr_messages req))
                   (cr_model req) (cr_keep_alive req) reply))
       = (map JStr texts ++ rest)%list
    /\ (failure = [] ->
        rest = []
        /\ forall e,
             snd (snd (stream_chat json_loads
                         (map (fun m => JObj [("role", JStr (mi_role m));
                                              ("content", JStr (mi_content m))])
                              (cr_messages req))
                         (cr_model req) (cr_keep_alive req) reply))
             <> Failed e).
Proof. exact (chat_stream_shape req reply now_user now_reply table). Qed.

End ChatProperties.

(** A call answered in two chunks and a final one, and a call the server
    refuses. *)
Lemma chat_stream_answered :
  chat_stream loads_chunks dumps_none ask
              (Streaming None ["chunk-1"; ""; "chunk-2"; "chunk-end"; "late"]
                         None)
              20 21 chat_log
  = ([token_event dumps_none "Ciao"; token_event dumps_none " Roma";
      done_event dumps_none],
     (chat_log
      ++ [ChatMessage.mk 4 (Some 1) "user" "What to eat?" 20;
          ChatMessage.mk 5 (Some 1) "assistant" "Ciao Roma" 21])%list).
Proof. reflexivity. Qed.

Lemma chat_stream_refused :
  chat_stream loads_chunks dumps_none ask (StreamRaises "connection refused")
              20 21 chat_log
  = ([error_event dumps_none (RequestError "connection refused");
      done_event dumps_none],
     (chat_log
      ++ [ChatMessage.mk 4 (Some 1) "user" "What to eat?" 20])%list).
Proof. reflexivity. Qed.

(** ** The chat history *)

Lemma insert_asc_perm (m : ChatMessage.t) (l : list ChatMessage.t) :
  Permutation (insert_asc m l) (m :: l).
Proof.
  induction l as [|x l IH]; cbn [insert_asc]; [reflexivity|].
  destruct (ChatMessage.created_at m <? ChatMessage.created_at x);
    [reflexivity|].
  rewrite IH. apply perm_swap.
Qed.

Lemma insert_asc_sorted (m : ChatMessage.t) (l : list ChatMessage.t) :
  StronglySorted not_later l -> StronglySorted not_later (insert_asc m l).
Proof.
  induction 1 as [|x l Hs IH Hx]; cbn [insert_asc].
  - repeat constructor.
  - destruct (ChatMessage.created_at m <? ChatMessage.created_at x) eqn:E.
    + apply Z.ltb_lt in E. constructor; [now constructor|].
      constructor; [unfold not_later; lia|].
      rewrite Forall_forall in *. intros y Hy. specialize (Hx y Hy).
      unfold not_later in *. lia.
    + apply Z.ltb_ge in E. constructor; [exact IH|].
      rewrite Forall_forall in *. intros y Hy.
      apply (Permutation_in _ (insert_asc_perm m l)) in Hy.
      destruct Hy as [<- | Hy]; [exact E | now apply Hx].
Qed.

Lemma fold_insert_asc (l acc : list ChatMessage.t) :
  StronglySorted not_later acc ->
  StronglySorted not_later
    (fold_left (fun sorted m => insert_asc m sorted) l acc)
  /\ Permutation (fold_left (fun sorted m => insert_asc m sorted) l acc)
                 (acc ++ l).
Proof.
  revert acc. induction l as [|m l IH]; intros acc Hacc; cbn [fold_left].
  - rewrite app_nil_r. split; [exact Hacc | reflexivity].
  - destruct (IH (insert_asc m acc) (insert_asc_sorted m acc Hacc))
      as [Hs Hp].
    split; [exact Hs|]. rewrite Hp, insert_asc_perm.
    change (m :: acc) with ([m] ++ acc)%list.
    change (m :: l) with ([m] ++ l)%list.
    rewrite !app_assoc. apply Permutation_app_tail. apply Permutation_app_comm.
Qed.

Lemma order_by_created_at_spec (l : list ChatMessage.t) :
  StronglySorted not_later (order_by_created_at l)
  /\ Permutation (order_by_created_at l) l.
Proof. apply (fold_insert_asc l []). constructor. Qed.

Lemma StronglySorted_map {A B : Type} (f : A -> B) (R : A -> A -> Prop)
    (S : B -> B -> Prop) (l : list A) :
  (forall a b, R a b -> S (f a) (f b)) ->
  StronglySorted R l -> StronglySorted S (map f l).
Proof.
  intros H. induction 1 as [|x l _ IH Hx]; cbn [map]; constructor; auto.
  rewrite Forall_forall in *. intros y Hy. apply in_map_iff in Hy.
  destruct Hy as (a & <- & Ha). auto.
Qed.

Lemma get_chat_history_spec (trip_id : Z) (table : list ChatMessage.t) :
  StronglySorted older_or_same (get_chat_history trip_id table)
  /\ Permutation
       (get_chat_history trip_id table)
       (map history_item
            (filter (fun m => eq_opt_Z (ChatMessage.trip_id m) trip_id) table))
  /\ (forall item,
        In item (get_chat_history trip_id table) <->
        exists m, In m table /\ ChatMessage.trip_id m = Some trip_id
                  /\ item = history_item m).
Proof.
  unfold get_chat_history. fold history_item.
  destruct (order_by_created_at_spec
              (filter (fun m => eq_opt_Z (ChatMessage.trip_id m) trip_id)
                      table)) as [Hs Hp].
  assert (Hperm : Permutation
            (map history_item
               (order_by_created_at
                  (filter (fun m => eq_opt_Z (ChatMessage.trip_id m) trip_id)
                          table)))
            (map history_item
               (filter (fun m => eq_opt_Z (ChatMessage.trip_id m) trip_id)
                       table)))
    by now apply Permutation_map.
  split; [|split; [exact Hperm|]].
  - apply (StronglySorted_map history_item not_later older_or_same);
      [|exact Hs].
    intros a b Hab. exact Hab.
  - intros item. split.
    + intros Hin. apply (Permutation_in _ Hperm) in Hin.
      apply in_map_iff in Hin. destruct Hin as (m & <- & Hm).
      apply filter_In in Hm. destruct Hm as [Hm Ht]. exists m.
      split; [exact Hm|]. split; [|reflexivity].
      unfold eq_opt_Z in Ht. destruct (ChatMessage.trip_id m) as [x|];
        [|discriminate]. apply Z.eqb_eq in Ht. now subst.
    + intros (m & Hm & Ht & ->).
      apply (Permutation_in _ (Permutation_sym Hperm)).
      apply in_map. apply filter_In. split; [exact Hm|].
      rewrite Ht. cbn [eq_opt_Z]. apply Z.eqb_refl.
Qed.

(** X16: the history of a trip lists exactly the stored messages of that
    trip, each once, oldest first; a message stored without a trip is in no
    history. *)
Theorem get_chat_history_of_trip (trip_id : Z) (table : list ChatMessage.t) :
  StronglySorted older_or_same (get_chat_history trip_id table)
  /\ Permutation
       (get_chat_history trip_id table)
       (map history_item
            (filter (fun m => eq_opt_Z (ChatMessage.trip_id m) trip_id) table))
  /\ (forall item,
        In item (get_chat_history trip_id table) <->
        exists m, In m table /\ ChatMessage.trip_id m = Some trip_id
                  /\ item = history_item m).
Proof. exact (get_chat_history_spec trip_id table). Qed.

Lemma history_ignores_other_rows (trip_id : Z)
    (table rows : list ChatMessage.t) :
  (forall m, In m rows -> ChatMessage.trip_id m <> Some trip_id) ->
  get_chat_history trip_id (table ++ rows) = get_chat_history trip_id table.
Proof.
  intros H. unfold get_chat_history. rewrite filter_app.
  assert (E : filter (fun m => eq_opt_Z (ChatMessage.trip_id m) trip_id) rows
              = []).
  { induction rows as [|m rows IH]; [reflexivity|]. cbn [filter].
    destruct (eq_opt_Z (ChatMessage.trip_id m) trip_id) eqn:Em.
    - exfalso. apply (H m); [now left|]. unfold eq_opt_Z in Em.
      destruct (ChatMessage.trip_id m) as [x|]; [|discriminate].
      apply Z.eqb_eq in Em. now subst.
    - apply IH. intros x Hx. apply H. now right. }
  now rewrite E, app_nil_r.
Qed.

Lemma chat_stream_appends (json_loads : string -> option json)
    (json_dumps : json -> string) (req : ChatRequest)
    (reply : stream_outcome) (now_user now_reply : Z)
    (table : list ChatMessage.t) :
  exists rows,
    snd (chat_stream json_loads json_dumps req reply now_user now_reply table)
    = (table ++ rows)%list
    /\ (forall m, In m rows -> ChatMessage.trip_id m = cr_trip_id req)
    /\ (forall u, last_user_msg (cr_messages req) = Some u ->
          exists id, In (ChatMessage.mk id (cr_trip_id req) "user"
                                        (mi_content u) now_user) rows).
Proof.
  destruct (chat_stream_shape json_loads json_dumps req reply now_user
              now_reply table) as (texts & failure & rest & Heq & _).
  rewrite Heq. cbn [snd]. unfold with_reply, with_user_message, add_message.
  destruct (last_user_msg (cr_messages req)) as [u|];
    destruct (String.eqb (joined texts) "").
  - eexists [_]. split; [reflexivity|]. split.
    + intros m [<- | []]. reflexivity.
    + intros u' [= <-]. eexists. now left.
  - eexists [_; _]. split; [now rewrite <- app_assoc|]. split.
    + intros m [<- | [<- | []]]; reflexivity.
    + intros u' [= <-]. eexists. now left.
  - exists []. split; [now rewrite app_nil_r|]. split.
    + intros m [].
    + discriminate.
  - eexists [_]. split; [reflexivity|]. split.
    + intros m [<- | []]. reflexivity.
    + discriminate.
Qed.

(** X17: a chat call only adds to the histories.  The history of every
    trip other than the one named in the request is unchanged, and a call
    without a trip changes no history at all, although its messages are
    stored; in the history of the trip named, every earlier item is still
    there and the user's last message has been added. *)
Theorem chat_history_after_chat (json_loads : string -> option json)
    (json_dumps : json -> string) (req : ChatRequest)
    (reply : stream_outcome) (now_user now_reply : Z)
    (table : list ChatMessage.t) :
  let table' :=
    snd (chat_stream json_loads json_dumps req reply now_user now_reply
                     table) in
  (forall trip_id, cr_trip_id req <> Some trip_id ->
                   get_chat_history trip_id table'
                   = get_chat_history trip_id table)
  /\ (forall trip_id item,
        In item (get_chat_history trip_id table) ->
        In item (get_chat_history trip_id table'))
  /\ (forall trip_id u,
        cr_trip_id req = Some trip_id ->
        last_user_msg (cr_messages req) = Some u ->
        exists id,
          In (mkHistoryItem id "user" (mi_content u) now_user)
             (get_chat_history trip_id table')).
Proof.
  intros table'.
  destruct (chat_stream_appends json_loads json_dumps req reply now_user
              now_reply table) as (rows & Heq & Htrip & Huser).
  fold table' in Heq. rewrite Heq. split; [|split].
  - intros trip_id Hne. apply history_ignores_other_rows.
    intros m Hm. rewrite (Htrip m Hm). exact Hne.
  - intros trip_id item Hin.
    apply get_chat_history_spec in Hin.
    destruct Hin as (m & Hm & Ht & ->).
    apply get_chat_history_spec. exists m.
    split; [apply in_or_app; now left|]. auto.
  - intros trip_id u Ht Hu. destruct (Huser u Hu) as (id & Hin).
    exists id. apply get_chat_history_spec.
    exists (ChatMessage.mk id (cr_trip_id req) "user" (mi_content u) now_user).
    split; [apply in_or_app; now right|]. split; [exact Ht | reflexivity].
Qed.

Lemma chat_history_after_chat_witness :
  get_chat_history 2 (snd (chat_stream loads_chunks dumps_none ask
                             (Streaming None ["chunk-1"; "chunk-end"] None)
                             20 21 chat_log))
  = get_chat_history 2 chat_log
  /\ exists id,
       In (mkHistoryItem id "user" "What to eat?" 20)
          (get_chat_history 1
             (snd (chat_stream loads_chunks dumps_none ask
                     (Streaming None ["chunk-1"; "chunk-end"] None)
                     20 21 chat_log))).
Proof.
  destruct (chat_history_after_chat loads_chunks dumps_none ask
              (Streaming None ["chunk-1"; "chunk-end"] None) 20 21 chat_log)
    as (Hother & _ & Huser).
  split.
  - apply Hother. discriminate.
  - apply (Huser 1 (mkMessageIn "user" "What to eat?")); reflexivity.
Defined.

(** ** Trips and their budgets *)

Lemma next_trip_id_fresh (db : DB) :
  ~ In (next_trip_id db) (map Trip.id (trips db)).
Proof.
  unfold next_trip_id.
  assert (H : forall l x, In x l -> x <= fold_right Z.max 0 l).
  { induction l as [|y l IH]; cbn [In fold_right]; intros x Hx;
      [destruct Hx|].
    destruct Hx as [-> | Hx]; [lia | specialize (IH x Hx); lia]. }
  intros Hin. apply H in Hin. lia.
Qed.

Lemma find_trip_app_fresh (db : DB) (trip : Trip.t) (es : list Expense.t) :
  ~ In (Trip.id trip) (map Trip.id (trips db)) ->
  find_trip (mkDB (trips db ++ [trip]) es) (Trip.id trip) = Some trip
  /\ forall other, other <> Trip.id trip ->
                   find_trip (mkDB (trips db ++ [trip]) es) other
                   = find_trip db other.
Proof.
  intros Hfresh. unfold find_trip. cbn [trips].
  induction (trips db) as [|x l IH]; cbn [app find map] in *.
  - rewrite Z.eqb_refl. split; [reflexivity|]. intros other Hne.
    assert (E : (Trip.id trip =? other) = false)
      by (apply Z.eqb_neq; congruence).
    now rewrite E.
  - assert (Hx : (Trip.id x =? Trip.id trip) = false).
    { apply Z.eqb_neq. intros E. apply Hfresh. now left. }
    rewrite Hx. destruct IH as [IH1 IH2];
      [intros Hin; apply Hfresh; now right|].
    split; [exact IH1|]. intros other Hne.
    destruct (Trip.id x =? other); [reflexivity | now apply IH2].
Qed.

Lemma filter_none {A : Type} (f : A -> bool) (l : list A) :
  (forall a, In a l -> f a = false) -> filter f l = [].
Proof.
  induction l as [|a l IH]; intros H; cbn [filter]; [reflexivity|].
  rewrite (H a) by now left. apply IH. intros x Hx. apply H. now right.
Qed.

Lemma no_expenses_of_unknown_trip (db : DB) (trip_id : Z) :
  db_consistent db -> ~ In trip_id (map Trip.id (trips db)) ->
  filter (fun e => Expense.trip_id e =? trip_id) (expenses db) = [].
Proof.
  intros (_ & _ & Href) Hfresh. apply filter_none. intros e He.
  apply Z.eqb_neq. intros E. destruct (Href e He) as (t & Ht & Hid).
  apply Hfresh. rewrite <- E, <- Hid. now apply in_map.
Qed.

Lemma empty_budget_summary (trip : Trip.t) :
  Trip.budget_total trip = None -> Trip.budget_currency trip = Some "USD" ->
  Trip.budget_estimates trip = None ->
  exists s, compute_summary trip [] = Ok s /\ empty_summary s.
Proof.
  intros Hb Hc He.
  assert (Hwf : summarisable (Trip.budget_estimates trip) = true)
    by now rewrite He.
  destruct (compute_summary_total trip [] Hwf) as [s Hs].
  exists s. split; [exact Hs|].
  pose proof (compute_summary_inv _ _ _ Hs)
    as (H1 & H2 & H3 & H4 & H5 & _ & _).
  destruct (summary_categories _ _ _ Hs) as [Hm Hf].
  rewrite Hb in *. rewrite Hc in H2. cbn [budget_if_set] in *.
  unfold empty_summary.
  split; [exact H1|]. split; [exact H2|].
  split; [rewrite H3; reflexivity|].
  split; [exact H4|]. split; [exact H5|]. split; [exact Hm|].
  eapply Forall_impl; [|exact Hf]. cbv beta.
  intros ce (Hspent & Hest & Hpb & Hfalsy & _).
  unfold stored_estimate in Hest. rewrite He in Hest.
  rewrite Hb in Hpb. cbn [budget_if_set] in Hpb.
  split; [exact Hspent|]. split; [exact Hest|]. split; [exact Hpb|].
  apply Hfalsy. now rewrite Hest.
Qed.

Lemma create_trip_spec (data : TripCreate)
    (found : option (real * real)) (now : Z) (db : DB) :
  db_consistent db ->
  (forall e, create_trip data (Raise e) now db = (ServerError e, db))
  /\ exists d db',
       create_trip data (Ok found) now db = (Success d, db')
       /\ ~ In (td_id d) (map Trip.id (trips db))
       /\ get_trip (td_id d) db' = Success d
       /\ (forall other, other <> td_id d ->
                         find_trip db' other = find_trip db other)
       /\ expenses db' = expenses db
       /\ db_consistent db'
       /\ exists s, get_budget (td_id d) db'
                    = Success (mkBudgetResponse s [])
                    /\ empty_summary s.
Proof.
  intros Hdb. split; [reflexivity|].
  unfold create_trip.
  set (trip := Trip.mk (next_trip_id db) (tc_title data) (tc_destination data)
                 (tc_start_date data) (tc_end_date data) (tc_description data)
                 (option_map fst found) (option_map snd found) now
                 None (Some "USD") None).
  exists (trip_to_dict trip), (mkDB (trips db ++ [trip]) (expenses db)).
  pose proof (next_trip_id_fresh db) as Hfresh.
  destruct (find_trip_app_fresh db trip (expenses db) Hfresh)
    as [Hfind Hothers].
  assert (Hnone : trip_expenses (mkDB (trips db ++ [trip]) (expenses db))
                                (next_trip_id db) = []).
  { unfold trip_expenses. cbn [expenses].
    now apply no_expenses_of_unknown_trip. }
  split; [reflexivity|]. split; [exact Hfresh|].
  split; [unfold get_trip; cbn [td_id trip_to_dict]; now rewrite Hfind|].
  split; [exact Hothers|]. split; [reflexivity|]. split.
  { destruct Hdb as (H1 & H2 & H3). split; [|split; [exact H2|]].
    - cbn [trips]. rewrite map_app. cbn [map]. apply NoDup_snoc; assumption.
    - cbn [trips expenses]. intros e He. destruct (H3 e He) as (t & Ht & Hid).
      exists t. split; [apply in_or_app; now left | exact Hid]. }
  destruct (empty_budget_summary trip eq_refl eq_refl eq_refl) as (s & Hs & He).
  exists s. split; [|exact He].
  unfold get_budget. cbn [td_id trip_to_dict].
  change (Trip.id trip) with (next_trip_id db) in *.
  rewrite Hfind, Hnone.
  cbn [order_by_created_at_desc fold_right map]. now rewrite Hs.
Qed.

(** X18: create-trip stores nothing when geocoding raises; otherwise it
    appends one trip with an id no stored trip has, keeps every other trip
    and every expense, and keeps the store consistent.  The budget of the
    new trip then reads as empty: no expenses, nothing spent, currency
    "USD", every ratio null and all six categories at zero. *)
Theorem create_trip_budget_is_empty (data : TripCreate)
    (found : option (real * real)) (now : Z) (db : DB) :
  db_consistent db ->
  (forall e, create_trip data (Raise e) now db = (ServerError e, db))
  /\ exists d db',
       create_trip data (Ok found) now db = (Success d, db')
       /\ ~ In (td_id d) (map Trip.id (trips db))
       /\ get_trip (td_id d) db' = Success d
       /\ (forall other, other <> td_id d ->
                         find_trip db' other = find_trip db other)
       /\ expenses db' = expenses db
       /\ db_consistent db'
       /\ exists s, get_budget (td_id d) db'
                    = Success (mkBudgetResponse s [])
                    /\ empty_summary s.
Proof. exact (create_trip_spec data found now db). Qed.

Lemma create_trip_budget_is_empty_witness :
  exists d db',
    create_trip lisbon_request (Ok None) 30 store2 = (Success d, db')
    /\ td_id d = 3
    /\ exists s, get_budget 3 db' = Success (mkBudgetResponse s [])
                 /\ s_total_spent s = zero.
Proof.
  assert (Hdb : db_consistent store2).
  { split; [|split].
    - cbn. repeat constructor; cbn; intuition discriminate.
    - cbn. repeat constructor; cbn; intuition discriminate.
    - intros e [<- | [<- | []]]; exists rome; split;
        (now left) || reflexivity. }
  destruct (create_trip_budget_is_empty lisbon_request None 30 store2 Hdb)
    as (_ & d & db' & Hcreate & _ & _ & _ & _ & _ & s & Hget & Hempty).
  exists d, db'. split; [exact Hcreate|].
  assert (Hid : td_id d = 3).
  { apply (f_equal fst) in Hcreate. cbn [fst create_trip] in Hcreate.
    injection Hcreate as <-. reflexivity. }
  split; [exact Hid|]. exists s. rewrite <- Hid. split; [exact Hget|].
  now destruct Hempty as (_ & _ & H & _).
Defined.

Lemma compute_summary_reads_budget_columns (t t' : Trip.t)
    (es : list Expense.t) :
  Trip.budget_total t' = Trip.budget_total t ->
  Trip.budget_currency t' = Trip.budget_currency t ->
  Trip.budget_estimates t' = Trip.budget_estimates t ->
  compute_summary t' es = compute_summary t es.
Proof. intros H1 H2 H3. unfold compute_summary. now rewrite H1, H2, H3. Qed.

(** X19: update-trip on a stored trip overwrites only the supplied ones
    of title, description and dates of that trip, and no budget column, no
    other trip and no expense.  So get-budget gives the same answer for
    every trip before and after it. *)
Theorem update_trip_keeps_budget (trip_id : Z) (data : TripUpdate) (db : DB)
    (trip : Trip.t) :
  find_trip db trip_id = Some trip ->
  let db' := snd (update_trip trip_id data db) in
  find_trip db' trip_id = Some (apply_trip_update data trip)
  /\ expenses db' = expenses db
  /\ (forall other, other <> trip_id ->
                     find_trip db' other = find_trip db other)
  /\ (forall other, get_budget other db' = get_budget other db).
Proof.
  intros Hfind db'.
  assert (Hdb' : db' = commit_trip (apply_trip_update data trip) db).
  { unfold db', update_trip. now rewrite Hfind. }
  destruct (find_trip_some _ _ _ Hfind) as [_ Hid].
  assert (Hfound : find_trip db' trip_id = Some (apply_trip_update data trip)).
  { rewrite Hdb'. now apply find_commit_trip_same with (t := trip). }
  split; [exact Hfound|]. split; [now rewrite Hdb'|]. split.
  { intros other Hne. rewrite Hdb'. apply find_commit_trip_other.
    cbn [apply_trip_update Trip.id]. congruence. }
  intros other. unfold get_budget.
  assert (Hexp : trip_expenses db' other = trip_expenses db other)
    by now rewrite Hdb'.
  rewrite Hexp. destruct (Z.eq_dec other trip_id) as [-> | Hne].
  - rewrite Hfound, Hfind.
    now rewrite (compute_summary_reads_budget_columns trip
                   (apply_trip_update data trip)).
  - rewrite Hdb', find_commit_trip_other; [reflexivity|].
    cbn [apply_trip_update Trip.id]. congruence.
Qed.

Lemma update_trip_keeps_budget_witness :
  get_budget 1 (snd (update_trip 1 new_dates store2)) = get_budget 1 store2
  /\ resolve_duration date_fromisoformat default_request
       (apply_trip_update new_dates rome) = 3.
Proof.
  destruct (update_trip_keeps_budget 1 new_dates store2 rome eq_refl)
    as (_ & _ & _ & Hbudget).
  split; [apply Hbudget | reflexivity].
Defined.

(** ** Estimating twice *)

Lemma estimate_costs_success (json_loads : string -> option json)
    (fromisoformat : string -> option Z) (trip_id : Z)
    (req : EstimateRequest) (db : DB) (net : Net)
    (r : EstimateResponse) (db' : DB) (net' : Net) :
  estimate_costs json_loads fromisoformat trip_id req db net
  = (Success r, db', net') ->
  exists trip trip',
    find_trip db trip_id = Some trip
    /\ apply_estimates trip (est_estimates r) = Ok (Some trip')
    /\ db' = commit_trip trip' db
    /\ find_trip db' trip_id = Some trip'.
Proof.
  unfold estimate_costs.
  destruct (find_trip db trip_id) as [trip|] eqn:Hfind; [|discriminate].
  destruct (generate_structured json_loads _ (er_model req)
              (Some ESTIMATE_SCHEMA) net) as [g n].
  destruct g as [result|e]; [|discriminate].
  destruct (py_get result "result" (JObj [])) as [estimates|e];
    [|discriminate].
  assert (Hmain :
    match apply_estimates trip estimates with
    | Ok (Some trip0) =>
        (respond
           (summary <-
            compute_summary trip0
              (trip_expenses (commit_trip trip0 db) trip_id) ;;
            Ok (mkEstimateResponse estimates summary)),
         commit_trip trip0 db, n)
    | Ok None => (Unmodelled, db, n)
    | Raise e => (ServerError e, db, n)
    end = (Success r, db', net') ->
    exists trip', apply_estimates trip estimates = Ok (Some trip')
                  /\ db' = commit_trip trip' db
                  /\ est_estimates r = estimates).
  { destruct (apply_estimates trip estimates) as [[trip'|]|e];
      try discriminate.
    intros H. exists trip'. split; [reflexivity|].
    injection H as Hr <- _. split; [reflexivity|].
    unfold respond in Hr.
    destruct (compute_summary trip' _) as [s|e]; cbn [bind] in Hr;
      [|discriminate].
    now injection Hr as <-. }
  intros H.
  assert (Hex : exists trip', apply_estimates trip estimates = Ok (Some trip')
                              /\ db' = commit_trip trip' db
                              /\ est_estimates r = estimates).
  { destruct estimates; try (apply Hmain; exact H). discriminate H. }
  destruct Hex as (trip' & Happly & -> & Hest). subst estimates.
  exists trip, trip'. split; [reflexivity|]. split; [exact Happly|].
  split; [reflexivity|].
  destruct (apply_estimates_inv _ _ _ Happly) as (_ & _ & _ & Hid & _).
  now apply find_commit_trip_same with (t := trip).
Qed.

(** X20: the budget an estimation gives a trip is given once.  When a
    trip without budget is estimated and the result carries a truthy
    ["total"], that number becomes the trip's budget and is not zero; every
    later successful estimation of the trip replaces the stored estimates by
    its own result and leaves that budget as it is. *)
Theorem adopted_total_survives (json_loads : string -> option json)
    (fromisoformat : string -> option Z) (trip_id : Z)
    (req1 : EstimateRequest) (db : DB) (net1 : Net) (r1 : EstimateResponse)
    (db1 : DB) (n1 : Net) (trip : Trip.t) (t : json) :
  find_trip db trip_id = Some trip ->
  budget_unset trip ->
  estimate_costs json_loads fromisoformat trip_id req1 db net1
  = (Success r1, db1, n1) ->
  py_get (est_estimates r1) "total" JNull = Ok t ->
  truthy t = true ->
  exists x trip1,
    as_number t = Some x /\ real_is_zero x = false
    /\ find_trip db1 trip_id = Some trip1
    /\ Trip.budget_total trip1 = Some x
    /\ forall req2 net2 r2 db2 n2,
         estimate_costs json_loads fromisoformat trip_id req2 db1 net2
         = (Success r2, db2, n2) ->
         exists trip2,
           find_trip db2 trip_id = Some trip2
           /\ Trip.budget_total trip2 = Some x
           /\ Trip.budget_estimates trip2 = Some (est_estimates r2).
Proof.
  intros Hfind Hunset Hfirst Htotal Htruthy.
  destruct (estimate_costs_success _ _ _ _ _ _ _ _ _ Hfirst)
    as (trip0 & trip1 & Hfind0 & Happly & _ & Hfind1).
  assert (trip0 = trip) by congruence. subst trip0.
  destruct (apply_estimates_inv _ _ _ Happly) as (_ & _ & Htot & _).
  rewrite (budget_if_set_of_unset _ Hunset) in Htot.
  destruct Htot as [(b & Hb & _) | (_ & t' & Hget & Ht')]; [discriminate|].
  assert (t' = t) by congruence. subst t'.
  destruct Ht' as [[Hfalsy _] | (_ & x & Hx & Hnew)]; [congruence|].
  pose proof (truthy_stored_nonzero _ _ Htruthy Hx) as Hnz.
  exists x, trip1. split; [exact Hx|]. split; [exact Hnz|].
  split; [exact Hfind1|]. split; [exact Hnew|].
  intros req2 net2 r2 db2 n2 Hsecond.
  destruct (estimate_costs_success _ _ _ _ _ _ _ _ _ Hsecond)
    as (trip1' & trip2 & Hfind1' & Happly2 & _ & Hfind2).
  assert (trip1' = trip1) by congruence. subst trip1'.
  destruct (apply_estimates_inv _ _ _ Happly2) as (Hblob & _ & Htot2 & _).
  exists trip2. split; [exact Hfind2|]. split; [|exact Hblob].
  rewrite Hnew in Htot2. cbn [budget_if_set] in Htot2. rewrite Hnz in Htot2.
  destruct Htot2 as [(b & _ & Hsame) | (Hnone & _)];
    [exact Hsame | discriminate].
Qed.

Lemma adopted_total_survives_witness :
  exists r1 db1 n1 r2 db2 n2 trip2,
    estimate_costs loads_examples date_fromisoformat 2 default_request store
                   (mkNet [ok_reply sample_estimate_text; ok_reply "{}"] [])
    = (Success r1, db1, n1)
    /\ estimate_costs loads_examples date_fromisoformat 2 default_request
                      db1 n1 = (Success r2, db2, n2)
    /\ find_trip db2 2 = Some trip2
    /\ Trip.budget_total trip2 = Some (real_of_Z 900)
    /\ Trip.budget_estimates trip2 = Some (JObj []).
Proof.
  destruct (estimate_costs loads_examples date_fromisoformat 2
              default_request store
              (mkNet [ok_reply sample_estimate_text; ok_reply "{}"] []))
    as [[a1 db1] n1] eqn:E1.
  assert (H1 : exists r1, a1 = Success r1
                          /\ est_estimates r1 = sample_estimate).
  { apply (f_equal (fun x => fst (fst x))) in E1. cbn [fst] in E1.
    rewrite <- E1. vm_compute. eauto. }
  destruct H1 as (r1 & -> & Hest1).
  destruct (adopted_total_survives loads_examples date_fromisoformat 2
              default_request store _ r1 db1 n1 unbudgeted (JInt 900)
              eq_refl (or_introl eq_refl) E1)
    as (x & trip1 & Hx & _ & _ & _ & Hlater).
  { now rewrite Hest1. }
  { reflexivity. }
  injection Hx as <-.
  destruct (estimate_costs loads_examples date_fromisoformat 2
              default_request db1 n1) as [[a2 db2] n2] eqn:E2.
  assert (H2 : exists r2, a2 = Success r2 /\ est_estimates r2 = JObj []).
  { apply (f_equal (fun x => fst (fst x))) in E2. cbn [fst] in E2.
    rewrite <- E2. clear E2 Hlater.
    apply (f_equal (fun x => (snd (fst x), snd x))) in E1. cbn [fst snd] in E1.
    injection E1 as <- <-. vm_compute. eauto. }
  destruct H2 as (r2 & -> & Hest2).
  destruct (Hlater _ _ _ _ _ E2) as (trip2 & Hfind2 & Hb2 & Hblob2).
  exists r1, db1, n1, r2, db2, n2, trip2.
  split; [reflexivity|]. split; [exact E2|]. split; [exact Hfind2|].
  split; [exact Hb2|]. now rewrite Hblob2, Hest2.
Defined.

(** ** Witnesses and the invariant, in one place *)

Lemma check_ollama_status_consistent_witness :
  check_ollama_status tags_reply
  = mkOllamaStatus true [JStr "llama3:latest"; JStr "mistral:7b"] 2
  /\ get_available_models tags_reply
     = [JStr "llama3:latest"; JStr "mistral:7b"]
  /\ check_ollama_status error_reply = mkOllamaStatus true [] 0
  /\ check_ollama_status (PostRaises "connection refused")
     = mkOllamaStatus false [] 0.
Proof.
  destruct (check_ollama_status_consistent tags_reply)
    as (_ & _ & Hsame & _ & _).
  destruct (check_ollama_status_consistent error_reply)
    as (_ & _ & _ & _ & Herror).
  split; [reflexivity|]. split; [rewrite Hsame; reflexivity|].
  split; [|reflexivity].
  apply (Herror (Some "Server error '500 Internal Server Error'")
                [("error", JStr "model not found")]); reflexivity.
Defined.

Lemma compute_summary_succeeds_iff_witness :
  (exists s, compute_summary unbudgeted [lunch] = Ok s)
  /\ ~ (exists s, compute_summary spoiled [lunch] = Ok s).
Proof.
  split.
  - apply (proj2 (compute_summary_succeeds_iff unbudgeted [lunch])).
    reflexivity.
  - intros H.
    apply (proj1 (compute_summary_succeeds_iff spoiled [lunch])) in H.
    discriminate H.
Defined.

Lemma chat_stream_outcome_witness :
  exists texts failure,
    fst (chat_stream loads_chunks dumps_none ask
           (Streaming None ["chunk-1"; "chunk-bad"; "chunk-2"] None)
           20 21 chat_log)
    = (map (token_event dumps_none) texts
       ++ map (error_event dumps_none) failure
       ++ [done_event dumps_none])%list
    /\ (List.length failure <= 1)%nat.
Proof.
  destruct (chat_stream_outcome loads_chunks dumps_none ask
              (Streaming None ["chunk-1"; "chunk-bad"; "chunk-2"] None)
              20 21 chat_log) as (texts & failure & rest & Heq & Hlen & _).
  exists texts, failure. rewrite Heq. split; [reflexivity | exact Hlen].
Defined.

Lemma get_chat_history_of_trip_witness :
  get_chat_history 1 chat_log
  = [mkHistoryItem 1 "user" "Where to?" 10;
     mkHistoryItem 3 "assistant" "Rome." 12]
  /\ In (mkHistoryItem 3 "assistant" "Rome." 12) (get_chat_history 1 chat_log).
Proof.
  destruct (get_chat_history_of_trip 1 chat_log) as (_ & _ & Hin).
  split; [reflexivity|].
  apply Hin. exists (ChatMessage.mk 3 (Some 1) "assistant" "Rome." 12).
  split; [cbn; auto|]. split; reflexivity.
Defined.

Lemma create_trip_consistent (data : TripCreate)
    (geo : result (option (real * real))) (now : Z) (db : DB) :
  db_consistent db -> db_consistent (snd (create_trip data geo now db)).
Proof.
  intros Hdb. destruct geo as [found|e]; [|exact Hdb].
  destruct (create_trip_spec data found now db Hdb)
    as (_ & d & db' & Heq & _ & _ & _ & _ & Hc & _).
  now rewrite Heq.
Qed.

Lemma update_trip_consistent (trip_id : Z) (data : TripUpdate) (db : DB) :
  db_consistent db -> db_consistent (snd (update_trip trip_id data db)).
Proof.
  intros Hdb. unfold update_trip.
  destruct (find_trip db trip_id) as [trip|]; [|exact Hdb].
  cbn [snd]. now apply commit_trip_consistent.
Qed.

(** X21: unique primary keys and expenses that belong to stored trips
    are kept by every handler that writes to the trips and expenses
    tables, whatever its answer: the four budget mutators, the estimator,
    and the creation, update and cascading deletion of a trip. *)
Theorem store_consistency_is_invariant (db : DB) :
  db_consistent db ->
  (forall upper trip_id data,
      db_consistent (snd (update_budget_settings upper trip_id data db)))
  /\ (forall trip_id data now,
        db_consistent (snd (add_expense trip_id data now db)))
  /\ (forall trip_id expense_id data,
        db_consistent (snd (update_expense trip_id expense_id data db)))
  /\ (forall trip_id expense_id,
        db_consistent (snd (delete_expense trip_id expense_id db)))
  /\ (forall json_loads fromisoformat trip_id req net,
        db_consistent
          (snd (fst (estimate_costs json_loads fromisoformat trip_id req db
                       net))))
  /\ (forall data geo now, db_consistent (snd (create_trip data geo now db)))
  /\ (forall trip_id data, db_consistent (snd (update_trip trip_id data db)))
  /\ (forall trip_id, db_consistent (snd (delete_trip trip_id db))).
Proof.
  intros Hdb.
  split; [intros; now apply update_budget_settings_consistent|].
  split; [intros; now apply add_expense_consistent|].
  split; [intros; now apply update_expense_consistent|].
  split; [intros; now apply delete_expense_consistent|].
  split; [intros; now apply estimate_costs_consistent|].
  split; [intros; now apply create_trip_consistent|].
  split; [intros; now apply update_trip_consistent|].
  intros. now apply delete_trip_consistent.
Qed.

Lemma store_consistency_is_invariant_witness :
  db_consistent (snd (add_expense 1 taxi_request 9 store))
  /\ db_consistent (snd (delete_trip 1 store)).
Proof.
  destruct (store_consistency_is_invariant store store_consistent)
    as (_ & Hadd & _ & _ & _ & _ & _ & Hdel).
  split; [apply Hadd | apply Hdel].
Defined.
